(** * Franchise marketplace: page handlers over the hosted data service

    A shallow embedding of the page-level handlers of the franchise
    marketplace front end (featured-ad purchase, franchisor login, lead
    management, franchise create/edit forms, admin approvals), together
    with the parts of the language runtime (Date arithmetic) and of the
    hosted data client (tables, storage, authentication) they rely on.

    How the code is modelled:
    - a handler is a computation in a state-and-exception monad over the
      view state of its component and the world (tables, stored objects,
      accounts, session, and the trace of calls issued);
    - a handler closes over the view state it was rendered with, and its
      state updates apply to the live state ([dispatch]);
    - the environment decides, call by call, which remote call is
      refused and with which error ([outcome]); it also supplies the
      clock reading, the random numbers and the generated identifiers;
    - handlers run to completion: interleavings of concurrent handlers
      are not modelled;
    - the browser's time zone is a fixed offset from UTC (no daylight
      saving transitions);
    - JSON numbers are rationals, and [parseFloat] is a parameter. *)

From Stdlib Require Import ZArith List String Ascii Lia QArith_base.
From stdpp Require Import base option list strings gmap fin_maps.

Local Open Scope string_scope.
Local Open Scope Z_scope.

(* ===================================================================== *)
(** * Time values and calendar arithmetic of the language runtime

    [Date] objects hold a time value: milliseconds since the epoch, or NaN
    (here [None]).  The definitions follow the day-number and time-value
    algorithms of the language standard.  The host time zone is modelled
    as a fixed offset [tza] from UTC in milliseconds. *)
(* ===================================================================== *)

Module JSDate.

Definition msPerDay : Z := 86400000.
Definition msPerHour : Z := 3600000.
Definition msPerMinute : Z := 60000.
Definition msPerSecond : Z := 1000.
Definition maxTime : Z := 8640000000000000.

Definition Day (t : Z) : Z := t / msPerDay.
Definition TimeWithinDay (t : Z) : Z := t mod msPerDay.

Definition isLeap (y : Z) : bool :=
  (y mod 4 =? 0) && (negb (y mod 100 =? 0) || (y mod 400 =? 0)).

Definition DaysInYear (y : Z) : Z := if isLeap y then 366 else 365.

Definition DayFromYear (y : Z) : Z :=
  365 * (y - 1970) + (y - 1969) / 4 - (y - 1901) / 100 + (y - 1601) / 400.

Definition TimeFromYear (y : Z) : Z := msPerDay * DayFromYear y.

(** The largest year whose first day is not after the day of [t]: an
    estimate from the mean year length, corrected by at most one. *)
Definition YearFromTime (t : Z) : Z :=
  let d := Day t in
  let y := 1970 + (400 * d) / 146097 in
  if d <? DayFromYear y then y - 1
  else if DayFromYear (y + 1) <=? d then y + 1
  else y.

Definition InLeapYear (t : Z) : Z :=
  if isLeap (YearFromTime t) then 1 else 0.

Definition DayWithinYear (t : Z) : Z := Day t - DayFromYear (YearFromTime t).

(** Day within the year on which month [m] (0 = January) starts;
    [leap] is 1 in a leap year and 0 otherwise.  [monthStart 12] is the
    length of the year. *)
Definition monthStart (m leap : Z) : Z :=
  match m with
  | 0 => 0
  | 1 => 31
  | 2 => 59 + leap
  | 3 => 90 + leap
  | 4 => 120 + leap
  | 5 => 151 + leap
  | 6 => 181 + leap
  | 7 => 212 + leap
  | 8 => 243 + leap
  | 9 => 273 + leap
  | 10 => 304 + leap
  | 11 => 334 + leap
  | _ => 365 + leap
  end.

Definition monthOfDay (d leap : Z) : Z :=
  if d <? 31 then 0
  else if d <? 59 + leap then 1
  else if d <? 90 + leap then 2
  else if d <? 120 + leap then 3
  else if d <? 151 + leap then 4
  else if d <? 181 + leap then 5
  else if d <? 212 + leap then 6
  else if d <? 243 + leap then 7
  else if d <? 273 + leap then 8
  else if d <? 304 + leap then 9
  else if d <? 334 + leap then 10
  else 11.

Definition MonthFromTime (t : Z) : Z :=
  monthOfDay (DayWithinYear t) (InLeapYear t).

Definition DateFromTime (t : Z) : Z :=
  DayWithinYear t - monthStart (MonthFromTime t) (InLeapYear t) + 1.

Definition HourFromTime (t : Z) : Z := (t / msPerHour) mod 24.
Definition MinFromTime (t : Z) : Z := (t / msPerMinute) mod 60.
Definition SecFromTime (t : Z) : Z := (t / msPerSecond) mod 60.
Definition msFromTime (t : Z) : Z := t mod msPerSecond.

(** Number of days in month [m] (0..11) of year [y]. *)
Definition DaysInMonth (y m : Z) : Z :=
  let leap := if isLeap y then 1 else 0 in
  monthStart (m + 1) leap - monthStart m leap.

(** Day number of day [date] of month [month] of [year]; months outside
    0..11 carry into the year, dates outside the month carry into the
    neighbouring months. *)
Definition MakeDay (year month date : Z) : Z :=
  let ym := year + month / 12 in
  let mn := month mod 12 in
  DayFromYear ym + monthStart mn (if isLeap ym then 1 else 0) + date - 1.

Definition MakeDate (day time : Z) : Z := day * msPerDay + time.

Definition TimeClip (t : Z) : option Z :=
  if Z.abs t >? maxTime then None else Some t.

Section LocalZone.

(** Offset of local time from UTC, in milliseconds. *)
Variable tza : Z.

Definition LocalTime (t : Z) : Z := t + tza.
Definition UTC (t : Z) : Z := t - tza.

(** A [Date] object, by its time value. *)
Definition Date : Type := option Z.

Definition getDate (d : Date) : option Z :=
  t ← d; Some (DateFromTime (LocalTime t)).

Definition getMonth (d : Date) : option Z :=
  t ← d; Some (MonthFromTime (LocalTime t)).

Definition getFullYear (d : Date) : option Z :=
  t ← d; Some (YearFromTime (LocalTime t)).

Definition setDate (d : Date) (date : option Z) : Date :=
  t ← d; dt ← date;
  let t := LocalTime t in
  let newDate :=
    MakeDate (MakeDay (YearFromTime t) (MonthFromTime t) dt) (TimeWithinDay t) in
  TimeClip (UTC newDate).

Definition setMonth (d : Date) (month : option Z) : Date :=
  t ← d; m ← month;
  let t := LocalTime t in
  let newDate :=
    MakeDate (MakeDay (YearFromTime t) m (DateFromTime t)) (TimeWithinDay t) in
  TimeClip (UTC newDate).

End LocalZone.

(** ** Rendering a time value as an ISO-8601 string (always in UTC) *)

Definition digitChar (n : Z) : ascii :=
  ascii_of_nat (48 + Z.to_nat (n mod 10)).

(** The [w] least significant decimal digits of [n], zero padded. *)
Fixpoint padDigits (w : nat) (n : Z) : string :=
  match w with
  | O => EmptyString
  | S w' => padDigits w' (n / 10) +:+ String (digitChar n) EmptyString
  end.

Definition isoYear (y : Z) : string :=
  if (0 <=? y) && (y <=? 9999) then padDigits 4 y
  else (if y <? 0 then "-" else "+") +:+ padDigits 6 (Z.abs y).

Definition isoString (t : Z) : string :=
  isoYear (YearFromTime t) +:+ "-" +:+ padDigits 2 (MonthFromTime t + 1) +:+ "-"
  +:+ padDigits 2 (DateFromTime t) +:+ "T" +:+ padDigits 2 (HourFromTime t) +:+ ":"
  +:+ padDigits 2 (MinFromTime t) +:+ ":" +:+ padDigits 2 (SecFromTime t) +:+ "."
  +:+ padDigits 3 (msFromTime t) +:+ "Z".

(** [toISOString] raises a RangeError on an invalid date ([None]). *)
Definition toISOString (d : option Z) : option string :=
  isoString <$> d.

End JSDate.

(* ===================================================================== *)
(** * The hosted data service, as seen through the client handle

    Rows are JSON objects (finite maps from column names to values);
    a table is the list of its rows.  Every remote call is logged in the
    trace and either fails with the error the environment chose for it or
    is applied as issued.  Row-level security, triggers and column
    defaults of the service are outside the model, as are embedded
    related rows in the results of reads. *)
(* ===================================================================== *)

Module Supabase.

Inductive value : Type :=
| VNull
| VStr (s : string)
| VNum (q : Q)
| VBool (b : bool).

#[global] Instance Q_eq_dec : EqDecision Q.
Proof. solve_decision. Defined.

#[global] Instance value_eq_dec : EqDecision value.
Proof. solve_decision. Defined.

Abbreviation row := (gmap string value).

Record File := { file_name : string }.

Record AuthUser := { user_id : string; user_email : string; user_password : string }.

Inductive Event : Type :=
| Insert (table : string) (r : row)
| Update (table : string) (fields : row) (col : string) (v : value)
| Delete (table : string) (col : string) (v : value)
| Upsert (table : string) (r : row) (onConflict : string)
| Select (table : string) (filters : list (string * value))
| Upload (bucket path : string) (f : File)
| SignInWithPassword (email password : string)
| SignOut
| GetUser
| ListUsers
| Fetch (url : string) (body : row)
| RedirectToCheckout (sessionId : string)
| Navigate (path : string)
| ConsoleError (label msg : string).

(** The calls that write to the data service. *)
Definition writes (ev : Event) : bool :=
  match ev with
  | Insert _ _ | Update _ _ _ _ | Delete _ _ _ | Upsert _ _ _ | Upload _ _ _ => true
  | _ => false
  end.

Record World := {
  tables : gmap string (list row);
  objects : list (string * string * File);  (* bucket, path, content *)
  users : list AuthUser;                    (* accounts of the auth service *)
  session : option string;                  (* id of the signed-in user *)
  trace : list Event;                       (* calls and effects, oldest first *)
  calls : nat;                              (* remote calls issued so far *)
  draws : nat;                              (* random numbers drawn so far *)
  outcome : nat -> option string;           (* error of the n-th remote call *)
  fresh : nat -> string;                    (* token generated by the n-th call *)
  random : nat -> string;                   (* n-th random number, printed *)
  clock : Z;                                (* time value read by [new Date()] *)
  project_url : string;
  stripe_loaded : bool
}.

Definition with_tables (f : gmap string (list row) -> gmap string (list row))
    (w : World) : World :=
  {| tables := f (tables w); objects := objects w; users := users w;
     session := session w; trace := trace w; calls := calls w;
     draws := draws w; outcome := outcome w; fresh := fresh w;
     random := random w; clock := clock w; project_url := project_url w;
     stripe_loaded := stripe_loaded w |}.

Definition with_objects (f : list (string * string * File) -> list (string * string * File))
    (w : World) : World :=
  {| tables := tables w; objects := f (objects w); users := users w;
     session := session w; trace := trace w; calls := calls w;
     draws := draws w; outcome := outcome w; fresh := fresh w;
     random := random w; clock := clock w; project_url := project_url w;
     stripe_loaded := stripe_loaded w |}.

Definition with_session (s : option string) (w : World) : World :=
  {| tables := tables w; objects := objects w; users := users w;
     session := s; trace := trace w; calls := calls w;
     draws := draws w; outcome := outcome w; fresh := fresh w;
     random := random w; clock := clock w; project_url := project_url w;
     stripe_loaded := stripe_loaded w |}.

Definition log (ev : Event) (w : World) : World :=
  {| tables := tables w; objects := objects w; users := users w;
     session := session w; trace := trace w ++ [ev]; calls := calls w;
     draws := draws w; outcome := outcome w; fresh := fresh w;
     random := random w; clock := clock w; project_url := project_url w;
     stripe_loaded := stripe_loaded w |}.

Definition tick (w : World) : World :=
  {| tables := tables w; objects := objects w; users := users w;
     session := session w; trace := trace w; calls := S (calls w);
     draws := draws w; outcome := outcome w; fresh := fresh w;
     random := random w; clock := clock w; project_url := project_url w;
     stripe_loaded := stripe_loaded w |}.

Definition drawn (w : World) : World :=
  {| tables := tables w; objects := objects w; users := users w;
     session := session w; trace := trace w; calls := calls w;
     draws := S (draws w); outcome := outcome w; fresh := fresh w;
     random := random w; clock := clock w; project_url := project_url w;
     stripe_loaded := stripe_loaded w |}.

(** The calls issued between world [w] and a later world [w']. *)
Definition events_since (w w' : World) : list Event :=
  drop (length (trace w)) (trace w').

(** ** Tables *)

Definition table (w : World) (t : string) : list row :=
  default [] (tables w !! t).

Definition set_table (t : string) (rows : list row) : World -> World :=
  with_tables (fun ts => <[t := rows]> ts).

(** The filter [.eq(col, v)]: the column holds [v]; null matches nothing. *)
Definition matches (col : string) (v : value) (r : row) : bool :=
  match v with
  | VNull => false
  | _ => bool_decide (r !! col = Some v)
  end.

Definition matches_all (filters : list (string * value)) (r : row) : bool :=
  forallb (fun '(col, v) => matches col v r) filters.

Definition db_insert (t : string) (r : row) (w : World) : World :=
  set_table t (table w t ++ [r]) w.

Definition db_update (t : string) (fields : row) (col : string) (v : value)
    (w : World) : World :=
  set_table t
    (List.map (fun r => if matches col v r then fields ∪ r else r) (table w t)) w.

Definition db_delete (t : string) (col : string) (v : value) (w : World) : World :=
  set_table t (List.filter (fun r => negb (matches col v r)) (table w t)) w.

Definition db_upsert (t : string) (r : row) (onConflict : string) (w : World) : World :=
  let key := default VNull (r !! onConflict) in
  if existsb (matches onConflict key) (table w t)
  then db_update t r onConflict key w
  else db_insert t r w.

Definition db_select (t : string) (filters : list (string * value)) (w : World)
    : list row :=
  List.filter (matches_all filters) (table w t).

(** ** Truthiness of values read from rows and forms *)

Definition nonEmpty (s : string) : bool :=
  match s with EmptyString => false | _ => true end.

Definition text (o : option value) : string :=
  match o with Some (VStr s) => s | _ => "" end.

(** [a || b] on strings *)
Definition orElse (a b : string) : string := if nonEmpty a then a else b.

(** [s.includes(sub)] *)
Definition includes (sub s : string) : bool :=
  match String.index 0 sub s with Some _ => true | None => false end.

(** An object literal. *)
Definition obj (fields : list (string * value)) : row := list_to_map fields.

(** The columns named in [.select('a, b')]. *)
Definition project (cols : list string) (r : row) : row :=
  filter (fun kv => kv.1 ∈ cols) r.

(** [.order(col, { ascending })] on a text column, as a stable insertion
    sort. *)
Definition before (col : string) (ascending : bool) (a b : row) : bool :=
  if ascending then String.leb (text (a !! col)) (text (b !! col))
  else String.leb (text (b !! col)) (text (a !! col)).

Fixpoint place (col : string) (ascending : bool) (r : row) (sorted : list row)
    : list row :=
  match sorted with
  | [] => [r]
  | x :: rest =>
      if before col ascending x r then x :: place col ascending r rest
      else r :: x :: rest
  end.

Definition order_by (col : string) (ascending : bool) (rows : list row) : list row :=
  fold_left (fun sorted r => place col ascending r sorted) rows [].

(** [file.name.split('.').pop()]: what follows the last dot, or the whole
    name when it has none. *)
Fixpoint lastSegment (s cur : string) : string :=
  match s with
  | EmptyString => cur
  | String c s' =>
      if Ascii.eqb c "."%char then lastSegment s' ""
      else lastSegment s' (cur +:+ String c EmptyString)
  end.

Definition fileExt (f : File) : string := lastSegment (file_name f) "".

(** ** Results and the handler monad

    A handler runs over the view state [U] of its component and the
    world; it returns normally or throws an error, given by its message. *)

Inductive Result (A : Type) : Type :=
| Ok (a : A)
| Throw (message : string).
Arguments Ok {A} a.
Arguments Throw {A} message.

#[global] Instance Result_eq_dec {A} `{EqDecision A} : EqDecision (Result A).
Proof. solve_decision. Defined.

Definition M (U A : Type) : Type := U * World -> Result A * (U * World).

#[global] Instance M_ret {U} : MRet (M U) :=
  fun A a s => (Ok a, s).

#[global] Instance M_bind {U} : MBind (M U) :=
  fun A B f m s =>
    match m s with
    | (Ok a, s') => f a s'
    | (Throw e, s') => (Throw e, s')
    end.

Definition throw {U A} (message : string) : M U A :=
  fun s => (Throw message, s).

(** [try { body } catch (err) { handler err }] *)
Definition try_catch {U A} (body : M U A) (handler : string -> M U A) : M U A :=
  fun s =>
    match body s with
    | (Ok a, s') => (Ok a, s')
    | (Throw e, s') => handler e s'
    end.

(** [try { body } finally { cleanup }] *)
Definition finally {U A} (body : M U A) (cleanup : M U unit) : M U A :=
  fun s =>
    match body s with
    | (r, s') =>
        match cleanup s' with
        | (Ok _, s'') => (r, s'')
        | (Throw e, s'') => (Throw e, s'')
        end
    end.

Definition setState {U} (f : U -> U) : M U unit :=
  fun '(u, w) => (Ok tt, (f u, w)).

Definition world {U} : M U World :=
  fun '(u, w) => (Ok w, (u, w)).

Definition effect {U} (ev : Event) : M U unit :=
  fun '(u, w) => (Ok tt, (u, log ev w)).

(** A remote call: logged, then refused with the error chosen by the
    environment, or applied.  The result is the error, if any. *)
Definition call {U} (ev : Event) (apply : World -> World) : M U (option string) :=
  fun '(u, w) =>
    let w1 := tick (log ev w) in
    match outcome w (calls w) with
    | Some e => (Ok (Some e), (u, w1))
    | None => (Ok None, (u, apply w1))
    end.

(** A remote call that answers with data computed from the world before
    the call. *)
Definition query {U A} (ev : Event) (answer : World -> A)
    : M U (option A * option string) :=
  fun '(u, w) =>
    let w1 := tick (log ev w) in
    match outcome w (calls w) with
    | Some e => (Ok (None, Some e), (u, w1))
    | None => (Ok (Some (answer w), None), (u, w1))
    end.

Fixpoint for_of {U A} (xs : list A) (body : A -> M U unit) : M U unit :=
  match xs with
  | [] => mret tt
  | x :: xs' => body x;; for_of xs' body
  end.

(** Handling an event in a component: the handler closes over the view
    state as rendered, while its state updates apply to the live state. *)
Definition dispatch {U A} (handler : U -> M U A) (s : U * World)
    : Result A * (U * World) :=
  handler (fst s) s.

(** ** The client API *)

Definition insert {U} (t : string) (r : row) : M U (option string) :=
  call (Insert t r) (db_insert t r).

(** [.insert(r).select().single()]: the stored row comes back with the
    identifier the service generated for it. *)
Definition insert_returning {U} (t : string) (r : row)
    : M U (option row * option string) :=
  fun '(u, w) =>
    let stored := <["id" := VStr (fresh w (calls w))]> r in
    let w1 := tick (log (Insert t r) w) in
    match outcome w (calls w) with
    | Some e => (Ok (None, Some e), (u, w1))
    | None => (Ok (Some stored, None), (u, db_insert t stored w1))
    end.

Definition update {U} (t : string) (fields : row) (col : string) (v : value)
    : M U (option string) :=
  call (Update t fields col v) (db_update t fields col v).

Definition delete_eq {U} (t : string) (col : string) (v : value)
    : M U (option string) :=
  call (Delete t col v) (db_delete t col v).

Definition upsert {U} (t : string) (r : row) (onConflict : string)
    : M U (option string) :=
  call (Upsert t r onConflict) (db_upsert t r onConflict).

Definition select {U} (t : string) (filters : list (string * value))
    : M U (option (list row) * option string) :=
  query (Select t filters) (db_select t filters).

(** [.select(..).eq(..).order(col, { ascending })] *)
Definition select_ordered {U} (t : string) (filters : list (string * value))
    (col : string) (ascending : bool) : M U (option (list row) * option string) :=
  query (Select t filters) (fun w => order_by col ascending (db_select t filters w)).

(** [.select(..).eq(..).single()]: exactly one row, or an error. *)
Definition select_single {U} (t : string) (filters : list (string * value))
    : M U (option row * option string) :=
  fun '(u, w) =>
    let w1 := tick (log (Select t filters) w) in
    match outcome w (calls w) with
    | Some e => (Ok (None, Some e), (u, w1))
    | None =>
        match db_select t filters w with
        | [r] => (Ok (Some r, None), (u, w1))
        | _ => (Ok (None, Some "JSON object requested, multiple (or no) rows returned"),
                (u, w1))
        end
    end.

Definition storage_upload {U} (bucket path : string) (f : File) : M U (option string) :=
  call (Upload bucket path f) (with_objects (fun os => (os ++ [(bucket, path, f)])%list)).

Definition getPublicUrl (w : World) (bucket path : string) : string :=
  project_url w +:+ "/storage/v1/object/public/" +:+ bucket +:+ "/" +:+ path.

Definition find_user (email password : string) (us : list AuthUser) : option AuthUser :=
  List.find (fun a => bool_decide (user_email a = email)
                      && bool_decide (user_password a = password)) us.

Definition signInWithPassword {U} (email password : string) : M U (option string) :=
  fun '(u, w) =>
    let w1 := tick (log (SignInWithPassword email password) w) in
    match outcome w (calls w) with
    | Some e => (Ok (Some e), (u, w1))
    | None =>
        match find_user email password (users w) with
        | Some a => (Ok None, (u, with_session (Some (user_id a)) w1))
        | None => (Ok (Some "Invalid login credentials"), (u, w1))
        end
    end.

Definition signOut {U} : M U (option string) :=
  call SignOut (with_session None).

(** [auth.getUser()]: the signed-in user's id, if there is one. *)
Definition getUser {U} : M U (option string) :=
  fun '(u, w) =>
    let w1 := tick (log GetUser w) in
    match outcome w (calls w) with
    | Some _ => (Ok None, (u, w1))
    | None => (Ok (session w), (u, w1))
    end.

Definition listUsers {U} : M U (option (list AuthUser) * option string) :=
  query ListUsers users.

(** [new Date()] *)
Definition newDate {U} : M U JSDate.Date :=
  fun '(u, w) => (Ok (Some (clock w)), (u, w)).

(** [date.toISOString()], which throws on an invalid date. *)
Definition toISOString {U} (d : JSDate.Date) : M U string :=
  match JSDate.toISOString d with
  | Some s => mret s
  | None => throw "Invalid time value"
  end.

(** [Math.random()], printed as it is inside a template string. *)
Definition mathRandom {U} : M U string :=
  fun '(u, w) => (Ok (random w (draws w)), (u, drawn w)).

Definition navigate {U} (path : string) : M U unit := effect (Navigate path).

Definition consoleError {U} (label msg : string) : M U unit :=
  effect (ConsoleError label msg).

(** The browser's [fetch] followed by [response.json()]: a refused
    request answers with [ok = false] and the error in its body, an
    accepted one with a generated checkout session id. *)
Record Response := { ok : bool; body_error : string; body_sessionId : string }.

Definition fetch {U} (url : string) (body : row) : M U Response :=
  fun '(u, w) =>
    let w1 := tick (log (Fetch url body) w) in
    match outcome w (calls w) with
    | Some e =>
        (Ok {| ok := false; body_error := e; body_sessionId := "" |}, (u, w1))
    | None =>
        (Ok {| ok := true; body_error := ""; body_sessionId := fresh w (calls w) |},
         (u, w1))
    end.

Definition redirectToCheckout {U} (sessionId : string) : M U (option string) :=
  call (RedirectToCheckout sessionId) (fun w => w).

(** [if (error) throw error] *)
Definition throwIf {U} (error : option string) : M U unit :=
  match error with
  | Some e => throw e
  | None => mret tt
  end.

(** ** Describing runs *)

(** Every call a computation issues, from any state, satisfies [P]. *)
Definition emits {U A} (P : Event -> Prop) (m : M U A) : Prop :=
  forall s, exists evs,
    trace (m s).2.2 = (trace s.2 ++ evs)%list /\ Forall P evs.

(** The data service refuses no call. *)
Definition accepting (w : World) : Prop := forall n, outcome w n = None.

(** Against a service that refuses nothing, [m] started in world [w]
    returns [a] and leaves world [w'], the view state untouched. *)
Definition steps {U A} (m : M U A) (w : World) (a : A) (w' : World) : Prop :=
  forall u, accepting w -> m (u, w) = (Ok a, (u, w')) /\ accepting w'.

(** The world after the service has accepted a call. *)
Definition accepted (ev : Event) (apply : World -> World) (w : World) : World :=
  apply (tick (log ev w)).

(** The world after a run of accepted inserts. *)
Definition insert_all (t : string) (rows : list row) (w : World) : World :=
  fold_left (fun w r => accepted (Insert t r) (db_insert t r) w) rows w.


Definition isUpload (ev : Event) : bool :=
  match ev with Upload _ _ _ => true | _ => false end.

End Supabase.

(* ===================================================================== *)
(** * Featured ads page (franchisor) *)
(* ===================================================================== *)

Module FeaturedAds.
Import Supabase.

Record PricingTier := { duration : string; price : Q }.

Record State := {
  selectedFranchise : string;
  selectedDuration : string;
  isPaymentModalOpen : bool;
  processing : bool;
  error : string;
  loading : bool;
  franchises : list (string * string);
  pricingTiers : list PricingTier;
  featuredAds : list row;
  showDurationModal : bool
}.

Definition setSelectedFranchise (v : string) (s : State) : State :=
  {| selectedFranchise := v; selectedDuration := selectedDuration s;
     isPaymentModalOpen := isPaymentModalOpen s; processing := processing s;
     error := error s; loading := loading s; franchises := franchises s;
     pricingTiers := pricingTiers s; featuredAds := featuredAds s;
     showDurationModal := showDurationModal s |}.

Definition setSelectedDuration (v : string) (s : State) : State :=
  {| selectedFranchise := selectedFranchise s; selectedDuration := v;
     isPaymentModalOpen := isPaymentModalOpen s; processing := processing s;
     error := error s; loading := loading s; franchises := franchises s;
     pricingTiers := pricingTiers s; featuredAds := featuredAds s;
     showDurationModal := showDurationModal s |}.

Definition setIsPaymentModalOpen (v : bool) (s : State) : State :=
  {| selectedFranchise := selectedFranchise s; selectedDuration := selectedDuration s;
     isPaymentModalOpen := v; processing := processing s;
     error := error s; loading := loading s; franchises := franchises s;
     pricingTiers := pricingTiers s; featuredAds := featuredAds s;
     showDurationModal := showDurationModal s |}.

Definition setProcessing (v : bool) (s : State) : State :=
  {| selectedFranchise := selectedFranchise s; selectedDuration := selectedDuration s;
     isPaymentModalOpen := isPaymentModalOpen s; processing := v;
     error := error s; loading := loading s; franchises := franchises s;
     pricingTiers := pricingTiers s; featuredAds := featuredAds s;
     showDurationModal := showDurationModal s |}.

Definition setError (v : string) (s : State) : State :=
  {| selectedFranchise := selectedFranchise s; selectedDuration := selectedDuration s;
     isPaymentModalOpen := isPaymentModalOpen s; processing := processing s;
     error := v; loading := loading s; franchises := franchises s;
     pricingTiers := pricingTiers s; featuredAds := featuredAds s;
     showDurationModal := showDurationModal s |}.

Section Handlers.

(** Offset of the browser's local time from UTC, in milliseconds. *)
Variable tza : Z.

(** The [switch (selectedDuration)] that moves [endDate] forward; it
    has no [default] case. *)
Definition advance (selectedDuration : string) (endDate : JSDate.Date) : JSDate.Date :=
  if bool_decide (selectedDuration = "1w") then
    JSDate.setDate tza endDate ((fun d => d + 7) <$> JSDate.getDate tza endDate)
  else if bool_decide (selectedDuration = "2w") then
    JSDate.setDate tza endDate ((fun d => d + 14) <$> JSDate.getDate tza endDate)
  else if bool_decide (selectedDuration = "1m") then
    JSDate.setMonth tza endDate ((fun m => m + 1) <$> JSDate.getMonth tza endDate)
  else if bool_decide (selectedDuration = "6m") then
    JSDate.setMonth tza endDate ((fun m => m + 6) <$> JSDate.getMonth tza endDate)
  else endDate.

Definition handlePaymentConfirm (s : State) : M State unit :=
  finally
    (try_catch
       (setState (setProcessing true);;
        setState (setError "");;
        selectedTier ←
          match List.find (fun tier => bool_decide (duration tier = selectedDuration s))
                  (pricingTiers s) with
          | Some tier => mret tier
          | None => throw "Invalid duration selected"
          end;
        now ← newDate;
        let endDate := advance (selectedDuration s) now in
        (* Create featured ad *)
        start_date ← toISOString now;
        end_date ← toISOString endDate;
        created ← insert_returning "featured_ads"
          (obj [("franchise_id", VStr (selectedFranchise s));
                ("amount", VNum (price selectedTier));
                ("start_date", VStr start_date);
                ("end_date", VStr end_date);
                ("status", VStr "pending_payment");
                ("payment_status", VStr "pending")]);
        throwIf created.2;;
        (* Create checkout session *)
        user ← getUser;
        match user with
        | None => throw "Not authenticated"
        | Some userId =>
            response ← fetch "/api/create-checkout-session"
              (obj [("adId", default VNull (created.1 ≫= (.!! "id")));
                    ("franchiseId", VStr (selectedFranchise s));
                    ("amount", VNum (price selectedTier));
                    ("duration", VStr (selectedDuration s));
                    ("userId", VStr userId)]);
            (if ok response then mret tt
             else throw (orElse (body_error response)
                                "Failed to create checkout session"));;
            w ← world;
            (if stripe_loaded w then mret tt else throw "Stripe failed to load");;
            (* Redirect to checkout *)
            stripeError ← redirectToCheckout (body_sessionId response);
            throwIf stripeError;;
            (* Reset form and close modal *)
            setState (setSelectedFranchise "");;
            setState (setSelectedDuration "");;
            setState (setIsPaymentModalOpen false)
        end)
       (fun err =>
          consoleError "Error creating featured ad:" err;;
          setState (setError (orElse err "Failed to process payment. Please try again."))))
    (setState (setProcessing false)).

(** The offset table as the specification words it.  [monthsLater k t e]:
    in local time, [e] keeps the time of day of [t] and is the day of
    the month of [t] counted from the first day of the month [k] months
    after the month of [t]; when that month is long enough, [e] is the
    same day of the month in it. *)
Definition monthsLater (k t e : Z) : Prop :=
  let lt := JSDate.LocalTime tza t in
  let le := JSDate.LocalTime tza e in
  let y' := JSDate.YearFromTime lt + (JSDate.MonthFromTime lt + k) / 12 in
  let m' := (JSDate.MonthFromTime lt + k) mod 12 in
  JSDate.TimeWithinDay le = JSDate.TimeWithinDay lt
  /\ JSDate.Day le = JSDate.MakeDay y' m' 1 + (JSDate.DateFromTime lt - 1)
  /\ (JSDate.DateFromTime lt <= JSDate.DaysInMonth y' m' ->
      JSDate.YearFromTime le = y' /\ JSDate.MonthFromTime le = m'
      /\ JSDate.DateFromTime le = JSDate.DateFromTime lt).

Definition offsetTable (selectedDuration : string) (t e : Z) : Prop :=
  (selectedDuration = "1w" /\ e = t + 7 * JSDate.msPerDay)
  \/ (selectedDuration = "2w" /\ e = t + 14 * JSDate.msPerDay)
  \/ (selectedDuration = "1m" /\ monthsLater 1 t e)
  \/ (selectedDuration = "6m" /\ monthsLater 6 t e).

(** The row [handlePaymentConfirm] writes for a tier, a start and an end. *)
Definition adRow (s : State) (tier : PricingTier) (start_date end_date : string) : row :=
  obj [("franchise_id", VStr (selectedFranchise s));
       ("amount", VNum (price tier));
       ("start_date", VStr start_date);
       ("end_date", VStr end_date);
       ("status", VStr "pending_payment");
       ("payment_status", VStr "pending")].

End Handlers.

(** A clock reading the runtime can hold in a [Date], at least 200 days
    before the end of the representable range. *)
Definition clockInRange (w : World) : Prop :=
  - JSDate.maxTime <= clock w /\ clock w + 200 * JSDate.msPerDay <= JSDate.maxTime.

End FeaturedAds.

(* ===================================================================== *)
(** * Franchisor login page *)
(* ===================================================================== *)

Module FranchisorLogin.
Import Supabase.

Record State := {
  email : string;
  password : string;
  error : string;
  loading : bool
}.

Definition setError (v : string) (s : State) : State :=
  {| email := email s; password := password s; error := v; loading := loading s |}.

Definition setLoading (v : bool) (s : State) : State :=
  {| email := email s; password := password s; error := error s; loading := v |}.

Definition pendingMessage : string :=
  "Your account is still awaiting approval. Please check your email for confirmation once your account has been approved.".

Definition rejectedMessage : string :=
  "Your account application has been rejected. Please contact support for more information.".

(** [user?.id] as a filter value. *)
Definition idOf (user : option string) : value :=
  match user with Some uid => VStr uid | None => VNull end.

Definition handleSubmit (s : State) : M State unit :=
  setState (setLoading true);;
  setState (setError "");;
  finally
    (try_catch
       ((* 1. Sign in with email/password *)
        signInError ← signInWithPassword (email s) (password s);
        throwIf signInError;;
        (* 2. Get user profile and check status *)
        user ← getUser;
        fetched ← (r ← select_single "profiles" [("id", idOf user)];
                   mret (project ["user_type"; "status"] <$> r.1, r.2));
        throwIf fetched.2;;
        let profile := fetched.1 in
        (* 3. Check user type and status *)
        if negb (bool_decide (profile ≫= (.!! "user_type") = Some (VStr "franchisor")))
        then throw "Unauthorized access"
        else if bool_decide (profile ≫= (.!! "status") = Some (VStr "pending"))
        then signOut;; throw pendingMessage
        else if bool_decide (profile ≫= (.!! "status") = Some (VStr "rejected"))
        then signOut;; throw rejectedMessage
        else
          (* If approved, update last login time *)
          now ← newDate;
          last_login ← toISOString now;
          user ← getUser;
          updateError ← update "profiles" (obj [("last_login", VStr last_login)])
                               "id" (idOf user);
          match updateError with
          | Some e => consoleError "Error updating last login:" e
          | None => mret tt
          end;;
          navigate "/franchisor/dashboard")
       (fun err =>
          consoleError "Login error:" err;;
          setState (setError err);;
          (* Additional error handling for specific cases *)
          if includes "Invalid login credentials" err
          then setState (setError "Invalid email or password")
          else mret tt))
    (setState (setLoading false)).

End FranchisorLogin.

(* ===================================================================== *)
(** * Lead management page (franchisor) *)
(* ===================================================================== *)

Module Leads.
Import Supabase.

(** A lead is the row fetched from [franchise_leads]; its [status] is one
    of new, contacted, qualified, converted, lost. *)
Record State := {
  leads : list row;
  loading : bool;
  error : string;
  selectedStatus : string;
  selectedLead : option row;
  isModalOpen : bool
}.

Definition setLeads (v : list row) (s : State) : State :=
  {| leads := v; loading := loading s; error := error s;
     selectedStatus := selectedStatus s; selectedLead := selectedLead s;
     isModalOpen := isModalOpen s |}.

Definition setError (v : string) (s : State) : State :=
  {| leads := leads s; loading := loading s; error := v;
     selectedStatus := selectedStatus s; selectedLead := selectedLead s;
     isModalOpen := isModalOpen s |}.

Definition setSelectedLead (v : option row) (s : State) : State :=
  {| leads := leads s; loading := loading s; error := error s;
     selectedStatus := selectedStatus s; selectedLead := v;
     isModalOpen := isModalOpen s |}.

Definition setIsModalOpen (v : bool) (s : State) : State :=
  {| leads := leads s; loading := loading s; error := error s;
     selectedStatus := selectedStatus s; selectedLead := selectedLead s;
     isModalOpen := v |}.

(** The fields written when a lead is marked as contacted. *)
Definition contacted : row := obj [("status", VStr "contacted")].

Definition updateLeadStatus (s : State) (leadId newStatus : string) : M State unit :=
  try_catch
    (error ← update "franchise_leads" (obj [("status", VStr newStatus)])
                    "id" (VStr leadId);
     throwIf error;;
     (* Update local state *)
     setState (setLeads
       (List.map (fun lead =>
          if bool_decide (lead !! "id" = Some (VStr leadId))
          then <["status" := VStr newStatus]> lead
          else lead) (leads s))))
    (fun err =>
       consoleError "Error updating lead status:" err;;
       setState (setError err)).

Definition handleViewLead (s : State) (lead : row) : M State unit :=
  setState (setSelectedLead (Some lead));;
  setState (setIsModalOpen true);;
  (* If the lead is new, mark it as contacted *)
  if bool_decide (lead !! "status" = Some (VStr "new"))
  then updateLeadStatus s (text (lead !! "id")) "contacted"
  else mret tt.

End Leads.

(* ===================================================================== *)
(** * Franchise forms: fields shared by the edit and the create page *)
(* ===================================================================== *)

Module Form.

Record Category := { cat_id : string; cat_name : string; parent_id : option string }.

Record FAQ := { question : string; answer : string }.

Record Testimonial := { authorName : string; t_content : string }.

Record SuccessStory := {
  title : string;
  content : string;
  imageFile : option Supabase.File;
  existingImageUrl : option string   (* only set by the edit page *)
}.

(** The tests [faq.question && faq.answer] and its siblings. *)
Definition faqFilled (faq : FAQ) : bool :=
  Supabase.nonEmpty (question faq) && Supabase.nonEmpty (answer faq).

Definition testimonialFilled (t : Testimonial) : bool :=
  Supabase.nonEmpty (authorName t) && Supabase.nonEmpty (t_content t).

Definition storyFilled (story : SuccessStory) : bool :=
  Supabase.nonEmpty (title story) && Supabase.nonEmpty (content story).

(** The rows the forms write for the children of franchise [fid]. *)
Definition mappingRow (fid : Supabase.value) (categoryId : string) : Supabase.row :=
  Supabase.obj [("franchise_id", fid); ("category_id", Supabase.VStr categoryId)].

Definition faqRow (fid : Supabase.value) (faq : FAQ) : Supabase.row :=
  Supabase.obj [("franchise_id", fid);
                ("question", Supabase.VStr (question faq));
                ("answer", Supabase.VStr (answer faq))].

Definition testimonialRow (fid : Supabase.value) (t : Testimonial) : Supabase.row :=
  Supabase.obj [("franchise_id", fid);
                ("author_name", Supabase.VStr (authorName t));
                ("content", Supabase.VStr (t_content t))].

Definition storyRow (fid : Supabase.value) (story : SuccessStory) (image_url : string)
    : Supabase.row :=
  Supabase.obj [("franchise_id", fid);
                ("title", Supabase.VStr (title story));
                ("content", Supabase.VStr (content story));
                ("image_url", Supabase.VStr image_url)].

(** The category ids a form submits: the main category, then the
    sub-categories, without the empty ones. *)
Definition categoryIdsOf (main : string) (subs : list string) : list string :=
  List.filter Supabase.nonEmpty (main :: subs).

(** The world after an accepted upload of [file] under [folder], named
    by the next random number, and the path it is stored at. *)
Definition uploadPath (folder : string) (file : Supabase.File) (w : Supabase.World)
    : string :=
  folder +:+ "/" +:+ Supabase.random w (Supabase.draws w) +:+ "."
  +:+ Supabase.fileExt file.

Definition uploaded (folder : string) (file : Supabase.File) (w : Supabase.World)
    : Supabase.World :=
  Supabase.accepted
    (Supabase.Upload "franchise-images" (uploadPath folder file w) file)
    (Supabase.with_objects
       (fun os => (os ++ [("franchise-images", uploadPath folder file w, file)])%list))
    (Supabase.drawn w).

(** The world after an accepted write of one success story, with the
    image URL the page falls back to when the story has no new file. *)
Definition storySaved (fid : Supabase.value) (fallback : SuccessStory -> string)
    (w : Supabase.World) (story : SuccessStory) : Supabase.World :=
  if storyFilled story then
    match imageFile story with
    | Some file =>
        let r := storyRow fid story
                   (Supabase.getPublicUrl w "franchise-images"
                      (uploadPath "success-stories" file w)) in
        Supabase.accepted (Supabase.Insert "franchise_success_stories" r)
          (Supabase.db_insert "franchise_success_stories" r)
          (uploaded "success-stories" file w)
    | None =>
        let r := storyRow fid story (fallback story) in
        Supabase.accepted (Supabase.Insert "franchise_success_stories" r)
          (Supabase.db_insert "franchise_success_stories" r) w
    end
  else w.

(** Every row a call inserts into a child table comes from a filled
    entry of the form. *)
Definition onlyFilled (faqs : list FAQ) (testimonials : list Testimonial)
    (stories : list SuccessStory) (ev : Supabase.Event) : Prop :=
  match ev with
  | Supabase.Insert t r =>
      (t = "franchise_faqs" ->
         exists fid faq, faq ∈ faqs /\ faqFilled faq = true /\ r = faqRow fid faq)
      /\ (t = "franchise_testimonials" ->
           exists fid x, x ∈ testimonials /\ testimonialFilled x = true
                         /\ r = testimonialRow fid x)
      /\ (t = "franchise_success_stories" ->
           exists fid story image_url, story ∈ stories /\ storyFilled story = true
                                       /\ r = storyRow fid story image_url)
  | _ => True
  end.


End Form.

(* ===================================================================== *)
(** * Edit franchise page (franchisor) *)
(* ===================================================================== *)

Module EditFranchise.
Import Supabase Form.

Record State := {
  id : string;                       (* route parameter *)
  loading : bool;
  saving : bool;
  error : string;
  name : string;
  location : string;
  shortDescription : string;
  longDescription : string;
  investmentAmount : string;
  mainImageFile : option File;
  existingMainImageUrl : string;
  categories : list Category;
  selectedMainCategory : string;
  selectedSubCategories : list string;
  galleryFiles : list File;
  existingGalleryUrls : list string;
  faqs : list FAQ;
  testimonials : list Testimonial;
  successStories : list SuccessStory
}.

Definition setSaving (v : bool) (s : State) : State :=
  {| id := id s; loading := loading s; saving := v; error := error s;
     name := name s; location := location s;
     shortDescription := shortDescription s; longDescription := longDescription s;
     investmentAmount := investmentAmount s; mainImageFile := mainImageFile s;
     existingMainImageUrl := existingMainImageUrl s; categories := categories s;
     selectedMainCategory := selectedMainCategory s;
     selectedSubCategories := selectedSubCategories s;
     galleryFiles := galleryFiles s; existingGalleryUrls := existingGalleryUrls s;
     faqs := faqs s; testimonials := testimonials s;
     successStories := successStories s |}.

Definition setError (v : string) (s : State) : State :=
  {| id := id s; loading := loading s; saving := saving s; error := v;
     name := name s; location := location s;
     shortDescription := shortDescription s; longDescription := longDescription s;
     investmentAmount := investmentAmount s; mainImageFile := mainImageFile s;
     existingMainImageUrl := existingMainImageUrl s; categories := categories s;
     selectedMainCategory := selectedMainCategory s;
     selectedSubCategories := selectedSubCategories s;
     galleryFiles := galleryFiles s; existingGalleryUrls := existingGalleryUrls s;
     faqs := faqs s; testimonials := testimonials s;
     successStories := successStories s |}.

Definition setSelectedMainCategory (v : string) (s : State) : State :=
  {| id := id s; loading := loading s; saving := saving s; error := error s;
     name := name s; location := location s;
     shortDescription := shortDescription s; longDescription := longDescription s;
     investmentAmount := investmentAmount s; mainImageFile := mainImageFile s;
     existingMainImageUrl := existingMainImageUrl s; categories := categories s;
     selectedMainCategory := v;
     selectedSubCategories := selectedSubCategories s;
     galleryFiles := galleryFiles s; existingGalleryUrls := existingGalleryUrls s;
     faqs := faqs s; testimonials := testimonials s;
     successStories := successStories s |}.

Definition setSelectedSubCategories (f : list string -> list string) (s : State) : State :=
  {| id := id s; loading := loading s; saving := saving s; error := error s;
     name := name s; location := location s;
     shortDescription := shortDescription s; longDescription := longDescription s;
     investmentAmount := investmentAmount s; mainImageFile := mainImageFile s;
     existingMainImageUrl := existingMainImageUrl s; categories := categories s;
     selectedMainCategory := selectedMainCategory s;
     selectedSubCategories := f (selectedSubCategories s);
     galleryFiles := galleryFiles s; existingGalleryUrls := existingGalleryUrls s;
     faqs := faqs s; testimonials := testimonials s;
     successStories := successStories s |}.

Section Handlers.

(** [parseFloat], whose floating-point result is kept abstract. *)
Variable parseFloat : string -> value.

Definition handleSubmit (s : State) : M State unit :=
  setState (setSaving true);;
  setState (setError "");;
  finally
    (try_catch
       ((* Upload main image if changed *)
        mainImageUrl ←
          match mainImageFile s with
          | Some file =>
              r ← mathRandom;
              let fileName := r +:+ "." +:+ fileExt file in
              let filePath := "main-images/" +:+ fileName in
              uploadError ← storage_upload "franchise-images" filePath file;
              throwIf uploadError;;
              w ← world;
              mret (getPublicUrl w "franchise-images" filePath)
          | None => mret (existingMainImageUrl s)
          end;
        (* Update franchise basic info *)
        now ← newDate;
        updated_at ← toISOString now;
        franchiseError ← update "franchises"
          (obj [("name", VStr (name s));
                ("location", VStr (location s));
                ("updated_at", VStr updated_at)])
          "id" (VStr (id s));
        throwIf franchiseError;;
        (* Update franchise details using upsert *)
        detailsError ← upsert "franchise_details"
          (obj [("franchise_id", VStr (id s));
                ("short_description", VStr (shortDescription s));
                ("long_description", VStr (longDescription s));
                ("investment_amount", parseFloat (investmentAmount s));
                ("main_image_url", VStr mainImageUrl)])
          "franchise_id";
        throwIf detailsError;;
        (* Update categories: first, remove all existing category mappings *)
        delete_eq "franchise_category_mappings" "franchise_id" (VStr (id s));;
        (* Then add new category mappings *)
        let categoryIds :=
          List.filter nonEmpty (selectedMainCategory s :: selectedSubCategories s) in
        for_of categoryIds (fun categoryId =>
          categoryError ← insert "franchise_category_mappings"
            (obj [("franchise_id", VStr (id s));
                  ("category_id", VStr categoryId)]);
          throwIf categoryError);;
        (* Update FAQs *)
        delete_eq "franchise_faqs" "franchise_id" (VStr (id s));;
        for_of (faqs s) (fun faq =>
          if nonEmpty (question faq) && nonEmpty (answer faq)
          then
            faqError ← insert "franchise_faqs"
              (obj [("franchise_id", VStr (id s));
                    ("question", VStr (question faq));
                    ("answer", VStr (answer faq))]);
            throwIf faqError
          else mret tt);;
        (* Update testimonials *)
        delete_eq "franchise_testimonials" "franchise_id" (VStr (id s));;
        for_of (testimonials s) (fun testimonial =>
          if nonEmpty (authorName testimonial) && nonEmpty (t_content testimonial)
          then
            testimonialError ← insert "franchise_testimonials"
              (obj [("franchise_id", VStr (id s));
                    ("author_name", VStr (authorName testimonial));
                    ("content", VStr (t_content testimonial))]);
            throwIf testimonialError
          else mret tt);;
        (* Update success stories *)
        delete_eq "franchise_success_stories" "franchise_id" (VStr (id s));;
        for_of (successStories s) (fun story =>
          if nonEmpty (title story) && nonEmpty (content story)
          then
            storyImageUrl ←
              match imageFile story with
              | Some file =>
                  r ← mathRandom;
                  let fileName := r +:+ "." +:+ fileExt file in
                  let filePath := "success-stories/" +:+ fileName in
                  uploadError ← storage_upload "franchise-images" filePath file;
                  throwIf uploadError;;
                  w ← world;
                  mret (getPublicUrl w "franchise-images" filePath)
              | None => mret (orElse (default "" (existingImageUrl story)) "")
              end;
            storyError ← insert "franchise_success_stories"
              (obj [("franchise_id", VStr (id s));
                    ("title", VStr (title story));
                    ("content", VStr (content story));
                    ("image_url", VStr storyImageUrl)]);
            throwIf storyError
          else mret tt);;
        navigate "/franchisor/franchises")
       (fun err =>
          consoleError "Error updating franchise:" err;;
          setState (setError err)))
    (setState (setSaving false)).

(** The fields written to [franchises] and [franchise_details], and the
    world an accepted save leaves, call by call. *)
Definition basicFields (s : State) (w : World) : row :=
  obj [("name", VStr (name s));
       ("location", VStr (location s));
       ("updated_at", VStr (JSDate.isoString (clock w)))].

Definition detailsRow (s : State) (mainImageUrl : string) : row :=
  obj [("franchise_id", VStr (id s));
       ("short_description", VStr (shortDescription s));
       ("long_description", VStr (longDescription s));
       ("investment_amount", parseFloat (investmentAmount s));
       ("main_image_url", VStr mainImageUrl)].

Definition mainImageUrlOf (s : State) (w : World) : string :=
  match mainImageFile s with
  | Some file => getPublicUrl w "franchise-images" (uploadPath "main-images" file w)
  | None => existingMainImageUrl s
  end.

Definition afterMainImage (s : State) (w : World) : World :=
  match mainImageFile s with
  | Some file => uploaded "main-images" file w
  | None => w
  end.

Definition afterDetails (s : State) (w : World) : World :=
  let r := detailsRow s (mainImageUrlOf s w) in
  accepted (Upsert "franchise_details" r "franchise_id")
    (db_upsert "franchise_details" r "franchise_id")
    (accepted
       (Update "franchises" (basicFields s (afterMainImage s w)) "id" (VStr (id s)))
       (db_update "franchises" (basicFields s (afterMainImage s w)) "id" (VStr (id s)))
       (afterMainImage s w)).

(** Delete-all, then reinsert, for one child table. *)
Definition replaced (s : State) (t : string) (rows : list row) (w : World) : World :=
  insert_all t rows
    (accepted (Delete t "franchise_id" (VStr (id s)))
       (db_delete t "franchise_id" (VStr (id s))) w).

Definition afterCategories (s : State) (w : World) : World :=
  replaced s "franchise_category_mappings"
    (List.map (mappingRow (VStr (id s)))
       (categoryIdsOf (selectedMainCategory s) (selectedSubCategories s)))
    (afterDetails s w).

Definition afterFaqs (s : State) (w : World) : World :=
  replaced s "franchise_faqs"
    (List.map (faqRow (VStr (id s))) (List.filter faqFilled (faqs s)))
    (afterCategories s w).

Definition afterTestimonials (s : State) (w : World) : World :=
  replaced s "franchise_testimonials"
    (List.map (testimonialRow (VStr (id s)))
       (List.filter testimonialFilled (testimonials s)))
    (afterFaqs s w).

Definition afterStories (s : State) (w : World) : World :=
  fold_left
    (storySaved (VStr (id s)) (fun story => default "" (existingImageUrl story)))
    (successStories s)
    (accepted (Delete "franchise_success_stories" "franchise_id" (VStr (id s)))
       (db_delete "franchise_success_stories" "franchise_id" (VStr (id s)))
       (afterTestimonials s w)).

Definition saved (s : State) (w : World) : World :=
  log (Navigate "/franchisor/franchises") (afterStories s w).

End Handlers.

(** A call that leaves the main image as it was fetched: an upload goes
    under the success stories, an upsert carries the fetched URL. *)
Definition keepsMainImage (s : State) (ev : Event) : Prop :=
  match ev with
  | Upload _ path _ => String.prefix "success-stories/" path = true
  | Upsert _ r _ => r !! "main_image_url" = Some (VStr (existingMainImageUrl s))
  | _ => True
  end.

Definition handleMainCategoryChange (categoryId : string) : M State unit :=
  setState (setSelectedMainCategory categoryId);;
  (* Reset sub-categories when main category changes *)
  setState (setSelectedSubCategories (fun _ => [])).

Definition handleSubCategoryChange (categoryId : string) : M State unit :=
  setState (setSelectedSubCategories (fun prev =>
    if bool_decide (categoryId ∈ prev)
    then List.filter (fun id => negb (bool_decide (id = categoryId))) prev
    else (prev ++ [categoryId])%list)).

End EditFranchise.

(* ===================================================================== *)
(** * Add franchise page (franchisor) *)
(* ===================================================================== *)

Module AddFranchise.
Import Supabase Form.

Record State := {
  isSubmitting : bool;
  error : string;
  categories : list Category;
  selectedMainCategory : string;
  selectedSubCategories : list string;
  name : string;
  location : string;
  shortDescription : string;
  longDescription : string;
  investmentAmount : string;
  mainImageFile : option File;
  galleryFiles : list File;
  faqs : list FAQ;
  testimonials : list Testimonial;
  successStories : list SuccessStory
}.

Definition setIsSubmitting (v : bool) (s : State) : State :=
  {| isSubmitting := v; error := error s; categories := categories s;
     selectedMainCategory := selectedMainCategory s;
     selectedSubCategories := selectedSubCategories s;
     name := name s; location := location s;
     shortDescription := shortDescription s; longDescription := longDescription s;
     investmentAmount := investmentAmount s; mainImageFile := mainImageFile s;
     galleryFiles := galleryFiles s; faqs := faqs s;
     testimonials := testimonials s; successStories := successStories s |}.

Definition setError (v : string) (s : State) : State :=
  {| isSubmitting := isSubmitting s; error := v; categories := categories s;
     selectedMainCategory := selectedMainCategory s;
     selectedSubCategories := selectedSubCategories s;
     name := name s; location := location s;
     shortDescription := shortDescription s; longDescription := longDescription s;
     investmentAmount := investmentAmount s; mainImageFile := mainImageFile s;
     galleryFiles := galleryFiles s; faqs := faqs s;
     testimonials := testimonials s; successStories := successStories s |}.

Definition setSelectedMainCategory (v : string) (s : State) : State :=
  {| isSubmitting := isSubmitting s; error := error s; categories := categories s;
     selectedMainCategory := v;
     selectedSubCategories := selectedSubCategories s;
     name := name s; location := location s;
     shortDescription := shortDescription s; longDescription := longDescription s;
     investmentAmount := investmentAmount s; mainImageFile := mainImageFile s;
     galleryFiles := galleryFiles s; faqs := faqs s;
     testimonials := testimonials s; successStories := successStories s |}.

Definition setSelectedSubCategories (f : list string -> list string) (s : State) : State :=
  {| isSubmitting := isSubmitting s; error := error s; categories := categories s;
     selectedMainCategory := selectedMainCategory s;
     selectedSubCategories := f (selectedSubCategories s);
     name := name s; location := location s;
     shortDescription := shortDescription s; longDescription := longDescription s;
     investmentAmount := investmentAmount s; mainImageFile := mainImageFile s;
     galleryFiles := galleryFiles s; faqs := faqs s;
     testimonials := testimonials s; successStories := successStories s |}.

Definition uploadImage (file : File) (path : string) : M State string :=
  r ← mathRandom;
  let fileName := r +:+ "." +:+ fileExt file in
  let filePath := path +:+ "/" +:+ fileName in
  uploadError ← storage_upload "franchise-images" filePath file;
  throwIf uploadError;;
  w ← world;
  mret (getPublicUrl w "franchise-images" filePath).

Section Handlers.

(** [parseFloat], whose floating-point result is kept abstract. *)
Variable parseFloat : string -> value.

Definition handleSubmit (s : State) : M State unit :=
  setState (setIsSubmitting true);;
  setState (setError "");;
  finally
    (try_catch
       (user ← getUser;
        match user with
        | None => throw "Not authenticated"
        | Some userId =>
            (* Upload main image *)
            mainImageUrl ←
              match mainImageFile s with
              | Some file => uploadImage file "main-images"
              | None => mret ""
              end;
            (* Create franchise with pending status *)
            created ← insert_returning "franchises"
              (obj [("name", VStr (name s));
                    ("location", VStr (location s));
                    ("franchisor_id", VStr userId);
                    ("status", VStr "pending")]);
            throwIf created.2;;
            let franchise_id := default VNull (created.1 ≫= (.!! "id")) in
            (* Create franchise details *)
            detailsError ← insert "franchise_details"
              (obj [("franchise_id", franchise_id);
                    ("short_description", VStr (shortDescription s));
                    ("long_description", VStr (longDescription s));
                    ("investment_amount", parseFloat (investmentAmount s));
                    ("main_image_url", VStr mainImageUrl)]);
            throwIf detailsError;;
            (* Create category mappings *)
            let categoryIds :=
              List.filter nonEmpty (selectedMainCategory s :: selectedSubCategories s) in
            for_of categoryIds (fun categoryId =>
              categoryError ← insert "franchise_category_mappings"
                (obj [("franchise_id", franchise_id);
                      ("category_id", VStr categoryId)]);
              throwIf categoryError);;
            (* Upload gallery images *)
            for_of (galleryFiles s) (fun file =>
              imageUrl ← uploadImage file "gallery";
              galleryError ← insert "franchise_gallery"
                (obj [("franchise_id", franchise_id);
                      ("image_url", VStr imageUrl)]);
              throwIf galleryError);;
            (* Create FAQs *)
            for_of (faqs s) (fun faq =>
              if nonEmpty (question faq) && nonEmpty (answer faq)
              then
                faqError ← insert "franchise_faqs"
                  (obj [("franchise_id", franchise_id);
                        ("question", VStr (question faq));
                        ("answer", VStr (answer faq))]);
                throwIf faqError
              else mret tt);;
            (* Create testimonials *)
            for_of (testimonials s) (fun testimonial =>
              if nonEmpty (authorName testimonial) && nonEmpty (t_content testimonial)
              then
                testimonialError ← insert "franchise_testimonials"
                  (obj [("franchise_id", franchise_id);
                        ("author_name", VStr (authorName testimonial));
                        ("content", VStr (t_content testimonial))]);
                throwIf testimonialError
              else mret tt);;
            (* Create success stories *)
            for_of (successStories s) (fun story =>
              if nonEmpty (title story) && nonEmpty (content story)
              then
                storyImageUrl ←
                  match imageFile story with
                  | Some file => uploadImage file "success-stories"
                  | None => mret ""
                  end;
                storyError ← insert "franchise_success_stories"
                  (obj [("franchise_id", franchise_id);
                        ("title", VStr (title story));
                        ("content", VStr (content story));
                        ("image_url", VStr storyImageUrl)]);
                throwIf storyError
              else mret tt);;
            navigate "/franchisor/dashboard"
        end)
       (fun err => setState (setError err)))
    (setState (setIsSubmitting false)).

(** The rows written to [franchises] and [franchise_details], and the
    world an accepted submission by user [uid] leaves, call by call. *)
Definition franchiseRow (s : State) (uid : string) : row :=
  obj [("name", VStr (name s));
       ("location", VStr (location s));
       ("franchisor_id", VStr uid);
       ("status", VStr "pending")].

Definition detailsRow (s : State) (fid : value) (mainImageUrl : string) : row :=
  obj [("franchise_id", fid);
       ("short_description", VStr (shortDescription s));
       ("long_description", VStr (longDescription s));
       ("investment_amount", parseFloat (investmentAmount s));
       ("main_image_url", VStr mainImageUrl)].

Definition mainImageUrlOf (s : State) (w : World) : string :=
  match mainImageFile s with
  | Some file => getPublicUrl w "franchise-images" (uploadPath "main-images" file w)
  | None => ""
  end.

Definition afterMainImage (s : State) (w : World) : World :=
  match mainImageFile s with
  | Some file => uploaded "main-images" file w
  | None => w
  end.

(** The identifier the service gives the new franchise. *)
Definition createdId (s : State) (w : World) : value :=
  let w2 := afterMainImage s (tick (log GetUser w)) in
  VStr (fresh w2 (calls w2)).

Definition afterCreate (s : State) (uid : string) (w : World) : World :=
  let w2 := afterMainImage s (tick (log GetUser w)) in
  db_insert "franchises" (<["id" := createdId s w]> (franchiseRow s uid))
    (tick (log (Insert "franchises" (franchiseRow s uid)) w2)).

Definition afterDetails (s : State) (uid : string) (w : World) : World :=
  let r := detailsRow s (createdId s w)
                      (mainImageUrlOf s (tick (log GetUser w))) in
  accepted (Insert "franchise_details" r) (db_insert "franchise_details" r)
    (afterCreate s uid w).

Definition afterCategories (s : State) (uid : string) (w : World) : World :=
  insert_all "franchise_category_mappings"
    (List.map (mappingRow (createdId s w))
       (categoryIdsOf (selectedMainCategory s) (selectedSubCategories s)))
    (afterDetails s uid w).

Definition gallerySaved (fid : value) (w : World) (file : File) : World :=
  let r := obj [("franchise_id", fid);
                ("image_url",
                 VStr (getPublicUrl w "franchise-images"
                         (uploadPath "gallery" file w)))] in
  accepted (Insert "franchise_gallery" r) (db_insert "franchise_gallery" r)
    (uploaded "gallery" file w).

Definition afterGallery (s : State) (uid : string) (w : World) : World :=
  fold_left (gallerySaved (createdId s w)) (galleryFiles s) (afterCategories s uid w).

Definition afterFaqs (s : State) (uid : string) (w : World) : World :=
  insert_all "franchise_faqs"
    (List.map (faqRow (createdId s w)) (List.filter faqFilled (faqs s)))
    (afterGallery s uid w).

Definition afterTestimonials (s : State) (uid : string) (w : World) : World :=
  insert_all "franchise_testimonials"
    (List.map (testimonialRow (createdId s w))
       (List.filter testimonialFilled (testimonials s)))
    (afterFaqs s uid w).

Definition afterStories (s : State) (uid : string) (w : World) : World :=
  fold_left (storySaved (createdId s w) (fun _ => "")) (successStories s)
    (afterTestimonials s uid w).

Definition saved (s : State) (uid : string) (w : World) : World :=
  log (Navigate "/franchisor/dashboard") (afterStories s uid w).

End Handlers.

Definition handleMainCategoryChange (categoryId : string) : M State unit :=
  setState (setSelectedMainCategory categoryId);;
  (* Reset sub-categories when main category changes *)
  setState (setSelectedSubCategories (fun _ => [])).

End AddFranchise.

(* ===================================================================== *)
(** * What an approval decision writes *)
(* ===================================================================== *)

Module Approval.
Import Supabase.

(** The fields both approval pages write for a decision taken at time
    value [now]. *)
Definition decision (approved : bool) (now : Z) : row :=
  obj [("status", VStr (if approved then "approved" else "rejected"));
       ("approved_at", if approved then VStr (JSDate.isoString now) else VNull)].

End Approval.

(* ===================================================================== *)
(** * Franchise approvals page (admin) *)
(* ===================================================================== *)

Module AdminFranchiseApprovals.
Import Supabase.

Record State := {
  pendingFranchises : list row;
  loading : bool;
  processingId : option string
}.

Definition setPendingFranchises (v : list row) (s : State) : State :=
  {| pendingFranchises := v; loading := loading s; processingId := processingId s |}.

Definition setLoading (v : bool) (s : State) : State :=
  {| pendingFranchises := pendingFranchises s; loading := v;
     processingId := processingId s |}.

Definition setProcessingId (v : option string) (s : State) : State :=
  {| pendingFranchises := pendingFranchises s; loading := loading s;
     processingId := v |}.

Definition fetchPendingFranchises : M State unit :=
  finally
    (try_catch
       (fetched ← select_ordered "franchises" [("status", VStr "pending")]
                                 "created_at" false;
        throwIf fetched.2;;
        match fetched.1 with
        | Some data => setState (setPendingFranchises data)
        | None => mret tt
        end)
       (fun err => consoleError "Error fetching pending franchises:" err))
    (setState (setLoading false)).

Definition handleApproval (franchiseId : string) (approved : bool) : M State unit :=
  setState (setProcessingId (Some franchiseId));;
  finally
    (try_catch
       (approved_at ←
          (if approved then now ← newDate; iso ← toISOString now; mret (VStr iso)
           else mret VNull);
        error ← update "franchises"
          (obj [("status", VStr (if approved then "approved" else "rejected"));
                ("approved_at", approved_at)])
          "id" (VStr franchiseId);
        throwIf error;;
        (* Refresh the list *)
        fetchPendingFranchises)
       (fun err => consoleError "Error processing franchise:" err))
    (setState (setProcessingId None)).

End AdminFranchiseApprovals.

(* ===================================================================== *)
(** * Account approvals page (admin) *)
(* ===================================================================== *)

Module AdminAccountApprovals.
Import Supabase.

Record PendingAccount := {
  acc_id : string;
  full_name : string;
  acc_email : string;
  company_name : string;
  created_at : string
}.

Record State := {
  pendingAccounts : list PendingAccount;
  loading : bool;
  processingId : option string;
  error : string
}.

Definition setPendingAccounts (v : list PendingAccount) (s : State) : State :=
  {| pendingAccounts := v; loading := loading s; processingId := processingId s;
     error := error s |}.

Definition setLoading (v : bool) (s : State) : State :=
  {| pendingAccounts := pendingAccounts s; loading := v;
     processingId := processingId s; error := error s |}.

Definition setProcessingId (v : option string) (s : State) : State :=
  {| pendingAccounts := pendingAccounts s; loading := loading s;
     processingId := v; error := error s |}.

Definition setError (v : string) (s : State) : State :=
  {| pendingAccounts := pendingAccounts s; loading := loading s;
     processingId := processingId s; error := v |}.

(** [new Map(users.map(user => [user.id, user.email]))]: a later entry
    replaces an earlier one with the same key. *)
Definition emailMapOf (us : list AuthUser) : gmap string string :=
  fold_left (fun m a => <[user_id a := user_email a]> m) us ∅.

(** Diagnostics written with [console.log] are left out. *)
Definition fetchPendingAccounts : M State unit :=
  finally
    (try_catch
       ((* First get all pending franchisor profiles *)
        fetched ← select_ordered "profiles"
                    [("user_type", VStr "franchisor"); ("status", VStr "pending")]
                    "created_at" false;
        match fetched.2 with
        | Some e => consoleError "Error fetching profiles:" e;; throw e
        | None => mret tt
        end;;
        match fetched.1 with
        | None => setState (setPendingAccounts [])
        | Some profiles =>
            (* Get all users from auth admin API *)
            auth ← listUsers;
            match auth.2 with
            | Some e => consoleError "Error fetching auth users:" e;; throw e
            | None => mret tt
            end;;
            (* Create a map of user IDs to emails *)
            let emailMap := emailMapOf (default [] auth.1) in
            (* Combine profile data with emails *)
            let accountsWithEmails :=
              List.map (fun profile : row =>
                {| acc_id := text (profile !! "id");
                   full_name := text (profile !! "full_name");
                   acc_email := orElse (default "" (emailMap !! text (profile !! "id"))) "N/A";
                   company_name := orElse (text (profile !! "company_name")) "N/A";
                   created_at := text (profile !! "created_at") |}) profiles in
            setState (setPendingAccounts accountsWithEmails)
        end)
       (fun err =>
          consoleError "Error in fetchPendingAccounts:" err;;
          setState (setError err)))
    (setState (setLoading false)).

Definition handleApproval (accountId : string) (approved : bool) : M State unit :=
  setState (setProcessingId (Some accountId));;
  finally
    (try_catch
       (approved_at ←
          (if approved then now ← newDate; iso ← toISOString now; mret (VStr iso)
           else mret VNull);
        updateError ← update "profiles"
          (obj [("status", VStr (if approved then "approved" else "rejected"));
                ("approved_at", approved_at)])
          "id" (VStr accountId);
        match updateError with
        | Some e => consoleError "Error updating account:" e;; throw e
        | None => mret tt
        end;;
        (* Refresh the list *)
        fetchPendingAccounts)
       (fun err =>
          consoleError "Error processing account:" err;;
          setState (setError err)))
    (setState (setProcessingId None)).

End AdminAccountApprovals.

(* ===================================================================== *)
(** * More of the client: counts and truthiness *)
(* ===================================================================== *)

Module SupabaseQueries.
Import Supabase.

(** Whether a value read from a row counts as true in a condition. *)
Definition truthy (o : option value) : bool :=
  match o with
  | Some (VStr s) => nonEmpty s
  | Some (VNum q) => negb (Qeq_bool q 0)
  | Some (VBool b) => b
  | Some VNull | None => false
  end.

(** [.select('*', { count: 'exact', head: true })]: the number of rows
    selected, or null when the call is refused. *)
Definition select_count {U} (t : string) (filters : list (string * value))
    : M U (option nat) :=
  r ← query (Select t filters) (fun w => length (db_select t filters w));
  mret r.1.

End SupabaseQueries.

(* ===================================================================== *)
(** * Payment modal *)
(* ===================================================================== *)

Module PaymentModal.

Definition formatDuration (duration : string) : string :=
  if bool_decide (duration = "1w") then "1 Week"
  else if bool_decide (duration = "2w") then "2 Weeks"
  else if bool_decide (duration = "1m") then "1 Month"
  else if bool_decide (duration = "6m") then "6 Months"
  else duration.

End PaymentModal.

(* ===================================================================== *)
(** * Featured ads page: loading the lists and choosing what to buy *)
(* ===================================================================== *)

Module FeaturedAdsPage.
Import Supabase FeaturedAds.

Definition setFranchises (v : list (string * string)) (s : State) : State :=
  {| selectedFranchise := selectedFranchise s; selectedDuration := selectedDuration s;
     isPaymentModalOpen := isPaymentModalOpen s; processing := processing s;
     error := error s; loading := loading s; franchises := v;
     pricingTiers := pricingTiers s; featuredAds := featuredAds s;
     showDurationModal := showDurationModal s |}.

Definition setShowDurationModal (v : bool) (s : State) : State :=
  {| selectedFranchise := selectedFranchise s; selectedDuration := selectedDuration s;
     isPaymentModalOpen := isPaymentModalOpen s; processing := processing s;
     error := error s; loading := loading s; franchises := franchises s;
     pricingTiers := pricingTiers s; featuredAds := featuredAds s;
     showDurationModal := v |}.

(** The franchises offered for an ad, as [(id, name)] pairs. *)
Definition offered (r : row) : string * string :=
  (text (r !! "id"), text (r !! "name")).

Definition fetchFranchises : M State unit :=
  try_catch
    (user ← getUser;
     match user with
     | None => mret tt
     | Some userId =>
         fetched ← select "franchises"
                     [("franchisor_id", VStr userId); ("status", VStr "approved")];
         throwIf fetched.2;;
         match fetched.1 with
         | Some data => setState (setFranchises (List.map offered data))
         | None => mret tt
         end
     end)
    (fun err =>
       consoleError "Error fetching franchises:" err;;
       setState (setError err)).

Definition handleCreateAd : M State unit :=
  setState (setSelectedFranchise "");;
  setState (setSelectedDuration "");;
  setState (setShowDurationModal true).

Definition handleDurationSelected (s : State) : M State unit :=
  if negb (nonEmpty (selectedFranchise s)) || negb (nonEmpty (selectedDuration s))
  then setState (setError "Please select both a franchise and duration")
  else
    setState (setShowDurationModal false);;
    setState (setIsPaymentModalOpen true).

(** The [amount] handed to the payment modal:
    [pricingTiers.find(..)?.price || 0]. *)
Definition shownAmount (s : State) : Q :=
  match List.find (fun tier => bool_decide (duration tier = selectedDuration s))
          (pricingTiers s) with
  | Some tier => if Qeq_bool (price tier) 0 then 0%Q else price tier
  | None => 0%Q
  end.

End FeaturedAdsPage.

(* ===================================================================== *)
(** * Lead management page: loading and filtering the list *)
(* ===================================================================== *)

Module LeadsPage.
Import Supabase Leads.

Definition setLoading (v : bool) (s : State) : State :=
  {| leads := leads s; loading := v; error := error s;
     selectedStatus := selectedStatus s; selectedLead := selectedLead s;
     isModalOpen := isModalOpen s |}.


Definition hasStatus (status : string) (lead : row) : bool :=
  bool_decide (lead !! "status" = Some (VStr status)).

Definition filteredLeads (s : State) : list row :=
  if bool_decide (selectedStatus s = "all") then leads s
  else List.filter (hasStatus (selectedStatus s)) (leads s).

(** The listed leads are in step with the table: each has a stored row
    with its id and its status. *)
Definition inStep (s : State) (w : World) : Prop :=
  forall lead, lead ∈ leads s ->
    exists r, r ∈ table w "franchise_leads"
              /\ r !! "id" = lead !! "id" /\ r !! "status" = lead !! "status".

(** The figure of the 'New' card. *)
Definition newLeads (s : State) : nat :=
  length (List.filter (hasStatus "new") (leads s)).

End LeadsPage.

(* ===================================================================== *)
(** * Franchisor layout: the notification badges *)
(* ===================================================================== *)

Module FranchisorLayout.
Import Supabase SupabaseQueries.

Record NotificationCounts := { leads : nat; messages : nat; support : nat }.

Record State := {
  isAdvertisingOpen : bool;
  notificationCounts : NotificationCounts
}.

Definition setNotificationCounts (v : NotificationCounts) (s : State) : State :=
  {| isAdvertisingOpen := isAdvertisingOpen s; notificationCounts := v |}.

Definition fetchNotificationCounts : M State unit :=
  try_catch
    (user ← getUser;
     match user with
     | None => mret tt
     | Some userId =>
         (* Get new leads count *)
         newLeads ← select_count "franchise_leads"
                      [("franchisor_id", VStr userId); ("status", VStr "new")];
         (* Get unread messages count *)
         unreadMessages ← select_count "messages"
                            [("receiver_id", VStr userId); ("read", VBool false)];
         setState (setNotificationCounts
           {| leads := default 0%nat newLeads;
              messages := 0;
              support := default 0%nat unreadMessages |})
     end)
    (fun err => consoleError "Error fetching notification counts:" err).

End FranchisorLayout.

(* ===================================================================== *)
(** * Franchise forms: the category lists and the sub-category boxes *)
(* ===================================================================== *)

Module Categories.
Import Supabase Form.

(** [categories.filter(cat => !cat.parent_id)] *)
Definition isMain (cat : Category) : bool :=
  negb (nonEmpty (default "" (parent_id cat))).

Definition mainCategories (categories : list Category) : list Category :=
  List.filter isMain categories.

(** [categories.filter(cat => cat.parent_id === selectedMainCategory)] *)
Definition subCategories (categories : list Category) (selectedMainCategory : string)
    : list Category :=
  List.filter (fun cat => bool_decide (parent_id cat = Some selectedMainCategory))
              categories.

(** The function handed to [setSelectedSubCategories] when a box is
    ticked or cleared. *)
Definition toggled (categoryId : string) (prev : list string) : list string :=
  if bool_decide (categoryId ∈ prev)
  then List.filter (fun id => negb (bool_decide (id = categoryId))) prev
  else (prev ++ [categoryId])%list.


End Categories.

Module AddFranchiseForm.
Import Supabase Form AddFranchise.

Definition handleSubCategoryChange (categoryId : string) : M State unit :=
  setState (setSelectedSubCategories (fun prev =>
    if bool_decide (categoryId ∈ prev)
    then List.filter (fun id => negb (bool_decide (id = categoryId))) prev
    else (prev ++ [categoryId])%list)).

End AddFranchiseForm.

(* ===================================================================== *)
(** * What a handler leaves untouched, whatever the service answers *)
(* ===================================================================== *)

Module Invariants.
Import Supabase.

(** Every run of [m] takes the world to one related to it by [R]. *)
Definition keeps {U A} (R : World -> World -> Prop) (m : M U A) : Prop :=
  forall s, R s.2 (m s).2.2.

(** Nothing stored is changed or removed: every table and the object
    store only grow at the end. *)
Definition grown (w w' : World) : Prop :=
  (forall t, table w t `prefix_of` table w' t)
  /\ objects w `prefix_of` objects w'.

(** What decides who owns a franchise and whether it is listed. *)
Definition standing (r : row) : option value * option value * option value
                                 * option value :=
  (r !! "id", r !! "status", r !! "franchisor_id", r !! "approved_at").

Definition standingKept (w w' : World) : Prop :=
  List.map standing (table w' "franchises") = List.map standing (table w "franchises").

(** The rows of the other franchises: in [franchises] those with another
    id, in every other table those with another [franchise_id]. *)
Definition others (fid : string) (w : World) (t : string) : list row :=
  List.filter (fun r => negb (matches (if bool_decide (t = "franchises")
                                       then "id" else "franchise_id")
                                      (VStr fid) r))
              (table w t).

Definition othersKept (fid : string) (w w' : World) : Prop :=
  forall t, others fid w' t = others fid w t.

(** The service goes on answering the way it did, to the same user. *)
Definition sameService (w w' : World) : Prop :=
  outcome w' = outcome w /\ session w' = session w.

End Invariants.

(* ===================================================================== *)
(** * Edit franchise page: loading the form *)
(* ===================================================================== *)

(** A franchise with its related rows, as the nested select of the edit
    page returns it: the related rows are those whose [franchise_id] is
    the id of the franchise, in the order of their tables; [details] is
    the first of them, and each mapping carries the category it points
    to, or null when there is none. *)
Module FranchiseData.
Import Supabase.

Record t := {
  columns : row;
  details : option row;
  categories : list (option row);
  faqs : list row;
  testimonials : list row;
  success_stories : list row
}.

Definition related (table : string) (fid : value) (w : World) : list row :=
  db_select table [("franchise_id", fid)] w.

Definition categoryOfMapping (w : World) (mapping : row) : option row :=
  head (db_select "franchise_categories"
          [("id", default VNull (mapping !! "category_id"))] w).

Definition nested (w : World) (r : row) : t :=
  let fid := default VNull (r !! "id") in
  {| columns := r;
     details := head (related "franchise_details" fid w);
     categories :=
       List.map (categoryOfMapping w) (related "franchise_category_mappings" fid w);
     faqs := related "franchise_faqs" fid w;
     testimonials := related "franchise_testimonials" fid w;
     success_stories := related "franchise_success_stories" fid w |}.

(** [.select(nested).eq('id', id).single()] *)
Definition select_single {U} (id : string) : M U (option t * option string) :=
  fun '(u, w) =>
    let w1 := tick (log (Select "franchises" [("id", VStr id)]) w) in
    match outcome w (calls w) with
    | Some e => (Ok (None, Some e), (u, w1))
    | None =>
        match db_select "franchises" [("id", VStr id)] w with
        | [r] => (Ok (Some (nested w r), None), (u, w1))
        | _ => (Ok (None, Some "JSON object requested, multiple (or no) rows returned"),
                (u, w1))
        end
    end.

End FranchiseData.

Module EditFranchiseLoad.
Import Supabase SupabaseQueries Form EditFranchise.

Definition setLoading (v : bool) (s : State) : State :=
  {| id := id s; loading := v; saving := saving s; error := error s;
     name := name s; location := location s;
     shortDescription := shortDescription s;
     longDescription := longDescription s;
     investmentAmount := investmentAmount s;
     mainImageFile := mainImageFile s;
     existingMainImageUrl := existingMainImageUrl s;
     categories := categories s;
     selectedMainCategory := selectedMainCategory s;
     selectedSubCategories := selectedSubCategories s;
     galleryFiles := galleryFiles s;
     existingGalleryUrls := existingGalleryUrls s; faqs := faqs s;
     testimonials := testimonials s;
     successStories := successStories s |}.

Definition setName (v : string) (s : State) : State :=
  {| id := id s; loading := loading s; saving := saving s;
     error := error s; name := v; location := location s;
     shortDescription := shortDescription s;
     longDescription := longDescription s;
     investmentAmount := investmentAmount s;
     mainImageFile := mainImageFile s;
     existingMainImageUrl := existingMainImageUrl s;
     categories := categories s;
     selectedMainCategory := selectedMainCategory s;
     selectedSubCategories := selectedSubCategories s;
     galleryFiles := galleryFiles s;
     existingGalleryUrls := existingGalleryUrls s; faqs := faqs s;
     testimonials := testimonials s;
     successStories := successStories s |}.

Definition setLocation (v : string) (s : State) : State :=
  {| id := id s; loading := loading s; saving := saving s;
     error := error s; name := name s; location := v;
     shortDescription := shortDescription s;
     longDescription := longDescription s;
     investmentAmount := investmentAmount s;
     mainImageFile := mainImageFile s;
     existingMainImageUrl := existingMainImageUrl s;
     categories := categories s;
     selectedMainCategory := selectedMainCategory s;
     selectedSubCategories := selectedSubCategories s;
     galleryFiles := galleryFiles s;
     existingGalleryUrls := existingGalleryUrls s; faqs := faqs s;
     testimonials := testimonials s;
     successStories := successStories s |}.

Definition setShortDescription (v : string) (s : State) : State :=
  {| id := id s; loading := loading s; saving := saving s;
     error := error s; name := name s; location := location s;
     shortDescription := v; longDescription := longDescription s;
     investmentAmount := investmentAmount s;
     mainImageFile := mainImageFile s;
     existingMainImageUrl := existingMainImageUrl s;
     categories := categories s;
     selectedMainCategory := selectedMainCategory s;
     selectedSubCategories := selectedSubCategories s;
     galleryFiles := galleryFiles s;
     existingGalleryUrls := existingGalleryUrls s; faqs := faqs s;
     testimonials := testimonials s;
     successStories := successStories s |}.

Definition setLongDescription (v : string) (s : State) : State :=
  {| id := id s; loading := loading s; saving := saving s;
     error := error s; name := name s; location := location s;
     shortDescription := shortDescription s; longDescription := v;
     investmentAmount := investmentAmount s;
     mainImageFile := mainImageFile s;
     existingMainImageUrl := existingMainImageUrl s;
     categories := categories s;
     selectedMainCategory := selectedMainCategory s;
     selectedSubCategories := selectedSubCategories s;
     galleryFiles := galleryFiles s;
     existingGalleryUrls := existingGalleryUrls s; faqs := faqs s;
     testimonials := testimonials s;
     successStories := successStories s |}.

Definition setInvestmentAmount (v : string) (s : State) : State :=
  {| id := id s; loading := loading s; saving := saving s;
     error := error s; name := name s; location := location s;
     shortDescription := shortDescription s;
     longDescription := longDescription s; investmentAmount := v;
     mainImageFile := mainImageFile s;
     existingMainImageUrl := existingMainImageUrl s;
     categories := categories s;
     selectedMainCategory := selectedMainCategory s;
     selectedSubCategories := selectedSubCategories s;
     galleryFiles := galleryFiles s;
     existingGalleryUrls := existingGalleryUrls s; faqs := faqs s;
     testimonials := testimonials s;
     successStories := successStories s |}.

Definition setMainImageFile (v : option File) (s : State) : State :=
  {| id := id s; loading := loading s; saving := saving s;
     error := error s; name := name s; location := location s;
     shortDescription := shortDescription s;
     longDescription := longDescription s;
     investmentAmount := investmentAmount s; mainImageFile := v;
     existingMainImageUrl := existingMainImageUrl s;
     categories := categories s;
     selectedMainCategory := selectedMainCategory s;
     selectedSubCategories := selectedSubCategories s;
     galleryFiles := galleryFiles s;
     existingGalleryUrls := existingGalleryUrls s; faqs := faqs s;
     testimonials := testimonials s;
     successStories := successStories s |}.

Definition setExistingMainImageUrl (v : string) (s : State) : State :=
  {| id := id s; loading := loading s; saving := saving s;
     error := error s; name := name s; location := location s;
     shortDescription := shortDescription s;
     longDescription := longDescription s;
     investmentAmount := investmentAmount s;
     mainImageFile := mainImageFile s; existingMainImageUrl := v;
     categories := categories s;
     selectedMainCategory := selectedMainCategory s;
     selectedSubCategories := selectedSubCategories s;
     galleryFiles := galleryFiles s;
     existingGalleryUrls := existingGalleryUrls s; faqs := faqs s;
     testimonials := testimonials s;
     successStories := successStories s |}.

Definition setCategories (v : list Category) (s : State) : State :=
  {| id := id s; loading := loading s; saving := saving s;
     error := error s; name := name s; location := location s;
     shortDescription := shortDescription s;
     longDescription := longDescription s;
     investmentAmount := investmentAmount s;
     mainImageFile := mainImageFile s;
     existingMainImageUrl := existingMainImageUrl s; categories := v;
     selectedMainCategory := selectedMainCategory s;
     selectedSubCategories := selectedSubCategories s;
     galleryFiles := galleryFiles s;
     existingGalleryUrls := existingGalleryUrls s; faqs := faqs s;
     testimonials := testimonials s;
     successStories := successStories s |}.

Definition setFaqs (v : list FAQ) (s : State) : State :=
  {| id := id s; loading := loading s; saving := saving s;
     error := error s; name := name s; location := location s;
     shortDescription := shortDescription s;
     longDescription := longDescription s;
     investmentAmount := investmentAmount s;
     mainImageFile := mainImageFile s;
     existingMainImageUrl := existingMainImageUrl s;
     categories := categories s;
     selectedMainCategory := selectedMainCategory s;
     selectedSubCategories := selectedSubCategories s;
     galleryFiles := galleryFiles s;
     existingGalleryUrls := existingGalleryUrls s; faqs := v;
     testimonials := testimonials s;
     successStories := successStories s |}.

Definition setTestimonials (v : list Testimonial) (s : State) : State :=
  {| id := id s; loading := loading s; saving := saving s;
     error := error s; name := name s; location := location s;
     shortDescription := shortDescription s;
     longDescription := longDescription s;
     investmentAmount := investmentAmount s;
     mainImageFile := mainImageFile s;
     existingMainImageUrl := existingMainImageUrl s;
     categories := categories s;
     selectedMainCategory := selectedMainCategory s;
     selectedSubCategories := selectedSubCategories s;
     galleryFiles := galleryFiles s;
     existingGalleryUrls := existingGalleryUrls s; faqs := faqs s;
     testimonials := v; successStories := successStories s |}.

Definition setSuccessStories (v : list SuccessStory) (s : State) : State :=
  {| id := id s; loading := loading s; saving := saving s;
     error := error s; name := name s; location := location s;
     shortDescription := shortDescription s;
     longDescription := longDescription s;
     investmentAmount := investmentAmount s;
     mainImageFile := mainImageFile s;
     existingMainImageUrl := existingMainImageUrl s;
     categories := categories s;
     selectedMainCategory := selectedMainCategory s;
     selectedSubCategories := selectedSubCategories s;
     galleryFiles := galleryFiles s;
     existingGalleryUrls := existingGalleryUrls s; faqs := faqs s;
     testimonials := testimonials s; successStories := v |}.

(** A row of [franchise_categories] as the forms keep it. *)
Definition categoryOf (r : row) : Category :=
  {| cat_id := text (r !! "id");
     cat_name := text (r !! "name");
     parent_id := match r !! "parent_id" with Some (VStr p) => Some p | _ => None end |}.

Definition fetchCategories : M State unit :=
  fetched ← select_ordered "franchise_categories" [] "name" true;
  match fetched.1 with
  | Some data => setState (setCategories (List.map categoryOf data))
  | None => mret tt
  end.

Definition isNull {A} (o : option A) : bool :=
  match o with Some _ => false | None => true end.

Section Handlers.

(** [Number.prototype.toString], kept abstract like [parseFloat].  Text
    fields of the form hold strings: a column that is null or missing
    reads as the empty string. *)
Variable numberToString : Q -> string.

(** [investment_amount?.toString()] *)
Definition amountText (o : option value) : string :=
  match o with
  | Some (VNum q) => numberToString q
  | Some (VStr x) => x
  | Some (VBool b) => if b then "true" else "false"
  | Some VNull | None => ""
  end.

Definition fetchFranchise (s : State) : M State unit :=
  if negb (nonEmpty (id s)) then mret tt
  else
  finally
    (try_catch
       (fetched ← FranchiseData.select_single (id s);
        throwIf fetched.2;;
        match fetched.1 with
        | None => mret tt
        | Some data =>
            (* Set basic info *)
            setState (setName (text (FranchiseData.columns data !! "name")));;
            setState (setLocation (text (FranchiseData.columns data !! "location")));;
            (* Set details *)
            match FranchiseData.details data with
            | Some details =>
                setState (setShortDescription
                            (orElse (text (details !! "short_description")) ""));;
                setState (setLongDescription
                            (orElse (text (details !! "long_description")) ""));;
                setState (setInvestmentAmount
                            (orElse (amountText (details !! "investment_amount")) ""));;
                setState (setExistingMainImageUrl
                            (orElse (text (details !! "main_image_url")) ""))
            | None => mret tt
            end;;
            (* Set categories: reading [parent_id] of a missing category throws *)
            (if existsb isNull (FranchiseData.categories data)
             then throw "Cannot read properties of null (reading 'parent_id')"
             else mret tt);;
            let categories := omap (fun c => c) (FranchiseData.categories data) in
            let mainCategory :=
              List.find (fun c => negb (truthy (c !! "parent_id"))) categories in
            let subCategories :=
              List.filter (fun c => truthy (c !! "parent_id")) categories in
            match mainCategory with
            | Some c => setState (setSelectedMainCategory (text (c !! "id")))
            | None => mret tt
            end;;
            setState (setSelectedSubCategories
                        (fun _ => List.map (fun c => text (c !! "id")) subCategories));;
            (* Set FAQs *)
            match FranchiseData.faqs data with
            | [] => mret tt
            | rows =>
                setState (setFaqs
                  (List.map (fun faq => {| question := text (faq !! "question");
                                           answer := text (faq !! "answer") |}) rows))
            end;;
            (* Set testimonials *)
            match FranchiseData.testimonials data with
            | [] => mret tt
            | rows =>
                setState (setTestimonials
                  (List.map (fun testimonial =>
                               {| authorName := text (testimonial !! "author_name");
                                  t_content := text (testimonial !! "content") |}) rows))
            end;;
            (* Set success stories *)
            match FranchiseData.success_stories data with
            | [] => mret tt
            | rows =>
                setState (setSuccessStories
                  (List.map (fun story =>
                               {| title := text (story !! "title");
                                  content := text (story !! "content");
                                  imageFile := None;
                                  existingImageUrl :=
                                    match story !! "image_url" with
                                    | Some (VStr url) => Some url
                                    | _ => None
                                    end |}) rows))
            end
        end)
       (fun err =>
          consoleError "Error fetching franchise:" err;;
          setState (setError err)))
    (setState (setLoading false)).

End Handlers.

(** The row of [franchise_categories] that carries an id. *)
Definition categoryRow (w : World) (categoryId : string) : option row :=
  head (db_select "franchise_categories" [("id", VStr categoryId)] w).

(** The entries of the form that a save writes, as the form shows them
    when it is loaded again. *)
Definition savedFaqs (s : State) : list FAQ := List.filter faqFilled (faqs s).

Definition savedTestimonials (s : State) : list Testimonial :=
  List.filter testimonialFilled (testimonials s).

(** A story as loaded, against the story as it was saved: same title
    and content, no file chosen, and, when the saved story brought no
    new file, the image URL it had. *)
Definition loadedFrom (loaded story : SuccessStory) : Prop :=
  title loaded = title story /\ content loaded = content story
  /\ imageFile loaded = None
  /\ (imageFile story = None ->
      existingImageUrl loaded = Some (default "" (existingImageUrl story))).

End EditFranchiseLoad.

(* ===================================================================== *)
(** * Add franchise page: the category list and the fields of the form *)
(* ===================================================================== *)

Module AddFranchiseFields.
Import Supabase Form AddFranchise.

Definition setCategories (v : list Category) (s : State) : State :=
  {| isSubmitting := isSubmitting s; error := error s; categories := v;
     selectedMainCategory := selectedMainCategory s;
     selectedSubCategories := selectedSubCategories s; name := name s;
     location := location s; shortDescription := shortDescription s;
     longDescription := longDescription s;
     investmentAmount := investmentAmount s;
     mainImageFile := mainImageFile s; galleryFiles := galleryFiles s;
     faqs := faqs s; testimonials := testimonials s;
     successStories := successStories s |}.

Definition setFaqs (v : list FAQ) (s : State) : State :=
  {| isSubmitting := isSubmitting s; error := error s;
     categories := categories s;
     selectedMainCategory := selectedMainCategory s;
     selectedSubCategories := selectedSubCategories s; name := name s;
     location := location s; shortDescription := shortDescription s;
     longDescription := longDescription s;
     investmentAmount := investmentAmount s;
     mainImageFile := mainImageFile s; galleryFiles := galleryFiles s;
     faqs := v; testimonials := testimonials s;
     successStories := successStories s |}.

Definition fetchCategories : M State unit :=
  fetched ← select_ordered "franchise_categories" [] "name" true;
  match fetched.2 with
  | Some _ => setState (setError "Failed to load categories")
  | None =>
      match fetched.1 with
      | Some data => setState (setCategories (List.map EditFranchiseLoad.categoryOf data))
      | None => mret tt
      end
  end.

(** [keyof FAQ] *)
Inductive FAQKey := Kquestion | Kanswer.

Definition assignFAQ (field : FAQKey) (value : string) (faq : FAQ) : FAQ :=
  match field with
  | Kquestion => {| question := value; answer := answer faq |}
  | Kanswer => {| question := question faq; answer := value |}
  end.

Definition keyName (field : FAQKey) : string :=
  match field with Kquestion => "question" | Kanswer => "answer" end.

(** [newFaqs[index][field] = value] on a copy of the list; assigning to
    a field of an entry that is not there throws a TypeError. *)
Definition handleFAQChange (s : State) (index : nat) (field : FAQKey) (value : string)
    : M State unit :=
  match faqs s !! index with
  | Some faq => setState (setFaqs (<[index := assignFAQ field value faq]> (faqs s)))
  | None =>
      throw ("Cannot set properties of undefined (setting '" +:+ keyName field +:+ "')")
  end.

End AddFranchiseFields.

(* ===================================================================== *)
(** * Sample worlds and view states *)
(* ===================================================================== *)

Module Samples.
Import Supabase.

(** A data service that accepts every call, with one franchisor account
    whose profile awaits approval; the clock reads 2024-01-31
    23:59:59.123 UTC. *)
Definition world0 : World :=
  {| tables :=
       {[ "profiles" :=
            [obj [("id", VStr "u1"); ("user_type", VStr "franchisor");
                  ("status", VStr "pending"); ("full_name", VStr "Ada")]];
          "franchise_leads" :=
            [obj [("id", VStr "l1"); ("status", VStr "new"); ("name", VStr "Bob")];
             obj [("id", VStr "l2"); ("status", VStr "qualified"); ("name", VStr "Cy")]];
          "franchises" :=
            [obj [("id", VStr "f1"); ("status", VStr "pending"); ("name", VStr "Cafe")];
             obj [("id", VStr "f2"); ("status", VStr "pending"); ("name", VStr "Gym")]];
          "franchise_faqs" :=
            [obj [("franchise_id", VStr "f1"); ("question", VStr "old");
                  ("answer", VStr "old")];
             obj [("franchise_id", VStr "f2"); ("question", VStr "q2");
                  ("answer", VStr "a2")]];
          "franchise_category_mappings" :=
            [obj [("franchise_id", VStr "f1"); ("category_id", VStr "c9")];
             obj [("franchise_id", VStr "f2"); ("category_id", VStr "c1")]] ]};
     objects := [];
     users := [{| user_id := "u1"; user_email := "ada@example.com";
                  user_password := "secret" |}];
     session := Some "u1";
     trace := [];
     calls := 0;
     draws := 0;
     outcome := fun _ => None;
     fresh := fun n => "id-" +:+ String (ascii_of_nat (48 + n)) "";
     random := fun n => "0." +:+ String (ascii_of_nat (53 + n)) "";
     clock := 1706745599123;
     project_url := "https://project.example";
     stripe_loaded := true |}.

(** The same world, except that the service refuses its [k]-th call. *)
Definition refusing (k : nat) (message : string) (w : World) : World :=
  {| tables := tables w; objects := objects w; users := users w;
     session := session w; trace := trace w; calls := calls w;
     draws := draws w;
     outcome := fun n => if Nat.eqb n k then Some message else outcome w n;
     fresh := fresh w; random := random w; clock := clock w;
     project_url := project_url w; stripe_loaded := stripe_loaded w |}.

Definition tiers : list FeaturedAds.PricingTier :=
  [ {| FeaturedAds.duration := "1w"; FeaturedAds.price := Qmake 9999 100 |};
    {| FeaturedAds.duration := "1m"; FeaturedAds.price := Qmake 29999 100 |};
    {| FeaturedAds.duration := "3m"; FeaturedAds.price := Qmake 79999 100 |} ].

Definition ads (selectedDuration : string) : FeaturedAds.State :=
  {| FeaturedAds.selectedFranchise := "f1";
     FeaturedAds.selectedDuration := selectedDuration;
     FeaturedAds.isPaymentModalOpen := true;
     FeaturedAds.processing := false;
     FeaturedAds.error := "";
     FeaturedAds.loading := false;
     FeaturedAds.franchises := [("f1", "Cafe")];
     FeaturedAds.pricingTiers := tiers;
     FeaturedAds.featuredAds := [];
     FeaturedAds.showDurationModal := false |}.

Definition login : FranchisorLogin.State :=
  {| FranchisorLogin.email := "ada@example.com";
     FranchisorLogin.password := "secret";
     FranchisorLogin.error := "";
     FranchisorLogin.loading := false |}.

Definition leadNew : row :=
  obj [("id", VStr "l1"); ("status", VStr "new"); ("name", VStr "Bob")].

Definition leadQualified : row :=
  obj [("id", VStr "l2"); ("status", VStr "qualified"); ("name", VStr "Cy")].

Definition leadsPage : Leads.State :=
  {| Leads.leads := [leadNew; leadQualified];
     Leads.loading := false;
     Leads.error := "";
     Leads.selectedStatus := "all";
     Leads.selectedLead := None;
     Leads.isModalOpen := false |}.

(** A stand-in for [parseFloat]: numbers of the form are not looked at. *)
Definition parseFloat0 (s : string) : value := VNull.

Definition storyWithImage : Form.SuccessStory :=
  {| Form.title := "Won"; Form.content := "Big";
     Form.imageFile := Some {| file_name := "story.png" |};
     Form.existingImageUrl := None |}.

Definition storyBlank : Form.SuccessStory :=
  {| Form.title := ""; Form.content := "left over";
     Form.imageFile := None; Form.existingImageUrl := None |}.

Definition someFaqs : list Form.FAQ :=
  [ {| Form.question := "Fee?"; Form.answer := "None" |};
    {| Form.question := ""; Form.answer := "orphan answer" |};
    {| Form.question := "Orphan question?"; Form.answer := "" |} ].

Definition someTestimonials : list Form.Testimonial :=
  [ {| Form.authorName := "Ann"; Form.t_content := "Great" |};
    {| Form.authorName := ""; Form.t_content := "" |} ].

(** The edit form of franchise f1, no new main image chosen. *)
Definition editForm : EditFranchise.State :=
  {| EditFranchise.id := "f1";
     EditFranchise.loading := false;
     EditFranchise.saving := false;
     EditFranchise.error := "";
     EditFranchise.name := "Cafe";
     EditFranchise.location := "Oslo";
     EditFranchise.shortDescription := "short";
     EditFranchise.longDescription := "long";
     EditFranchise.investmentAmount := "1000";
     EditFranchise.mainImageFile := None;
     EditFranchise.existingMainImageUrl := "https://img.example/old.png";
     EditFranchise.categories := [];
     EditFranchise.selectedMainCategory := "c1";
     EditFranchise.selectedSubCategories := ["c2"; "c3"];
     EditFranchise.galleryFiles := [];
     EditFranchise.existingGalleryUrls := [];
     EditFranchise.faqs := someFaqs;
     EditFranchise.testimonials := someTestimonials;
     EditFranchise.successStories := [storyWithImage; storyBlank] |}.

Definition addForm : AddFranchise.State :=
  {| AddFranchise.isSubmitting := false;
     AddFranchise.error := "";
     AddFranchise.categories := [];
     AddFranchise.selectedMainCategory := "c1";
     AddFranchise.selectedSubCategories := [];
     AddFranchise.name := "Bakery";
     AddFranchise.location := "Bergen";
     AddFranchise.shortDescription := "short";
     AddFranchise.longDescription := "long";
     AddFranchise.investmentAmount := "2000";
     AddFranchise.mainImageFile := None;
     AddFranchise.galleryFiles := [];
     AddFranchise.faqs := someFaqs;
     AddFranchise.testimonials := someTestimonials;
     AddFranchise.successStories := [storyBlank] |}.

Definition franchiseApprovals : AdminFranchiseApprovals.State :=
  {| AdminFranchiseApprovals.pendingFranchises := [];
     AdminFranchiseApprovals.loading := false;
     AdminFranchiseApprovals.processingId := None |}.

Definition accountApprovals : AdminAccountApprovals.State :=
  {| AdminAccountApprovals.pendingAccounts := [];
     AdminAccountApprovals.loading := false;
     AdminAccountApprovals.processingId := None;
     AdminAccountApprovals.error := "" |}.

End Samples.

(* ===================================================================== *)
(** * A second sample world: three accounts, their franchises and leads *)
(* ===================================================================== *)

Module MoreSamples.
Import Supabase Samples.

Definition ada : AuthUser :=
  {| user_id := "u1"; user_email := "ada@example.com"; user_password := "secret" |}.

Definition bo : AuthUser :=
  {| user_id := "u2"; user_email := "bo@example.com"; user_password := "pw2" |}.

Definition cy : AuthUser :=
  {| user_id := "u3"; user_email := "cy@example.com"; user_password := "pw3" |}.

Definition profileAda : row :=
  obj [("id", VStr "u1"); ("user_type", VStr "franchisor");
       ("status", VStr "approved"); ("full_name", VStr "Ada");
       ("company_name", VStr "Ada Ltd")].

Definition profileBo : row :=
  obj [("id", VStr "u2"); ("user_type", VStr "franchisor");
       ("status", VStr "pending"); ("full_name", VStr "Bo")].

Definition profileCy : row :=
  obj [("id", VStr "u3"); ("user_type", VStr "investor");
       ("status", VStr "approved"); ("full_name", VStr "Cy")].

Definition lead1 : row :=
  obj [("id", VStr "l1"); ("status", VStr "new"); ("name", VStr "Bob");
       ("franchisor_id", VStr "u1")].

Definition lead2 : row :=
  obj [("id", VStr "l2"); ("status", VStr "qualified"); ("name", VStr "Cy");
       ("franchisor_id", VStr "u1")].

Definition lead3 : row :=
  obj [("id", VStr "l3"); ("status", VStr "new"); ("name", VStr "Dee");
       ("franchisor_id", VStr "u2")].

Definition cafe : row :=
  obj [("id", VStr "f1"); ("status", VStr "approved"); ("name", VStr "Cafe");
       ("franchisor_id", VStr "u1")].

Definition gym : row :=
  obj [("id", VStr "f2"); ("status", VStr "pending"); ("name", VStr "Gym");
       ("franchisor_id", VStr "u1")].

Definition spa : row :=
  obj [("id", VStr "f3"); ("status", VStr "approved"); ("name", VStr "Spa");
       ("franchisor_id", VStr "u2")].

Definition food : row :=
  obj [("id", VStr "c1"); ("name", VStr "Food"); ("parent_id", VNull)].

Definition bakeries : row :=
  obj [("id", VStr "c2"); ("name", VStr "Bakeries"); ("parent_id", VStr "c1")].

Definition cafes : row :=
  obj [("id", VStr "c3"); ("name", VStr "Cafes"); ("parent_id", VStr "c1")].

(** [world0] with other tables and accounts; Ada is signed in. *)
Definition world1 : World :=
  {| tables :=
       {[ "profiles" := [profileAda; profileBo; profileCy];
          "franchise_leads" := [lead1; lead2; lead3];
          "franchises" := [cafe; gym; spa];
          "franchise_categories" := [food; bakeries; cafes];
          "franchise_faqs" :=
            [obj [("franchise_id", VStr "f1"); ("question", VStr "old");
                  ("answer", VStr "old")]] ]};
     objects := objects world0;
     users := [ada; bo; cy];
     session := Some "u1";
     trace := trace world0;
     calls := calls world0;
     draws := draws world0;
     outcome := outcome world0;
     fresh := fresh world0;
     random := random world0;
     clock := clock world0;
     project_url := project_url world0;
     stripe_loaded := stripe_loaded world0 |}.

Definition loginAs (email password : string) : FranchisorLogin.State :=
  {| FranchisorLogin.email := email;
     FranchisorLogin.password := password;
     FranchisorLogin.error := "";
     FranchisorLogin.loading := false |}.

(** The lead page of Ada, showing her two leads. *)
Definition leadsOfAda (selectedStatus : string) : Leads.State :=
  {| Leads.leads := [lead1; lead2];
     Leads.loading := false;
     Leads.error := "";
     Leads.selectedStatus := selectedStatus;
     Leads.selectedLead := None;
     Leads.isModalOpen := false |}.

Definition layout : FranchisorLayout.State :=
  {| FranchisorLayout.isAdvertisingOpen := false;
     FranchisorLayout.notificationCounts :=
       {| FranchisorLayout.leads := 0; FranchisorLayout.messages := 0;
          FranchisorLayout.support := 0 |} |}.

Definition someCategories : list Form.Category :=
  [ {| Form.cat_id := "c1"; Form.cat_name := "Food"; Form.parent_id := None |};
    {| Form.cat_id := "c2"; Form.cat_name := "Bakeries"; Form.parent_id := Some "c1" |};
    {| Form.cat_id := "c3"; Form.cat_name := "Cafes"; Form.parent_id := Some "c1" |} ].

(** The edit form of franchise f1 with the category list loaded and one
    sub-category ticked. *)
Definition editFormLoaded : EditFranchise.State :=
  {| EditFranchise.id := "f1";
     EditFranchise.loading := false;
     EditFranchise.saving := false;
     EditFranchise.error := "";
     EditFranchise.name := "Cafe";
     EditFranchise.location := "Oslo";
     EditFranchise.shortDescription := "short";
     EditFranchise.longDescription := "long";
     EditFranchise.investmentAmount := "1000";
     EditFranchise.mainImageFile := None;
     EditFranchise.existingMainImageUrl := "https://img.example/old.png";
     EditFranchise.categories := someCategories;
     EditFranchise.selectedMainCategory := "c1";
     EditFranchise.selectedSubCategories := ["c2"];
     EditFranchise.galleryFiles := [];
     EditFranchise.existingGalleryUrls := [];
     EditFranchise.faqs := someFaqs;
     EditFranchise.testimonials := someTestimonials;
     EditFranchise.successStories := [storyWithImage; storyBlank] |}.

(** The edit form as it is mounted, before anything is loaded. *)
Definition editFormBlank : EditFranchise.State :=
  {| EditFranchise.id := "f1";
     EditFranchise.loading := true;
     EditFranchise.saving := false;
     EditFranchise.error := "";
     EditFranchise.name := "";
     EditFranchise.location := "";
     EditFranchise.shortDescription := "";
     EditFranchise.longDescription := "";
     EditFranchise.investmentAmount := "";
     EditFranchise.mainImageFile := None;
     EditFranchise.existingMainImageUrl := "";
     EditFranchise.categories := [];
     EditFranchise.selectedMainCategory := "";
     EditFranchise.selectedSubCategories := [];
     EditFranchise.galleryFiles := [];
     EditFranchise.existingGalleryUrls := [];
     EditFranchise.faqs := [ {| Form.question := ""; Form.answer := "" |} ];
     EditFranchise.testimonials := [ {| Form.authorName := ""; Form.t_content := "" |} ];
     EditFranchise.successStories := [] |}.

Definition addFormLoaded : AddFranchise.State :=
  {| AddFranchise.isSubmitting := false;
     AddFranchise.error := "";
     AddFranchise.categories := someCategories;
     AddFranchise.selectedMainCategory := "c1";
     AddFranchise.selectedSubCategories := ["c3"];
     AddFranchise.name := "Bakery";
     AddFranchise.location := "Bergen";
     AddFranchise.shortDescription := "short";
     AddFranchise.longDescription := "long";
     AddFranchise.investmentAmount := "2000";
     AddFranchise.mainImageFile := None;
     AddFranchise.galleryFiles := [];
     AddFranchise.faqs := someFaqs;
     AddFranchise.testimonials := someTestimonials;
     AddFranchise.successStories := [storyBlank] |}.

(** A stand-in for [Number.prototype.toString]. *)
Definition numberToString0 (q : Q) : string := "0".

End MoreSamples.
(* ===================================================================== *)
(** * Facts about calendar arithmetic *)
(* ===================================================================== *)

Module JSDateFacts.
Import JSDate.

(** Evaluate [monthStart] at the literal months of the goal. *)
Ltac month_table :=
  repeat match goal with
  | |- context [monthStart (?a + 1) ?l] =>
      let v := eval vm_compute in (a + 1) in
      change (monthStart (a + 1) l) with (monthStart v l)
  | H : context [monthStart (?a + 1) ?l] |- _ =>
      let v := eval vm_compute in (a + 1) in
      change (monthStart (a + 1) l) with (monthStart v l) in H
  end;
  cbv [monthStart] in *.

(** The same for months written as closed sums. *)
Ltac month_table' :=
  repeat match goal with
  | |- context [monthStart ?e ?l] =>
      lazymatch e with
      | Z0 => fail
      | Zpos _ => fail
      | _ => let v := eval vm_compute in e in
             change (monthStart e l) with (monthStart v l)
      end
  end;
  cbv [monthStart] in *.

Ltac month_cases m :=
  let Cases := fresh "Cases" in
  assert (m = 0 \/ m = 1 \/ m = 2 \/ m = 3 \/ m = 4 \/ m = 5 \/ m = 6 \/ m = 7
          \/ m = 8 \/ m = 9 \/ m = 10 \/ m = 11) as Cases by lia;
  repeat (destruct Cases as [-> | Cases]); try subst m.

Lemma isLeap_spec y :
  isLeap y = true <-> (y mod 4 = 0 /\ (y mod 100 <> 0 \/ y mod 400 = 0)).
Proof.
  unfold isLeap. rewrite andb_true_iff, orb_true_iff, negb_true_iff.
  rewrite !Z.eqb_eq, Z.eqb_neq. tauto.
Qed.

Lemma DayFromYear_succ y : DayFromYear (y + 1) = DayFromYear y + DaysInYear y.
Proof.
  unfold DayFromYear, DaysInYear.
  destruct (isLeap y) eqn:E.
  - apply isLeap_spec in E. Z.div_mod_to_equations. lia.
  - assert (~ (y mod 4 = 0 /\ (y mod 100 <> 0 \/ y mod 400 = 0))) as N
      by (rewrite <- isLeap_spec; congruence).
    Z.div_mod_to_equations. lia.
Qed.

Lemma DaysInYear_cases y : DaysInYear y = 365 + (if isLeap y then 1 else 0).
Proof. unfold DaysInYear. destruct (isLeap y); reflexivity. Qed.

Lemma DayFromYear_mono y1 y2 : y1 <= y2 -> DayFromYear y1 <= DayFromYear y2.
Proof. intros H. unfold DayFromYear. Z.div_mod_to_equations. lia. Qed.

(** [YearFromTime] is the year whose days contain the day of [t]. *)
Lemma YearFromTime_spec t :
  DayFromYear (YearFromTime t) <= Day t < DayFromYear (YearFromTime t + 1).
Proof.
  unfold YearFromTime. set (d := Day t). clearbody d.
  set (y := 1970 + 400 * d / 146097).
  assert (Hy : DayFromYear (y - 1) <= d < DayFromYear (y + 2)).
  { subst y. unfold DayFromYear. Z.div_mod_to_equations. lia. }
  destruct (Z.ltb_spec d (DayFromYear y)).
  - replace (y - 1 + 1) with y by lia. lia.
  - destruct (Z.leb_spec (DayFromYear (y + 1)) d).
    + replace (y + 1 + 1) with (y + 2) by lia. lia.
    + lia.
Qed.

Lemma YearFromTime_unique t y :
  DayFromYear y <= Day t < DayFromYear (y + 1) -> YearFromTime t = y.
Proof.
  intros H. pose proof (YearFromTime_spec t) as S.
  destruct (Z.lt_trichotomy (YearFromTime t) y) as [L | [E | G]]; [| exact E |].
  - pose proof (DayFromYear_mono (YearFromTime t + 1) y ltac:(lia)). lia.
  - pose proof (DayFromYear_mono (y + 1) (YearFromTime t) ltac:(lia)). lia.
Qed.

Lemma InLeapYear_cases t : InLeapYear t = 0 \/ InLeapYear t = 1.
Proof. unfold InLeapYear. destruct (isLeap _); auto. Qed.

Lemma DayWithinYear_range t : 0 <= DayWithinYear t < 365 + InLeapYear t.
Proof.
  pose proof (YearFromTime_spec t) as S.
  rewrite DayFromYear_succ, DaysInYear_cases in S.
  unfold DayWithinYear, InLeapYear. lia.
Qed.

Lemma monthOfDay_range d leap : 0 <= monthOfDay d leap <= 11.
Proof.
  unfold monthOfDay.
  repeat match goal with |- context [if ?b then _ else _] => destruct b end; lia.
Qed.

(** The day within the year lies inside the month [monthOfDay] names. *)
Lemma monthOfDay_spec d leap :
  0 <= d < 365 + leap -> (leap = 0 \/ leap = 1) ->
  monthStart (monthOfDay d leap) leap <= d
    < monthStart (monthOfDay d leap + 1) leap.
Proof.
  intros Hd Hl. unfold monthOfDay.
  repeat match goal with
         | |- context [if ?a <? ?b then _ else _] => destruct (Z.ltb_spec a b)
         end; month_table; lia.
Qed.

Lemma monthOfDay_unique m d leap :
  0 <= m <= 11 -> (leap = 0 \/ leap = 1) ->
  monthStart m leap <= d < monthStart (m + 1) leap ->
  monthOfDay d leap = m.
Proof.
  intros Hm Hl.
  unfold monthOfDay.
  month_cases m; month_table; intros Hd;
    repeat match goal with
           | |- context [if ?a <? ?b then _ else _] => destruct (Z.ltb_spec a b)
           end; lia.
Qed.

Lemma MonthFromTime_range t : 0 <= MonthFromTime t <= 11.
Proof. apply monthOfDay_range. Qed.

Lemma DateFromTime_range t : 1 <= DateFromTime t <= 31.
Proof.
  pose proof (monthOfDay_spec (DayWithinYear t) (InLeapYear t)
                (DayWithinYear_range t) (InLeapYear_cases t)) as S.
  pose proof (MonthFromTime_range t) as R.
  unfold DateFromTime, MonthFromTime in *.
  set (m := monthOfDay (DayWithinYear t) (InLeapYear t)) in *. clearbody m.
  destruct (InLeapYear_cases t) as [E | E]; rewrite E in *;
    month_cases m; month_table; lia.
Qed.

(** The day number splits into year, month and day of the month. *)
Lemma Day_decompose t :
  Day t = DayFromYear (YearFromTime t)
          + monthStart (MonthFromTime t) (InLeapYear t) + DateFromTime t - 1.
Proof. unfold DateFromTime, DayWithinYear. lia. Qed.

Lemma MakeDay_in_range y m d :
  0 <= m <= 11 ->
  MakeDay y m d = DayFromYear y + monthStart m (if isLeap y then 1 else 0) + d - 1.
Proof.
  intros Hm. unfold MakeDay.
  replace (m / 12) with 0 by (Z.div_mod_to_equations; lia).
  replace (m mod 12) with m by (Z.div_mod_to_equations; lia).
  rewrite Z.add_0_r. reflexivity.
Qed.

(** Rebuilding the day from the calendar fields of [t], with the day of
    the month moved by [n], moves the day number by [n]. *)
Lemma MakeDay_shift_date t n :
  MakeDay (YearFromTime t) (MonthFromTime t) (DateFromTime t + n) = Day t + n.
Proof.
  rewrite MakeDay_in_range by apply MonthFromTime_range.
  rewrite (Day_decompose t). unfold InLeapYear. lia.
Qed.

Lemma MakeDate_Day d tod : 0 <= tod < msPerDay -> Day (MakeDate d tod) = d.
Proof.
  intros H. unfold Day, MakeDate, msPerDay in *. Z.div_mod_to_equations. lia.
Qed.

Lemma MakeDate_TimeWithinDay d tod :
  0 <= tod < msPerDay -> TimeWithinDay (MakeDate d tod) = tod.
Proof.
  intros H. unfold TimeWithinDay, MakeDate, msPerDay in *.
  Z.div_mod_to_equations. lia.
Qed.

Lemma TimeWithinDay_range t : 0 <= TimeWithinDay t < msPerDay.
Proof. unfold TimeWithinDay, msPerDay. Z.div_mod_to_equations. lia. Qed.

Lemma MakeDate_shift t n :
  MakeDate (Day t + n) (TimeWithinDay t) = t + n * msPerDay.
Proof.
  unfold MakeDate, Day, TimeWithinDay, msPerDay. Z.div_mod_to_equations. lia.
Qed.

(** A day inside month [m] of year [y] has exactly these calendar fields. *)
Lemma fields_of_day t y m d :
  0 <= m <= 11 -> 1 <= d <= DaysInMonth y m ->
  Day t = MakeDay y m d ->
  YearFromTime t = y /\ MonthFromTime t = m /\ DateFromTime t = d.
Proof.
  intros Hm Hd HD. rewrite MakeDay_in_range in HD by assumption.
  unfold DaysInMonth in Hd.
  set (leap := if isLeap y then 1 else 0) in *.
  assert (Hl : leap = 0 \/ leap = 1) by (subst leap; destruct (isLeap y); auto).
  assert (Hms : 0 <= monthStart m leap /\ monthStart (m + 1) leap <= 365 + leap).
  { clear Hd HD. month_cases m; month_table; lia. }
  assert (HY : YearFromTime t = y).
  { apply YearFromTime_unique. rewrite DayFromYear_succ, DaysInYear_cases.
    fold leap. lia. }
  assert (HL : InLeapYear t = leap) by (unfold InLeapYear; rewrite HY; reflexivity).
  assert (HW : DayWithinYear t = monthStart m leap + d - 1)
    by (unfold DayWithinYear; rewrite HY; lia).
  assert (HM : MonthFromTime t = m).
  { unfold MonthFromTime. rewrite HL, HW. apply monthOfDay_unique; auto. lia. }
  split; [exact HY | split; [exact HM |]].
  unfold DateFromTime. rewrite HM, HL, HW. lia.
Qed.

End JSDateFacts.

Module JSDateMonths.
Import JSDate JSDateFacts.

Lemma setDate_plus tza t n :
  setDate tza (Some t) ((fun d => d + n) <$> getDate tza (Some t))
  = TimeClip (t + n * msPerDay).
Proof.
  cbn. f_equal. rewrite MakeDay_shift_date, MakeDate_shift.
  unfold UTC, LocalTime. lia.
Qed.

Lemma setMonth_plus tza t k :
  setMonth tza (Some t) ((fun m => m + k) <$> getMonth tza (Some t))
  = let lt := LocalTime tza t in
    TimeClip (UTC tza (MakeDate
      (MakeDay (YearFromTime lt) (MonthFromTime lt + k) (DateFromTime lt))
      (TimeWithinDay lt))).
Proof. reflexivity. Qed.

Lemma TimeClip_in_range t : - maxTime <= t <= maxTime -> TimeClip t = Some t.
Proof.
  intros H. unfold TimeClip.
  destruct (Z.gtb_spec (Z.abs t) maxTime); [lia | reflexivity].
Qed.

Lemma month_carry m k :
  0 <= m <= 11 -> 0 <= k <= 12 ->
  ((m + k) / 12 = 0 /\ (m + k) mod 12 = m + k /\ m + k <= 11)
  \/ ((m + k) / 12 = 1 /\ (m + k) mod 12 = m + k - 12 /\ 12 <= m + k).
Proof. intros Hm Hk. Z.div_mod_to_equations. lia. Qed.

(** Moving [k] months ahead (1 or 6) lands between 0 and 200 days later. *)
Lemma months_ahead_bound t k :
  k = 1 \/ k = 6 ->
  Day t <= MakeDay (YearFromTime t) (MonthFromTime t + k) (DateFromTime t)
        <= Day t + 200.
Proof.
  intros Hk. rewrite (Day_decompose t).
  pose proof (MonthFromTime_range t) as Hm.
  unfold MakeDay, InLeapYear.
  set (y := YearFromTime t). set (m := MonthFromTime t) in *.
  set (d := DateFromTime t). clearbody y m d.
  destruct (month_carry m k Hm ltac:(lia)) as [(-> & -> & Hle) | (-> & -> & Hge)].
  - rewrite Z.add_0_r. destruct (isLeap y);
      destruct Hk as [-> | ->]; month_cases m; try lia; month_table'; lia.
  - rewrite DayFromYear_succ, DaysInYear_cases.
    destruct (isLeap y), (isLeap (y + 1));
      destruct Hk as [-> | ->]; month_cases m; try lia; month_table'; lia.
Qed.

End JSDateMonths.

Module AdvanceFacts.
Import JSDate JSDateFacts JSDateMonths Supabase FeaturedAds.

Lemma MakeDay_normal y m d :
  MakeDay y m d = MakeDay (y + m / 12) (m mod 12) 1 + (d - 1).
Proof.
  assert (0 <= m mod 12 <= 11) as R by (Z.div_mod_to_equations; lia).
  rewrite (MakeDay_in_range _ _ 1 R). unfold MakeDay. lia.
Qed.

Lemma MakeDay_as_normal y m d :
  MakeDay y m d = MakeDay (y + m / 12) (m mod 12) d.
Proof.
  assert (0 <= m mod 12 <= 11) as R by (Z.div_mod_to_equations; lia).
  rewrite (MakeDay_in_range _ _ d R). reflexivity.
Qed.

(** [setMonth(getMonth() + k)] for k = 1 or 6, away from the end of time. *)
Lemma setMonth_monthsLater tza t k :
  k = 1 \/ k = 6 ->
  - maxTime <= t -> t + 200 * msPerDay <= maxTime ->
  exists e,
    setMonth tza (Some t) ((fun m => m + k) <$> getMonth tza (Some t)) = Some e
    /\ t <= e <= t + 200 * msPerDay
    /\ monthsLater tza k t e.
Proof.
  intros Hk Hlo Hhi. rewrite setMonth_plus. cbv zeta.
  set (lt := LocalTime tza t).
  set (md := MakeDay (YearFromTime lt) (MonthFromTime lt + k) (DateFromTime lt)).
  pose proof (months_ahead_bound lt k Hk) as B. fold md in B.
  pose proof (TimeWithinDay_range lt) as T.
  assert (Hlt : lt = MakeDate (Day lt) (TimeWithinDay lt)).
  { unfold MakeDate, Day, TimeWithinDay, msPerDay. Z.div_mod_to_equations. lia. }
  set (el := MakeDate md (TimeWithinDay lt)).
  assert (Hel : lt <= el <= lt + 200 * msPerDay).
  { subst el. rewrite Hlt at 1 4. unfold MakeDate, msPerDay in *. lia. }
  exists (UTC tza el).
  assert (Hr : t <= UTC tza el <= t + 200 * msPerDay)
    by (unfold UTC; subst lt; unfold LocalTime in Hel; lia).
  split; [apply TimeClip_in_range; lia | split; [exact Hr |]].
  unfold monthsLater. cbv zeta.
  replace (LocalTime tza (UTC tza el)) with el by (unfold LocalTime, UTC; lia).
  fold lt. subst el.
  rewrite MakeDate_TimeWithinDay, MakeDate_Day by exact T.
  split; [reflexivity | split].
  - subst md. apply MakeDay_normal.
  - intros Hd. apply fields_of_day.
    + Z.div_mod_to_equations; lia.
    + pose proof (DateFromTime_range lt). lia.
    + rewrite MakeDate_Day by exact T. subst md. apply MakeDay_as_normal.
Qed.

Lemma advance_offset tza d t :
  d ∈ ["1w"; "2w"; "1m"; "6m"] ->
  - maxTime <= t -> t + 200 * msPerDay <= maxTime ->
  exists e, advance tza d (Some t) = Some e /\ offsetTable tza d t e.
Proof.
  intros Hd Hlo Hhi. unfold advance, offsetTable.
  assert (msPerDay = 86400000) as E by reflexivity.
  repeat case_bool_decide; subst.
  - exists (t + 7 * msPerDay). rewrite setDate_plus.
    split; [apply TimeClip_in_range; lia | auto].
  - exists (t + 14 * msPerDay). rewrite setDate_plus.
    split; [apply TimeClip_in_range; lia | auto 6].
  - destruct (setMonth_monthsLater tza t 1) as (e & He & _ & Hm); auto.
    exists e. split; [exact He | auto 6].
  - destruct (setMonth_monthsLater tza t 6) as (e & He & _ & Hm); auto.
    exists e. split; [exact He | auto 6].
  - exfalso.
    repeat (apply elem_of_cons in Hd as [Hd | Hd]; [congruence |]).
    apply elem_of_nil in Hd. exact Hd.
Qed.

Lemma advance_other tza d x :
  d ∉ ["1w"; "2w"; "1m"; "6m"] -> advance tza d x = x.
Proof.
  intros Hd. unfold advance.
  repeat case_bool_decide; subst; try reflexivity; exfalso; apply Hd;
    solve [repeat constructor].
Qed.

End AdvanceFacts.

(* ===================================================================== *)
(** * Running handlers symbolically *)
(* ===================================================================== *)

Module Run.
Import Supabase.

(** Unfold the monad and the client calls down to world records. *)
Ltac unfold_calls :=
  cbv beta iota zeta delta
    [dispatch finally try_catch mbind M_bind mret M_ret setState throw newDate
     Supabase.toISOString JSDate.toISOString fmap option_fmap option_map
     insert_returning insert update delete_eq upsert select select_ordered
     select_single query storage_upload signInWithPassword signOut getUser
     listUsers mathRandom navigate throwIf fetch world redirectToCheckout call
     consoleError effect fst snd tick log drawn with_tables with_objects
     with_session set_table db_insert db_update db_delete];
  cbn [tables objects users session trace calls draws outcome fresh random
       clock project_url stripe_loaded ok body_error body_sessionId fst snd].

Lemma table_insert_eq w t rows ts :
  tables w = <[t := rows]> ts -> table w t = rows.
Proof. intros E. unfold table. rewrite E, lookup_insert_eq. reflexivity. Qed.

Lemma table_db_insert t r w : table (db_insert t r w) t = (table w t ++ [r])%list.
Proof. eapply table_insert_eq. reflexivity. Qed.

Lemma table_db_update t fields col v w :
  table (db_update t fields col v w) t
  = List.map (fun r => if matches col v r then fields ∪ r else r) (table w t).
Proof. eapply table_insert_eq. reflexivity. Qed.

Lemma table_db_delete t col v w :
  table (db_delete t col v w) t
  = List.filter (fun r => negb (matches col v r)) (table w t).
Proof. eapply table_insert_eq. reflexivity. Qed.

Lemma table_set_other t t' rows w :
  t <> t' -> table (set_table t rows w) t' = table w t'.
Proof.
  intros Hne. unfold table, set_table, with_tables. cbn [tables].
  rewrite lookup_insert_ne by exact Hne. reflexivity.
Qed.

Lemma table_db_insert_other t r t' w :
  t <> t' -> table (db_insert t r w) t' = table w t'.
Proof. apply table_set_other. Qed.

Lemma table_db_update_other t fields col v t' w :
  t <> t' -> table (db_update t fields col v w) t' = table w t'.
Proof. apply table_set_other. Qed.

Lemma table_db_delete_other t col v t' w :
  t <> t' -> table (db_delete t col v w) t' = table w t'.
Proof. apply table_set_other. Qed.

Lemma events_since_app w w' evs :
  trace w' = (trace w ++ evs)%list -> events_since w w' = evs.
Proof. intros E. unfold events_since. rewrite E. apply drop_app_length. Qed.

Lemma events_since_nil w w' : trace w' = trace w -> events_since w w' = [].
Proof.
  intros E. apply events_since_app. rewrite E. symmetry. apply app_nil_r.
Qed.


End Run.

Module FeaturedAdsFacts.
Import JSDate Supabase FeaturedAds Run AdvanceFacts.

(** What a confirmed purchase does once a tier matches and both dates
    are valid: one insert of the ad row, then no further write. *)
Lemma handlePaymentConfirm_insert tza s w tier e :
  List.find (fun tier => bool_decide (duration tier = selectedDuration s))
            (pricingTiers s) = Some tier ->
  advance tza (selectedDuration s) (Some (clock w)) = Some e ->
  let r := adRow s tier (isoString (clock w)) (isoString e) in
  let s' := (dispatch (handlePaymentConfirm tza) (s, w)).2 in
  exists rest,
    trace s'.2 = (trace w ++ Insert "featured_ads" r :: rest)%list
    /\ Forall (fun ev => writes ev = false) rest
    /\ (outcome w (calls w) = None ->
        table s'.2 "featured_ads"
        = (table w "featured_ads" ++ [<["id" := VStr (fresh w (calls w))]> r])%list)
    /\ (outcome w (calls w) <> None -> tables s'.2 = tables w).
Proof.
  intros Hf Ha. cbv zeta. unfold handlePaymentConfirm, adRow.
  unfold_calls. rewrite Hf, Ha. unfold_calls.
  destruct (outcome w (calls w)) as [err|] eqn:E0; unfold_calls.
  { eexists. split; [rewrite <- app_assoc; reflexivity |].
    split; [repeat constructor | split; [discriminate | reflexivity]]. }
  destruct (outcome w (S (calls w))) as [err|] eqn:E1; unfold_calls.
  { eexists. split; [rewrite <- !app_assoc; reflexivity |].
    split; [repeat constructor | split; [| congruence]].
    intros _. eapply table_insert_eq. reflexivity. }
  destruct (session w) as [uid|] eqn:Es; unfold_calls.
  2:{ eexists. split; [rewrite <- !app_assoc; reflexivity |].
      split; [repeat constructor | split; [| congruence]].
      intros _. eapply table_insert_eq. reflexivity. }
  destruct (outcome w (S (S (calls w)))) as [err|] eqn:E2; unfold_calls.
  { eexists. split; [rewrite <- !app_assoc; reflexivity |].
    split; [repeat constructor | split; [| congruence]].
    intros _. eapply table_insert_eq. reflexivity. }
  destruct (stripe_loaded w) eqn:Est; unfold_calls.
  2:{ eexists. split; [rewrite <- !app_assoc; reflexivity |].
      split; [repeat constructor | split; [| congruence]].
      intros _. eapply table_insert_eq. reflexivity. }
  destruct (outcome w (S (S (S (calls w))))) as [err|] eqn:E3; unfold_calls.
  { eexists. split; [rewrite <- !app_assoc; reflexivity |].
    split; [repeat constructor | split; [| congruence]].
    intros _. eapply table_insert_eq. reflexivity. }
  eexists. split; [rewrite <- !app_assoc; reflexivity |].
  split; [repeat constructor | split; [| congruence]].
  intros _. eapply table_insert_eq. reflexivity.
Qed.

End FeaturedAdsFacts.

Module FeaturedAdsClaims.
Import JSDate Supabase FeaturedAds Run AdvanceFacts FeaturedAdsFacts.

Lemma advance_valid tza d w :
  clockInRange w -> exists e, advance tza d (Some (clock w)) = Some e.
Proof.
  intros [Hlo Hhi].
  destruct (decide (d ∈ ["1w"; "2w"; "1m"; "6m"])) as [Hd | Hd].
  - destruct (advance_offset tza d (clock w) Hd Hlo Hhi) as (e & He & _). eauto.
  - rewrite advance_other by exact Hd. eauto.
Qed.

Lemma handlePaymentConfirm_no_tier tza s w :
  List.find (fun tier => bool_decide (duration tier = selectedDuration s))
            (pricingTiers s) = None ->
  let s' := (dispatch (handlePaymentConfirm tza) (s, w)).2 in
  trace s'.2 = (trace w ++
     [ConsoleError "Error creating featured ad:" "Invalid duration selected"])%list
  /\ tables s'.2 = tables w
  /\ error s'.1 = "Invalid duration selected".
Proof.
  intros Hf. cbv zeta. unfold handlePaymentConfirm. unfold_calls. rewrite Hf.
  unfold_calls. auto.
Qed.


(** C8: with a matching tier, the one row written to [featured_ads] has
    status pending_payment, payment status pending, the tier's price as
    amount and the clock reading as start date; without a matching tier
    nothing is written and the page shows 'Invalid duration selected'. *)
Theorem featured_ad_row_at_creation tza s w :
  clockInRange w ->
  let s' := (dispatch (handlePaymentConfirm tza) (s, w)).2 in
  match List.find (fun tier => bool_decide (duration tier = selectedDuration s))
                  (pricingTiers s) with
  | Some tier =>
      exists r rest,
        trace s'.2 = (trace w ++ Insert "featured_ads" r :: rest)%list
        /\ Forall (fun ev => writes ev = false) rest
        /\ r !! "status" = Some (VStr "pending_payment")
        /\ r !! "payment_status" = Some (VStr "pending")
        /\ r !! "amount" = Some (VNum (price tier))
        /\ r !! "start_date" = Some (VStr (isoString (clock w)))
        /\ r !! "franchise_id" = Some (VStr (selectedFranchise s))
        /\ (outcome w (calls w) = None ->
            table s'.2 "featured_ads"
            = (table w "featured_ads" ++ [<["id" := VStr (fresh w (calls w))]> r])%list)
  | None =>
      trace s'.2 = (trace w ++
         [ConsoleError "Error creating featured ad:" "Invalid duration selected"])%list
      /\ tables s'.2 = tables w
      /\ error s'.1 = "Invalid duration selected"
  end.
Proof.
  intros Hc.
  destruct (List.find _ (pricingTiers s)) as [tier|] eqn:Hf.
  - destruct (advance_valid tza (selectedDuration s) w Hc) as (e & He).
    destruct (handlePaymentConfirm_insert tza s w tier e Hf He)
      as (rest & Ht & Hw & Hi & _).
    eexists _, rest. split; [exact Ht |]. split; [exact Hw |].
    repeat split; try reflexivity. exact Hi.
  - apply handlePaymentConfirm_no_tier. exact Hf.
Qed.

(** C10: a duration outside the offset table that still has a pricing
    tier falls through the switch: the row is written with its end date
    equal to its start date, and status pending_payment. *)
Theorem unknown_duration_zero_length tza s w tier :
  selectedDuration s ∉ ["1w"; "2w"; "1m"; "6m"] ->
  List.find (fun tier => bool_decide (duration tier = selectedDuration s))
            (pricingTiers s) = Some tier ->
  let s' := (dispatch (handlePaymentConfirm tza) (s, w)).2 in
  exists r rest,
    trace s'.2 = (trace w ++ Insert "featured_ads" r :: rest)%list
    /\ r !! "start_date" = Some (VStr (isoString (clock w)))
    /\ r !! "end_date" = r !! "start_date"
    /\ r !! "status" = Some (VStr "pending_payment")
    /\ (outcome w (calls w) = None ->
        table s'.2 "featured_ads"
        = (table w "featured_ads" ++ [<["id" := VStr (fresh w (calls w))]> r])%list).
Proof.
  intros Hd Hf.
  pose proof (advance_other tza _ (Some (clock w)) Hd) as He.
  destruct (handlePaymentConfirm_insert tza s w tier (clock w) Hf He)
    as (rest & Ht & _ & Hi & _).
  eexists _, rest. split; [exact Ht |].
  repeat split; try reflexivity. exact Hi.
Qed.

End FeaturedAdsClaims.

(* ===================================================================== *)
(** * Franchisor login *)
(* ===================================================================== *)

Module FranchisorLoginClaims.
Import Supabase FranchisorLogin Run.

Lemma db_select_tables t filters w1 w2 :
  tables w1 = tables w2 -> db_select t filters w1 = db_select t filters w2.
Proof. intros E. unfold db_select, table. rewrite E. reflexivity. Qed.

Lemma project_lookup cols (r : row) c :
  c ∈ cols -> project cols r !! c = r !! c.
Proof.
  intros Hc. unfold project. destruct (r !! c) as [v|] eqn:E.
  - apply map_lookup_filter_Some. auto.
  - apply map_lookup_filter_None. left. exact E.
Qed.

Ltac finish :=
  match goal with
  | |- events_since ?w ?w' = ?evs /\ _ =>
      assert (events_since w w' = evs) as Hev
        by (apply events_since_app; cbn [trace]; rewrite <- ?app_assoc; reflexivity);
      split; [exact Hev |];
      split; [intros path; rewrite Hev; intros Hin;
              repeat (apply elem_of_cons in Hin as [Hin | Hin]; [discriminate |]);
              apply elem_of_nil in Hin; exact Hin |];
      repeat split; try reflexivity; try discriminate; auto
  end.

(** C2: when sign-in succeeds and the profile read returns a franchisor
    profile whose status is pending or rejected, the handler signs out,
    then fails with the message of that status; the two messages differ
    and no navigation happens. *)
Theorem unapproved_franchisor_is_signed_out s w a p status :
  status = "pending" \/ status = "rejected" ->
  outcome w (calls w) = None ->
  find_user (email s) (password s) (users w) = Some a ->
  outcome w (S (calls w)) = None ->
  outcome w (S (S (calls w))) = None ->
  db_select "profiles" [("id", VStr (user_id a))] w = [p] ->
  p !! "user_type" = Some (VStr "franchisor") ->
  p !! "status" = Some (VStr status) ->
  let s' := (dispatch handleSubmit (s, w)).2 in
  let message := if bool_decide (status = "pending")
                 then pendingMessage else rejectedMessage in
  events_since w s'.2
  = [SignInWithPassword (email s) (password s); GetUser;
     Select "profiles" [("id", VStr (user_id a))]; SignOut;
     ConsoleError "Login error:" message]
  /\ (forall path, Navigate path ∉ events_since w s'.2)
  /\ error s'.1 = message
  /\ loading s'.1 = false
  /\ (outcome w (S (S (S (calls w)))) = None -> session s'.2 = None)
  /\ pendingMessage <> rejectedMessage.
Proof.
  intros Hst E0 Hu E1 E2 Hp Hty Hs. cbv zeta.
  assert (Ht : (project ["user_type"; "status"] p) !! "user_type"
               = Some (VStr "franchisor"))
    by (rewrite project_lookup by (repeat constructor); exact Hty).
  assert (Hs' : (project ["user_type"; "status"] p) !! "status"
                = Some (VStr status))
    by (rewrite project_lookup by (repeat constructor); exact Hs).
  unfold handleSubmit. unfold_calls. rewrite E0, Hu. unfold_calls.
  rewrite E1. unfold_calls. rewrite E2. unfold idOf.
  erewrite (db_select_tables _ _ _ w) by reflexivity. rewrite Hp.
  unfold_calls. cbn [mbind option_bind]. rewrite Ht, Hs'.
  rewrite (bool_decide_eq_true_2 _ eq_refl). cbn [negb].
  assert (Hmsg : pendingMessage <> rejectedMessage) by discriminate.
  destruct Hst as [-> | ->].
  - rewrite (bool_decide_eq_true_2 _ eq_refl). unfold_calls.
    destruct (outcome w (S (S (S (calls w))))) eqn:E3; unfold_calls;
      finish.
  - rewrite (bool_decide_eq_false_2 (Some (VStr "rejected") = Some (VStr "pending")))
      by discriminate.
    rewrite (bool_decide_eq_true_2 _ eq_refl). unfold_calls.
    destruct (outcome w (S (S (S (calls w))))) eqn:E3; unfold_calls;
      finish.
Qed.

End FranchisorLoginClaims.

(* ===================================================================== *)
(** * Lead management *)
(* ===================================================================== *)

Module UpdateFacts.
Import Supabase.

(** After [.update(fields).eq(col, v)], a row that carries [v] in [col]
    holds the written fields, provided the update does not move rows in
    or out of the selection. *)
Lemma updated_rows_hold (fields : row) col v rows (r : row) c x :
  fields !! c = Some x ->
  r ∈ List.map (fun r => if matches col v r then fields ∪ r else r) rows ->
  r !! col = Some v -> v <> VNull ->
  r !! c = Some x.
Proof.
  intros Hc Hin Hr Hv.
  apply list_elem_of_In, in_map_iff in Hin as (r0 & Hr0 & _).
  destruct (matches col v r0) eqn:Em; subst r.
  - apply lookup_union_Some_l. exact Hc.
  - exfalso. unfold matches in Em.
    destruct v; try (apply bool_decide_eq_false in Em; contradiction).
    congruence.
Qed.

(** Rows outside the selection are left as they were. *)
Lemma other_rows_kept (fields : row) col v rows (r : row) :
  r ∈ rows -> matches col v r = false ->
  r ∈ List.map (fun r => if matches col v r then fields ∪ r else r) rows.
Proof.
  intros Hin Em. apply list_elem_of_In, in_map_iff.
  exists r. rewrite Em. split; [reflexivity | apply list_elem_of_In; exact Hin].
Qed.

End UpdateFacts.

Module LeadsClaims.
Import Supabase Leads Run UpdateFacts.

Lemma view_other_status s w (lead : row) :
  lead !! "status" <> Some (VStr "new") ->
  dispatch (fun s => handleViewLead s lead) (s, w)
  = (Ok tt, (setIsModalOpen true (setSelectedLead (Some lead) s), w)).
Proof.
  intros Hs. unfold handleViewLead. unfold_calls.
  rewrite bool_decide_eq_false_2 by exact Hs. reflexivity.
Qed.

Lemma view_new_lead_accepted s w (lead : row) leadId :
  lead !! "id" = Some (VStr leadId) ->
  lead !! "status" = Some (VStr "new") -> outcome w (calls w) = None ->
  dispatch (fun s => handleViewLead s lead) (s, w)
  = (Ok tt,
     (setLeads
        (List.map (fun l => if bool_decide (l !! "id" = Some (VStr leadId))
                            then <["status" := VStr "contacted"]> l else l)
                  (leads s))
        (setIsModalOpen true (setSelectedLead (Some lead) s)),
      db_update "franchise_leads" contacted "id" (VStr leadId)
        (tick (log (Update "franchise_leads" contacted "id" (VStr leadId)) w)))).
Proof.
  intros Hid Hs E0. unfold handleViewLead, updateLeadStatus. unfold_calls.
  rewrite (bool_decide_eq_true_2 _ Hs), Hid. cbn [text]. unfold_calls.
  rewrite E0. reflexivity.
Qed.

(** C3: viewing a lead whose status is new asks the service to set it to
    contacted and, once accepted, sets it in the listed leads; viewing a
    lead with any other status writes nothing; so a view of the lead as
    listed after the change writes nothing either. *)
Theorem view_marks_new_lead_contacted_once s w (lead : row) leadId :
  lead !! "id" = Some (VStr leadId) ->
  let s1 := (dispatch (fun s => handleViewLead s lead) (s, w)).2 in
  (lead !! "status" <> Some (VStr "new") ->
     events_since w s1.2 = [] /\ tables s1.2 = tables w /\ leads s1.1 = leads s)
  /\ (lead !! "status" = Some (VStr "new") -> outcome w (calls w) = None ->
      events_since w s1.2 = [Update "franchise_leads" contacted "id" (VStr leadId)]
      /\ table s1.2 "franchise_leads"
         = List.map (fun r => if matches "id" (VStr leadId) r then contacted ∪ r else r)
                    (table w "franchise_leads")
      /\ leads s1.1
         = List.map (fun l => if bool_decide (l !! "id" = Some (VStr leadId))
                              then <["status" := VStr "contacted"]> l else l)
                    (leads s)
      /\ (forall r, r ∈ table s1.2 "franchise_leads" ->
                    r !! "id" = Some (VStr leadId) ->
                    r !! "status" = Some (VStr "contacted"))
      /\ (forall lead' w2, lead' ∈ leads s1.1 ->
            lead' !! "id" = Some (VStr leadId) ->
            let s2 := (dispatch (fun s => handleViewLead s lead') (s1.1, w2)).2 in
            events_since w2 s2.2 = [] /\ tables s2.2 = tables w2
            /\ leads s2.1 = leads s1.1)).
Proof.
  intros Hid. cbv zeta. split.
  - intros Hs. rewrite view_other_status by exact Hs. cbn [fst snd].
    split; [apply events_since_nil; reflexivity | split; reflexivity].
  - intros Hs E0. rewrite (view_new_lead_accepted s w lead leadId Hid Hs E0).
    cbn [fst snd].
    split; [apply events_since_app; reflexivity |].
    split; [rewrite table_db_update; reflexivity |]. split; [reflexivity |]. split.
    + intros r Hr Hrid. rewrite table_db_update in Hr.
      eapply updated_rows_hold; [| exact Hr | exact Hrid | discriminate];
        reflexivity.
    + intros lead' w2 Hin Hid'.
      assert (Hst : lead' !! "status" <> Some (VStr "new")).
      { apply list_elem_of_In, in_map_iff in Hin as (l0 & Hl0 & _).
        destruct (bool_decide (l0 !! "id" = Some (VStr leadId))) eqn:Eb; subst lead'.
        - rewrite lookup_insert_eq. discriminate.
        - apply bool_decide_eq_false in Eb. contradiction. }
      rewrite view_other_status by exact Hst. cbn [fst snd].
      split; [apply events_since_nil; reflexivity | split; reflexivity].
Qed.

(** When the service refuses the update, the listed leads keep their
    status and the error is shown. *)
Lemma view_new_lead_refused s w (lead : row) err :
  lead !! "status" = Some (VStr "new") -> outcome w (calls w) = Some err ->
  let s1 := (dispatch (fun s => handleViewLead s lead) (s, w)).2 in
  tables s1.2 = tables w /\ leads s1.1 = leads s /\ error s1.1 = err.
Proof.
  intros Hs E0. cbv zeta. unfold handleViewLead, updateLeadStatus. unfold_calls.
  rewrite (bool_decide_eq_true_2 _ Hs). unfold_calls. rewrite E0. unfold_calls.
  auto.
Qed.

End LeadsClaims.

(* ===================================================================== *)
(** * Category selection and admin approvals *)
(* ===================================================================== *)

Module CategoryClaims.
Import Supabase.

(** C6: on both franchise forms, changing the main category selects the
    new value and empties the selected sub-categories, whatever was
    selected before; every other field of the form and the world stay
    as they were, so a save right after it submits the new main category
    alone. *)
Theorem main_category_change_resets_subcategories
    categoryId (se : EditFranchise.State) (sa : AddFranchise.State) w :
  (let r := EditFranchise.handleMainCategoryChange categoryId (se, w) in
   r.1 = Ok tt
   /\ EditFranchise.selectedMainCategory r.2.1 = categoryId
   /\ EditFranchise.selectedSubCategories r.2.1 = []
   /\ r.2.1
      = {| EditFranchise.id := EditFranchise.id se;
           EditFranchise.loading := EditFranchise.loading se;
           EditFranchise.saving := EditFranchise.saving se;
           EditFranchise.error := EditFranchise.error se;
           EditFranchise.name := EditFranchise.name se;
           EditFranchise.location := EditFranchise.location se;
           EditFranchise.shortDescription := EditFranchise.shortDescription se;
           EditFranchise.longDescription := EditFranchise.longDescription se;
           EditFranchise.investmentAmount := EditFranchise.investmentAmount se;
           EditFranchise.mainImageFile := EditFranchise.mainImageFile se;
           EditFranchise.existingMainImageUrl := EditFranchise.existingMainImageUrl se;
           EditFranchise.categories := EditFranchise.categories se;
           EditFranchise.selectedMainCategory := categoryId;
           EditFranchise.selectedSubCategories := [];
           EditFranchise.galleryFiles := EditFranchise.galleryFiles se;
           EditFranchise.existingGalleryUrls := EditFranchise.existingGalleryUrls se;
           EditFranchise.faqs := EditFranchise.faqs se;
           EditFranchise.testimonials := EditFranchise.testimonials se;
           EditFranchise.successStories := EditFranchise.successStories se |}
   /\ r.2.2 = w
   /\ Form.categoryIdsOf (EditFranchise.selectedMainCategory r.2.1)
                         (EditFranchise.selectedSubCategories r.2.1)
      = if nonEmpty categoryId then [categoryId] else [])
  /\ (let r := AddFranchise.handleMainCategoryChange categoryId (sa, w) in
      r.1 = Ok tt
      /\ AddFranchise.selectedMainCategory r.2.1 = categoryId
      /\ AddFranchise.selectedSubCategories r.2.1 = []
      /\ r.2.1
         = {| AddFranchise.isSubmitting := AddFranchise.isSubmitting sa;
              AddFranchise.error := AddFranchise.error sa;
              AddFranchise.categories := AddFranchise.categories sa;
              AddFranchise.selectedMainCategory := categoryId;
              AddFranchise.selectedSubCategories := [];
              AddFranchise.name := AddFranchise.name sa;
              AddFranchise.location := AddFranchise.location sa;
              AddFranchise.shortDescription := AddFranchise.shortDescription sa;
              AddFranchise.longDescription := AddFranchise.longDescription sa;
              AddFranchise.investmentAmount := AddFranchise.investmentAmount sa;
              AddFranchise.mainImageFile := AddFranchise.mainImageFile sa;
              AddFranchise.galleryFiles := AddFranchise.galleryFiles sa;
              AddFranchise.faqs := AddFranchise.faqs sa;
              AddFranchise.testimonials := AddFranchise.testimonials sa;
              AddFranchise.successStories := AddFranchise.successStories sa |}
      /\ r.2.2 = w
      /\ Form.categoryIdsOf (AddFranchise.selectedMainCategory r.2.1)
                            (AddFranchise.selectedSubCategories r.2.1)
         = if nonEmpty categoryId then [categoryId] else []).
Proof.
  cbv zeta. split.
  - repeat (split; [reflexivity |]).
    change (List.filter nonEmpty [categoryId]
            = if nonEmpty categoryId then [categoryId] else []).
    cbn [List.filter]. destruct (nonEmpty categoryId); reflexivity.
  - repeat (split; [reflexivity |]).
    change (List.filter nonEmpty [categoryId]
            = if nonEmpty categoryId then [categoryId] else []).
    cbn [List.filter]. destruct (nonEmpty categoryId); reflexivity.
Qed.

End CategoryClaims.

Module ApprovalClaims.
Import Supabase Approval Run UpdateFacts.

Lemma franchise_approval_run (s : AdminFranchiseApprovals.State) w id approved :
  outcome w (calls w) = None ->
  let w' := (AdminFranchiseApprovals.handleApproval id approved (s, w)).2.2 in
  let fields := decision approved (clock w) in
  exists reads,
    events_since w w' = Update "franchises" fields "id" (VStr id) :: reads
    /\ Forall (fun ev => writes ev = false) reads
    /\ tables w' = tables (db_update "franchises" fields "id" (VStr id) w).
Proof.
  intros E0. cbv zeta.
  unfold AdminFranchiseApprovals.handleApproval,
    AdminFranchiseApprovals.fetchPendingFranchises, decision.
  destruct approved; unfold_calls; rewrite E0; unfold_calls;
    destruct (outcome w (S (calls w))); unfold_calls;
    (eexists; split;
     [apply events_since_app; cbn [trace]; rewrite <- ?app_assoc; reflexivity |
      split; [repeat constructor | reflexivity]]).
Qed.

Lemma account_approval_run (s : AdminAccountApprovals.State) w id approved :
  outcome w (calls w) = None ->
  let w' := (AdminAccountApprovals.handleApproval id approved (s, w)).2.2 in
  let fields := decision approved (clock w) in
  exists reads,
    events_since w w' = Update "profiles" fields "id" (VStr id) :: reads
    /\ Forall (fun ev => writes ev = false) reads
    /\ tables w' = tables (db_update "profiles" fields "id" (VStr id) w).
Proof.
  intros E0. cbv zeta.
  unfold AdminAccountApprovals.handleApproval,
    AdminAccountApprovals.fetchPendingAccounts, decision.
  destruct approved; unfold_calls; rewrite E0; unfold_calls;
    destruct (outcome w (S (calls w))); unfold_calls;
    try destruct (outcome w (S (S (calls w)))); unfold_calls;
    (eexists; split;
     [apply events_since_app; cbn [trace]; rewrite <- ?app_assoc; reflexivity |
      split; [repeat constructor | reflexivity]]).
Qed.

Lemma table_of_tables w1 w2 t : tables w1 = tables w2 -> table w1 t = table w2 t.
Proof. intros E. unfold table. rewrite E. reflexivity. Qed.

Lemma filter_writes_head ev reads :
  writes ev = true -> Forall (fun ev => writes ev = false) reads ->
  List.filter writes (ev :: reads) = [ev].
Proof.
  intros Hw Hr. cbn. rewrite Hw. f_equal.
  induction Hr as [| x l Hx _ IH]; [reflexivity |]. cbn. rewrite Hx. exact IH.
Qed.

(** What one accepted status update leaves in its table. *)
Lemma status_flip t id approved now w w' :
  tables w' = tables (db_update t (decision approved now) "id" (VStr id) w) ->
  table w' t
  = List.map (fun r => if matches "id" (VStr id) r
                       then decision approved now ∪ r else r) (table w t)
  /\ (forall t', t' <> t -> table w' t' = table w t')
  /\ (forall r, r ∈ table w' t -> r !! "id" = Some (VStr id) ->
        r !! "status" = Some (VStr (if approved then "approved" else "rejected"))
        /\ r !! "approved_at"
           = Some (if approved then VStr (JSDate.isoString now) else VNull))
  /\ (forall r, r ∈ table w t -> r !! "id" <> Some (VStr id) -> r ∈ table w' t).
Proof.
  intros E.
  assert (Ht : table w' t
    = List.map (fun r => if matches "id" (VStr id) r
                         then decision approved now ∪ r else r) (table w t)).
  { rewrite (table_of_tables _ _ _ E). apply table_db_update. }
  split; [exact Ht |]. split; [| split].
  - intros t' Hne. rewrite (table_of_tables _ _ _ E).
    apply table_set_other. congruence.
  - intros r Hr Hid. rewrite Ht in Hr.
    split; (eapply updated_rows_hold;
            [| exact Hr | exact Hid | discriminate]; reflexivity).
  - intros r Hr Hid. rewrite Ht. apply other_rows_kept; [exact Hr |].
    apply bool_decide_eq_false. exact Hid.
Qed.

(** C9: an approval on either admin page, once accepted, is one update
    of the rows with the chosen id: status becomes approved with
    approved_at set to the clock reading, or rejected with approved_at
    null; rows with another id and all other tables are untouched, and
    the handler issues no other write. *)
Theorem approval_is_single_status_flip
    (sf : AdminFranchiseApprovals.State) (sa : AdminAccountApprovals.State)
    w id approved :
  outcome w (calls w) = None ->
  let fields := decision approved (clock w) in
  let flipped t w' :=
    List.filter writes (events_since w w') = [Update t fields "id" (VStr id)]
    /\ table w' t
       = List.map (fun r => if matches "id" (VStr id) r then fields ∪ r else r)
                  (table w t)
    /\ (forall t', t' <> t -> table w' t' = table w t')
    /\ (forall r, r ∈ table w' t -> r !! "id" = Some (VStr id) ->
          r !! "status" = Some (VStr (if approved then "approved" else "rejected"))
          /\ r !! "approved_at"
             = Some (if approved then VStr (JSDate.isoString (clock w)) else VNull))
    /\ (forall r, r ∈ table w t -> r !! "id" <> Some (VStr id) -> r ∈ table w' t) in
  flipped "franchises" (AdminFranchiseApprovals.handleApproval id approved (sf, w)).2.2
  /\ flipped "profiles" (AdminAccountApprovals.handleApproval id approved (sa, w)).2.2.
Proof.
  intros E0. cbv zeta. split.
  - destruct (franchise_approval_run sf w id approved E0) as (reads & Hev & Hr & Ht).
    split; [rewrite Hev; apply filter_writes_head; [reflexivity | exact Hr] |].
    apply status_flip. exact Ht.
  - destruct (account_approval_run sa w id approved E0) as (reads & Hev & Hr & Ht).
    split; [rewrite Hev; apply filter_writes_head; [reflexivity | exact Hr] |].
    apply status_flip. exact Ht.
Qed.

End ApprovalClaims.

(* ===================================================================== *)
(** * What a computation can emit, whatever the service answers *)
(* ===================================================================== *)

Module Emits.
Import Supabase.

Section Rules.
Context {U : Type} (P : Event -> Prop).

Lemma emits_silent {A} (m : M U A) :
  (forall s, trace (m s).2.2 = trace s.2) -> emits P m.
Proof.
  intros H s. exists []. rewrite H, app_nil_r. split; [reflexivity | constructor].
Qed.

Lemma emits_ret {A} (a : A) : emits P (mret a : M U A).
Proof. apply emits_silent. reflexivity. Qed.

Lemma emits_throw {A} e : emits P (throw e : M U A).
Proof. apply emits_silent. reflexivity. Qed.

Lemma emits_setState f : emits P (setState f : M U unit).
Proof. apply emits_silent. intros [u w]. reflexivity. Qed.

Lemma emits_world : emits P (world : M U World).
Proof. apply emits_silent. intros [u w]. reflexivity. Qed.

Lemma emits_newDate : emits P (newDate : M U JSDate.Date).
Proof. apply emits_silent. intros [u w]. reflexivity. Qed.

Lemma emits_mathRandom : emits P (mathRandom : M U string).
Proof. apply emits_silent. intros [u w]. reflexivity. Qed.

Lemma emits_toISOString d : emits P (Supabase.toISOString d : M U string).
Proof.
  unfold Supabase.toISOString. destruct (JSDate.toISOString d);
    [apply emits_ret | apply emits_throw].
Qed.

Lemma emits_throwIf e : emits P (throwIf e : M U unit).
Proof. destruct e; [apply emits_throw | apply emits_ret]. Qed.

Lemma emits_one {A} (m : M U A) ev :
  P ev -> (forall s, trace (m s).2.2 = (trace s.2 ++ [ev])%list) -> emits P m.
Proof. intros Hp H s. exists [ev]. split; [apply H | repeat constructor; exact Hp]. Qed.

Lemma emits_effect ev : P ev -> emits P (effect ev : M U unit).
Proof. intros Hp. apply (emits_one _ ev Hp). intros [u w]. reflexivity. Qed.

Lemma emits_call ev apply :
  P ev -> (forall w, trace (apply w) = trace w) -> emits P (call ev apply : M U _).
Proof.
  intros Hp Ht. apply (emits_one _ ev Hp). intros [u w]. unfold call.
  destruct (outcome w (calls w)); cbn [fst snd]; [reflexivity |].
  rewrite Ht. reflexivity.
Qed.

Lemma emits_insert t r : P (Insert t r) -> emits P (insert t r : M U _).
Proof. intros Hp. apply emits_call; [exact Hp | reflexivity]. Qed.

Lemma emits_update t f c v : P (Update t f c v) -> emits P (update t f c v : M U _).
Proof. intros Hp. apply emits_call; [exact Hp | reflexivity]. Qed.

Lemma emits_delete_eq t c v : P (Delete t c v) -> emits P (delete_eq t c v : M U _).
Proof. intros Hp. apply emits_call; [exact Hp | reflexivity]. Qed.

Lemma emits_upsert t r c : P (Upsert t r c) -> emits P (upsert t r c : M U _).
Proof.
  intros Hp. apply emits_call; [exact Hp |]. intros w. unfold db_upsert.
  destruct (existsb _ _); reflexivity.
Qed.

Lemma emits_storage_upload b p f :
  P (Upload b p f) -> emits P (storage_upload b p f : M U _).
Proof. intros Hp. apply emits_call; [exact Hp | reflexivity]. Qed.

Lemma emits_insert_returning t r :
  P (Insert t r) -> emits P (insert_returning t r : M U _).
Proof.
  intros Hp. apply (emits_one _ _ Hp). intros [u w]. unfold insert_returning.
  destruct (outcome w (calls w)); reflexivity.
Qed.

Lemma emits_getUser : P GetUser -> emits P (getUser : M U _).
Proof.
  intros Hp. apply (emits_one _ _ Hp). intros [u w]. unfold getUser.
  destruct (outcome w (calls w)); reflexivity.
Qed.

Lemma emits_bind {A B} (m : M U A) (f : A -> M U B) :
  emits P m -> (forall a, emits P (f a)) -> emits P (m ≫= f).
Proof.
  intros Hm Hf s. destruct (Hm s) as (e1 & T1 & F1).
  unfold mbind, M_bind. destruct (m s) as [[a | err] s1]; cbn [fst snd] in *.
  - destruct (Hf a s1) as (e2 & T2 & F2). exists (e1 ++ e2)%list.
    rewrite T2, T1, app_assoc. split; [reflexivity | apply Forall_app; auto].
  - exists e1. auto.
Qed.

Lemma emits_bind_ret {A B} (a : A) (f : A -> M U B) :
  emits P (f a) -> emits P (mret a ≫= f).
Proof. intros H s. exact (H s). Qed.

Lemma emits_try_catch {A} (m : M U A) (h : string -> M U A) :
  emits P m -> (forall e, emits P (h e)) -> emits P (try_catch m h).
Proof.
  intros Hm Hh s. destruct (Hm s) as (e1 & T1 & F1).
  unfold try_catch. destruct (m s) as [[a | err] s1]; cbn [fst snd] in *.
  - exists e1. auto.
  - destruct (Hh err s1) as (e2 & T2 & F2). exists (e1 ++ e2)%list.
    rewrite T2, T1, app_assoc. split; [reflexivity | apply Forall_app; auto].
Qed.

Lemma emits_finally {A} (m : M U A) (c : M U unit) :
  emits P m -> emits P c -> emits P (finally m c).
Proof.
  intros Hm Hc s. destruct (Hm s) as (e1 & T1 & F1).
  unfold finally. destruct (m s) as [r s1]; cbn [fst snd] in *.
  destruct (Hc s1) as (e2 & T2 & F2). exists (e1 ++ e2)%list.
  destruct (c s1) as [[[] | err] s2]; cbn [fst snd] in *;
    rewrite T2, T1, app_assoc; (split; [reflexivity | apply Forall_app; auto]).
Qed.

Lemma emits_for_of {A} (xs : list A) (body : A -> M U unit) :
  (forall x, x ∈ xs -> emits P (body x)) -> emits P (for_of xs body).
Proof.
  induction xs as [| x xs IH]; intros Hb; cbn [for_of].
  - apply emits_ret.
  - apply emits_bind.
    + apply Hb. left.
    + intros _. apply IH. intros y Hy. apply Hb. right. exact Hy.
Qed.

End Rules.

(** What holds of every emitted call holds of the calls of a run. *)
Lemma emits_events {U A} P (m : M U A) s :
  emits P m -> Forall P (events_since s.2 (m s).2.2).
Proof.
  intros H. destruct (H s) as (evs & T & F).
  unfold events_since. rewrite T, drop_app_length. exact F.
Qed.

(** Walk through a handler body, leaving the conditions on its calls. *)
Ltac emits_step :=
  lazymatch goal with
  | |- emits _ (mbind _ (mret _)) => apply emits_bind_ret
  | |- emits _ (mbind _ _) => apply emits_bind; [| intros ?]
  | |- emits _ (try_catch _ _) => apply emits_try_catch; [| intros ?]
  | |- emits _ (finally _ _) => apply emits_finally
  | |- emits _ (for_of _ _) => apply emits_for_of; intros ? ?
  | |- emits _ (if ?b then _ else _) => destruct b eqn:?
  | |- emits _ (match ?x with _ => _ end) => destruct x eqn:?
  | |- emits _ (mret _) => apply emits_ret
  | |- emits _ (throw _) => apply emits_throw
  | |- emits _ (setState _) => apply emits_setState
  | |- emits _ world => apply emits_world
  | |- emits _ newDate => apply emits_newDate
  | |- emits _ mathRandom => apply emits_mathRandom
  | |- emits _ (Supabase.toISOString _) => apply emits_toISOString
  | |- emits _ (throwIf _) => apply emits_throwIf
  | |- emits _ (navigate _) => apply emits_effect
  | |- emits _ (consoleError _ _) => apply emits_effect
  | |- emits _ (insert _ _) => apply emits_insert
  | |- emits _ (update _ _ _ _) => apply emits_update
  | |- emits _ (delete_eq _ _ _) => apply emits_delete_eq
  | |- emits _ (upsert _ _ _) => apply emits_upsert
  | |- emits _ (storage_upload _ _ _) => apply emits_storage_upload
  | |- emits _ (insert_returning _ _) => apply emits_insert_returning
  | |- emits _ getUser => apply emits_getUser
  end.

End Emits.

(* ===================================================================== *)
(** * Runs against a service that accepts every call *)
(* ===================================================================== *)

Module Accepted.
Import Supabase Form.

Lemma accepting_outcome w w' : outcome w' = outcome w -> accepting w -> accepting w'.
Proof. intros E H n. rewrite E. apply H. Qed.

Lemma outcome_db_upsert t r c w : outcome (db_upsert t r c w) = outcome w.
Proof. unfold db_upsert. destruct (existsb _ _); reflexivity. Qed.

Lemma insert_all_cons t r rows w :
  insert_all t (r :: rows) w
  = insert_all t rows (accepted (Insert t r) (db_insert t r) w).
Proof. reflexivity. Qed.

Lemma fold_left_over_map {A B W} (mk : A -> B) (g : W -> B -> W) (xs : list A) (w : W) :
  fold_left g (List.map mk xs) w = fold_left (fun w x => g w (mk x)) xs w.
Proof.
  revert w. induction xs as [| x xs IH]; intros w; [reflexivity |]. cbn. apply IH.
Qed.

Lemma fold_left_filter_map {A B W} (keep : A -> bool) (mk : A -> B)
    (g : W -> B -> W) (xs : list A) (w : W) :
  fold_left (fun w x => if keep x then g w (mk x) else w) xs w
  = fold_left g (List.map mk (List.filter keep xs)) w.
Proof.
  revert w. induction xs as [| x xs IH]; intros w; [reflexivity |].
  cbn [fold_left List.filter]. rewrite IH. destruct (keep x); reflexivity.
Qed.

Section Rules.
Context {U : Type}.

Lemma steps_silent {A} (m : M U A) a w :
  (forall u, m (u, w) = (Ok a, (u, w))) -> steps m w a w.
Proof. intros E u H. split; [apply E | exact H]. Qed.

Lemma steps_ret {A} (a : A) w : steps (mret a : M U A) w a w.
Proof. apply steps_silent. reflexivity. Qed.

Lemma steps_world w : steps (world : M U World) w w w.
Proof. apply steps_silent. reflexivity. Qed.

Lemma steps_newDate w : steps (newDate : M U _) w (Some (clock w)) w.
Proof. apply steps_silent. reflexivity. Qed.

Lemma steps_toISOString t w :
  steps (Supabase.toISOString (Some t) : M U _) w (JSDate.isoString t) w.
Proof. apply steps_silent. reflexivity. Qed.

Lemma steps_throwIf w : steps (throwIf None : M U _) w tt w.
Proof. apply steps_silent. reflexivity. Qed.

Lemma steps_mathRandom w :
  steps (mathRandom : M U _) w (random w (draws w)) (drawn w).
Proof. intros u H. split; [reflexivity | exact H]. Qed.

Lemma steps_effect ev w : steps (effect ev : M U _) w tt (log ev w).
Proof. intros u H. split; [reflexivity | exact H]. Qed.

Lemma steps_call ev apply w :
  (forall w, outcome (apply w) = outcome w) ->
  steps (call ev apply : M U _) w None (accepted ev apply w).
Proof.
  intros Ho u H. unfold call. rewrite H. split; [reflexivity |].
  eapply accepting_outcome; [| exact H]. unfold accepted. rewrite Ho. reflexivity.
Qed.

Lemma steps_insert t r w :
  steps (insert t r : M U _) w None (accepted (Insert t r) (db_insert t r) w).
Proof. apply steps_call. reflexivity. Qed.

Lemma steps_update t f c v w :
  steps (update t f c v : M U _) w None
        (accepted (Update t f c v) (db_update t f c v) w).
Proof. apply steps_call. reflexivity. Qed.

Lemma steps_delete_eq t c v w :
  steps (delete_eq t c v : M U _) w None
        (accepted (Delete t c v) (db_delete t c v) w).
Proof. apply steps_call. reflexivity. Qed.

Lemma steps_upsert t r c w :
  steps (upsert t r c : M U _) w None
        (accepted (Upsert t r c) (db_upsert t r c) w).
Proof. apply steps_call. intros w0. apply outcome_db_upsert. Qed.

Lemma steps_storage_upload b p f w :
  steps (storage_upload b p f : M U _) w None
        (accepted (Upload b p f)
           (with_objects (fun os => (os ++ [(b, p, f)])%list)) w).
Proof. apply steps_call. reflexivity. Qed.

Lemma steps_getUser w :
  steps (getUser : M U _) w (session w) (tick (log GetUser w)).
Proof. intros u H. unfold getUser. rewrite H. split; [reflexivity | exact H]. Qed.

Lemma steps_insert_returning t r w :
  steps (insert_returning t r : M U _) w
        (Some (<["id" := VStr (fresh w (calls w))]> r), None)
        (db_insert t (<["id" := VStr (fresh w (calls w))]> r)
           (tick (log (Insert t r) w))).
Proof.
  intros u H. unfold insert_returning. rewrite H. split; [reflexivity | exact H].
Qed.

Lemma steps_bind {A B} (m : M U A) (f : A -> M U B) w a w1 b w2 :
  steps m w a w1 -> steps (f a) w1 b w2 -> steps (m ≫= f) w b w2.
Proof.
  intros Hm Hf u H. destruct (Hm u H) as [E1 H1]. destruct (Hf u H1) as [E2 H2].
  unfold mbind, M_bind. rewrite E1. auto.
Qed.

Lemma steps_for_of {A} (xs : list A) (body : A -> M U unit)
    (step : World -> A -> World) w :
  (forall x w, steps (body x) w tt (step w x)) ->
  steps (for_of xs body) w tt (fold_left step xs w).
Proof.
  intros Hb. revert w. induction xs as [| x xs IH]; intros w; cbn [for_of fold_left].
  - apply steps_ret.
  - eapply steps_bind; [apply Hb | apply IH].
Qed.

(** A loop of inserts, and one of guarded inserts. *)
Lemma steps_insert_each {A} (mk : A -> row) t (xs : list A) w :
  steps (for_of xs (fun x => e ← insert t (mk x); throwIf e) : M U _) w tt
        (insert_all t (List.map mk xs) w).
Proof.
  unfold insert_all. rewrite fold_left_over_map.
  apply (steps_for_of xs _ (fun w x => accepted (Insert t (mk x)) (db_insert t (mk x)) w)).
  intros x w0. eapply steps_bind; [apply steps_insert | apply steps_throwIf].
Qed.

Lemma steps_insert_if {A} (keep : A -> bool) (mk : A -> row) t (xs : list A) w :
  steps (for_of xs (fun x => if keep x then (e ← insert t (mk x); throwIf e)
                             else mret tt) : M U _) w tt
        (insert_all t (List.map mk (List.filter keep xs)) w).
Proof.
  unfold insert_all. rewrite <- fold_left_filter_map.
  apply (steps_for_of xs _
           (fun w x => if keep x then accepted (Insert t (mk x)) (db_insert t (mk x)) w
                       else w)).
  intros x w0. destruct (keep x); [| apply steps_ret].
  eapply steps_bind; [apply steps_insert | apply steps_throwIf].
Qed.

(** A handler of the shape
    [setState; setState; try { body } catch { .. } finally { setState }]. *)
Lemma framed_run (f1 f2 f3 : U -> U) (body : M U unit) h u w w' :
  steps body w tt w' -> accepting w ->
  (setState f1;; setState f2;; finally (try_catch body h) (setState f3)) (u, w)
  = (Ok tt, (f3 (f2 (f1 u)), w')).
Proof.
  intros Hb H. destruct (Hb (f2 (f1 u)) H) as [E _].
  unfold mbind, M_bind, setState, finally, try_catch. rewrite E. reflexivity.
Qed.

End Rules.

End Accepted.

(* ===================================================================== *)
(** * Saving an edited franchise *)
(* ===================================================================== *)

Module EditFranchiseFacts.
Import Supabase Form EditFranchise Run Accepted.

(** One call of a straight-line body. *)
Ltac step :=
  lazymatch goal with
  | |- steps (mbind _ _) _ _ _ => eapply steps_bind; [step | cbv beta]
  | |- steps (mret _) _ _ _ => apply steps_ret
  | |- steps world _ _ _ => apply steps_world
  | |- steps newDate _ _ _ => apply steps_newDate
  | |- steps (Supabase.toISOString _) _ _ _ => apply steps_toISOString
  | |- steps (throwIf _) _ _ _ => apply steps_throwIf
  | |- steps mathRandom _ _ _ => apply steps_mathRandom
  | |- steps (insert _ _) _ _ _ => apply steps_insert
  | |- steps (update _ _ _ _) _ _ _ => apply steps_update
  | |- steps (delete_eq _ _ _) _ _ _ => apply steps_delete_eq
  | |- steps (upsert _ _ _) _ _ _ => apply steps_upsert
  | |- steps (storage_upload _ _ _) _ _ _ => apply steps_storage_upload
  | |- steps getUser _ _ _ => apply steps_getUser
  | |- steps (insert_returning _ _) _ _ _ => apply steps_insert_returning
  | |- steps (navigate _) _ _ _ => apply steps_effect
  end.

Section Save.
Variable parseFloat : string -> value.

Lemma steps_main_image (s : State) w :
  steps (match mainImageFile s with
         | Some file =>
             r ← mathRandom;
             let fileName := r +:+ "." +:+ fileExt file in
             let filePath := "main-images/" +:+ fileName in
             uploadError ← storage_upload "franchise-images" filePath file;
             throwIf uploadError;;
             w ← world;
             mret (getPublicUrl w "franchise-images" filePath)
         | None => mret (existingMainImageUrl s)
         end : M State string) w (mainImageUrlOf s w) (afterMainImage s w).
Proof.
  unfold mainImageUrlOf, afterMainImage. destruct (mainImageFile s) as [file|].
  - repeat step.
  - step.
Qed.

Lemma steps_story (s : State) story w :
  steps ((if nonEmpty (title story) && nonEmpty (content story)
          then
            storyImageUrl ←
              match imageFile story with
              | Some file =>
                  r ← mathRandom;
                  let fileName := r +:+ "." +:+ fileExt file in
                  let filePath := "success-stories/" +:+ fileName in
                  uploadError ← storage_upload "franchise-images" filePath file;
                  throwIf uploadError;;
                  w ← world;
                  mret (getPublicUrl w "franchise-images" filePath)
              | None => mret (orElse (default "" (existingImageUrl story)) "")
              end;
            storyError ← insert "franchise_success_stories"
              (obj [("franchise_id", VStr (id s));
                    ("title", VStr (title story));
                    ("content", VStr (content story));
                    ("image_url", VStr storyImageUrl)]);
            throwIf storyError
          else mret tt) : M State unit) w tt
        (storySaved (VStr (id s)) (fun story => default "" (existingImageUrl story))
                    w story).
Proof.
  unfold storySaved, storyFilled.
  destruct (nonEmpty (title story) && nonEmpty (content story)); [| step].
  destruct (imageFile story) as [file|].
  - repeat step.
  - replace (orElse (default "" (existingImageUrl story)) "")
      with (default "" (existingImageUrl story))
      by (destruct (default "" (existingImageUrl story)); reflexivity).
    repeat step.
Qed.

(** An accepted save runs to the end and leaves the world [saved]. *)
Lemma handleSubmit_accepted (s : State) w :
  accepting w ->
  dispatch (handleSubmit parseFloat) (s, w)
  = (Ok tt, (setSaving false (setError "" (setSaving true s)), saved parseFloat s w)).
Proof.
  intros H. unfold dispatch. cbn [fst]. unfold handleSubmit.
  apply framed_run; [| exact H].
  eapply steps_bind; [apply steps_main_image | cbv beta].
  do 6 step.
  eapply steps_bind; [apply steps_delete_eq | cbv beta].
  eapply steps_bind;
    [apply (steps_insert_each (mappingRow (VStr (id s)))) | cbv beta].
  eapply steps_bind; [apply steps_delete_eq | cbv beta].
  eapply steps_bind;
    [apply (steps_insert_if faqFilled (faqRow (VStr (id s)))) | cbv beta].
  eapply steps_bind; [apply steps_delete_eq | cbv beta].
  eapply steps_bind;
    [apply (steps_insert_if testimonialFilled (testimonialRow (VStr (id s))))
    | cbv beta].
  eapply steps_bind; [apply steps_delete_eq | cbv beta].
  eapply steps_bind;
    [apply (steps_for_of _ _
              (storySaved (VStr (id s))
                 (fun story => default "" (existingImageUrl story))));
     intros story w0; apply steps_story
    | cbv beta].
  apply steps_effect.
Qed.

End Save.

(** ** The tables an accepted save leaves *)

Ltac other_table :=
  unfold accepted;
  repeat first
    [ progress change (table (tick (log ?ev ?w0)) ?t) with (table w0 t)
    | rewrite table_db_insert_other by congruence
    | rewrite table_db_update_other by congruence
    | rewrite table_db_delete_other by congruence ];
  reflexivity.

Lemma table_delete_other ev t' c v t w :
  t' <> t -> table (accepted ev (db_delete t' c v) w) t = table w t.
Proof. intros Hne. other_table. Qed.

Lemma table_insert_all t rows w :
  table (insert_all t rows w) t = (table w t ++ rows)%list.
Proof.
  revert w. induction rows as [| r rows IH]; intros w.
  - symmetry. apply app_nil_r.
  - rewrite insert_all_cons, IH. unfold accepted. rewrite table_db_insert.
    rewrite <- app_assoc. reflexivity.
Qed.

Lemma table_insert_all_other t' rows t w :
  t' <> t -> table (insert_all t' rows w) t = table w t.
Proof.
  intros Hne. revert w. induction rows as [| r rows IH]; intros w; [reflexivity |].
  rewrite insert_all_cons, IH. other_table.
Qed.

Lemma table_upsert_other t' r c t w :
  t' <> t -> table (db_upsert t' r c w) t = table w t.
Proof. intros Hne. unfold db_upsert. destruct (existsb _ _); other_table. Qed.

Lemma table_uploaded folder file t w : table (uploaded folder file w) t = table w t.
Proof. reflexivity. Qed.

Lemma table_storySaved fid fb story t w :
  t <> "franchise_success_stories" ->
  table (storySaved fid fb w story) t = table w t.
Proof.
  intros Hne. unfold storySaved. destruct (storyFilled story); [| reflexivity].
  destruct (imageFile story); other_table.
Qed.

Lemma table_stories_other fid fb stories t w :
  t <> "franchise_success_stories" ->
  table (fold_left (storySaved fid fb) stories w) t = table w t.
Proof.
  intros Hne. revert w. induction stories as [| st stories IH]; intros w;
    [reflexivity |].
  cbn [fold_left]. rewrite IH. apply table_storySaved. exact Hne.
Qed.

(** The stories loop appends one row per filled story, in order. *)
Lemma table_stories fid fb stories w :
  exists rows,
    table (fold_left (storySaved fid fb) stories w) "franchise_success_stories"
    = (table w "franchise_success_stories" ++ rows)%list
    /\ Forall2 (fun r story => exists image_url, r = storyRow fid story image_url)
               rows (List.filter storyFilled stories).
Proof.
  revert w. induction stories as [| st stories IH]; intros w.
  - exists []. split; [symmetry; apply app_nil_r | constructor].
  - cbn [fold_left List.filter].
    destruct (IH (storySaved fid fb w st)) as (rows & Ht & Hf).
    unfold storySaved in Ht |- *. destruct (storyFilled st).
    + destruct (imageFile st) as [file|];
        (eexists (_ :: rows); split;
         [ rewrite Ht; unfold accepted; rewrite table_db_insert, <- app_assoc;
           reflexivity
         | constructor; [eexists; reflexivity | exact Hf] ]).
    + exists rows. auto.
Qed.

Section SavedTables.
Variable parseFloat : string -> value.

Lemma table_replaced (s : State) t rows w :
  table (replaced s t rows w) t
  = (List.filter (fun r => negb (matches "franchise_id" (VStr (id s)) r)) (table w t)
     ++ rows)%list.
Proof.
  unfold replaced. rewrite table_insert_all. unfold accepted.
  rewrite table_db_delete. reflexivity.
Qed.

Lemma table_replaced_other (s : State) t' rows t w :
  t' <> t -> table (replaced s t' rows w) t = table w t.
Proof.
  intros Hne. unfold replaced. rewrite table_insert_all_other by exact Hne.
  other_table.
Qed.

Lemma table_afterMainImage (s : State) t w : table (afterMainImage s w) t = table w t.
Proof. unfold afterMainImage. destruct (mainImageFile s); reflexivity. Qed.

Lemma table_afterDetails (s : State) t w :
  t <> "franchises" -> t <> "franchise_details" ->
  table (afterDetails parseFloat s w) t = table w t.
Proof.
  intros H1 H2. unfold afterDetails. cbv zeta. unfold accepted at 1.
  rewrite table_upsert_other by congruence.
  rewrite <- (table_afterMainImage s t w). other_table.
Qed.

Lemma table_saved_mappings (s : State) w :
  table (saved parseFloat s w) "franchise_category_mappings"
  = (List.filter (fun r => negb (matches "franchise_id" (VStr (id s)) r))
       (table w "franchise_category_mappings")
     ++ List.map (mappingRow (VStr (id s)))
          (categoryIdsOf (selectedMainCategory s) (selectedSubCategories s)))%list.
Proof.
  unfold saved, afterStories.
  change (table (log ?ev ?w0) ?t) with (table w0 t).
  rewrite table_stories_other by discriminate.
  rewrite table_delete_other by discriminate.
  unfold afterTestimonials. rewrite table_replaced_other by discriminate.
  unfold afterFaqs. rewrite table_replaced_other by discriminate.
  unfold afterCategories. rewrite table_replaced.
  rewrite table_afterDetails by discriminate. reflexivity.
Qed.

Lemma table_saved_faqs (s : State) w :
  table (saved parseFloat s w) "franchise_faqs"
  = (List.filter (fun r => negb (matches "franchise_id" (VStr (id s)) r))
       (table w "franchise_faqs")
     ++ List.map (faqRow (VStr (id s))) (List.filter faqFilled (faqs s)))%list.
Proof.
  unfold saved, afterStories.
  change (table (log ?ev ?w0) ?t) with (table w0 t).
  rewrite table_stories_other by discriminate.
  rewrite table_delete_other by discriminate.
  unfold afterTestimonials. rewrite table_replaced_other by discriminate.
  unfold afterFaqs. rewrite table_replaced.
  unfold afterCategories. rewrite table_replaced_other by discriminate.
  rewrite table_afterDetails by discriminate. reflexivity.
Qed.

Lemma table_saved_testimonials (s : State) w :
  table (saved parseFloat s w) "franchise_testimonials"
  = (List.filter (fun r => negb (matches "franchise_id" (VStr (id s)) r))
       (table w "franchise_testimonials")
     ++ List.map (testimonialRow (VStr (id s)))
          (List.filter testimonialFilled (testimonials s)))%list.
Proof.
  unfold saved, afterStories.
  change (table (log ?ev ?w0) ?t) with (table w0 t).
  rewrite table_stories_other by discriminate.
  rewrite table_delete_other by discriminate.
  unfold afterTestimonials. rewrite table_replaced.
  unfold afterFaqs. rewrite table_replaced_other by discriminate.
  unfold afterCategories. rewrite table_replaced_other by discriminate.
  rewrite table_afterDetails by discriminate. reflexivity.
Qed.

Lemma table_saved_stories (s : State) w :
  exists rows,
    table (saved parseFloat s w) "franchise_success_stories"
    = (List.filter (fun r => negb (matches "franchise_id" (VStr (id s)) r))
         (table w "franchise_success_stories") ++ rows)%list
    /\ Forall2 (fun r story => exists image_url,
                  r = storyRow (VStr (id s)) story image_url)
               rows (List.filter storyFilled (successStories s)).
Proof.
  unfold saved, afterStories.
  change (table (log ?ev ?w0) ?t) with (table w0 t).
  match goal with
  | |- context [fold_left ?f ?l ?w0] =>
      destruct (table_stories (VStr (id s))
                  (fun story => default "" (existingImageUrl story)) l w0)
        as (rows & Ht & Hf)
  end.
  exists rows. split; [| exact Hf]. rewrite Ht. f_equal.
  unfold accepted. rewrite table_db_delete. f_equal.
  change (table (tick (log ?ev ?w0)) ?t) with (table w0 t).
  unfold afterTestimonials. rewrite table_replaced_other by discriminate.
  unfold afterFaqs. rewrite table_replaced_other by discriminate.
  unfold afterCategories. rewrite table_replaced_other by discriminate.
  rewrite table_afterDetails by discriminate. reflexivity.
Qed.

End SavedTables.

End EditFranchiseFacts.

(* ===================================================================== *)
(** * The calls of an accepted save *)
(* ===================================================================== *)

Module SaveTrace.
Import Supabase Form EditFranchise Run Accepted EditFranchiseFacts.






Lemma filter_none {A} (f : A -> bool) (l : list A) :
  Forall (fun x => f x = false) l -> List.filter f l = [].
Proof.
  induction 1 as [| x l Hx _ IH]; [reflexivity |]. cbn. rewrite Hx. exact IH.
Qed.

Lemma filter_all {A} (f : A -> bool) (l : list A) :
  Forall (fun x => f x = true) l -> List.filter f l = l.
Proof.
  induction 1 as [| x l Hx _ IH]; [reflexivity |]. cbn. rewrite Hx, IH. reflexivity.
Qed.



Section SavedTrace.
Variable parseFloat : string -> value.


End SavedTrace.

End SaveTrace.

(* ===================================================================== *)
(** * Claims about the edit page *)
(* ===================================================================== *)

Module EditFranchiseClaims.
Import Supabase Form EditFranchise Run Accepted Emits UpdateFacts
       EditFranchiseFacts SaveTrace.

Lemma nonEmpty_true s : nonEmpty s = true <-> s <> "".
Proof. destruct s; cbn; split; intros; congruence. Qed.

Lemma matches_own fid (r : row) :
  r !! "franchise_id" = Some (VStr fid) -> matches "franchise_id" (VStr fid) r = true.
Proof. intros E. apply bool_decide_eq_true. exact E. Qed.

(** After delete-all and reinsert, the rows of the franchise are the
    reinserted ones. *)
Lemma own_rows_replaced fid (old rows : list row) :
  Forall (fun r => r !! "franchise_id" = Some (VStr fid)) rows ->
  List.filter (matches "franchise_id" (VStr fid))
    (List.filter (fun r => negb (matches "franchise_id" (VStr fid) r)) old ++ rows)
  = rows.
Proof.
  intros Hr. rewrite List.filter_app.
  rewrite (filter_none _ (List.filter _ old)).
  - apply filter_all. eapply Forall_impl; [exact Hr |].
    intros r E. apply matches_own. exact E.
  - apply Forall_forall. intros r Hin.
    apply list_elem_of_In, List.filter_In in Hin as [_ Hn].
    apply negb_true_iff. exact Hn.
Qed.

Lemma prefix_append p s : String.prefix p (p +:+ s) = true.
Proof.
  induction p as [| a p IH].
  - destruct s; reflexivity.
  - change ((if ascii_dec a a then String.prefix p (p +:+ s) else false) = true).
    destruct (ascii_dec a a); [exact IH | congruence].
Qed.

Section Claims.
Variable parseFloat : string -> value.


(** Whatever the service answers, a save without a new main image
    uploads only story images and upserts the fetched image URL. *)
Lemma handleSubmit_keeps_main_image (s : State) :
  mainImageFile s = None ->
  emits (keepsMainImage s) (handleSubmit parseFloat s).
Proof.
  intros Hm. unfold handleSubmit. rewrite Hm.
  repeat emits_step; try exact I; try reflexivity.
  apply (prefix_append "success-stories/").
Qed.

(** Whatever the service answers, a save inserts child rows only for
    filled entries. *)
Lemma handleSubmit_only_filled (s : State) :
  emits (onlyFilled (faqs s) (testimonials s) (successStories s))
        (handleSubmit parseFloat s).
Proof.
  unfold handleSubmit.
  repeat emits_step; try exact I;
    (split; [| split]); intros Ht; try discriminate Ht.
  - eexists _, _. split; [eassumption |]. split; [eassumption | reflexivity].
  - eexists _, _. split; [eassumption |]. split; [eassumption | reflexivity].
  - eexists _, _, _. split; [eassumption |]. split; [eassumption | reflexivity].
Qed.

(** What an accepted upsert leaves: a row with the key exists, and every
    row with the key holds the written fields. *)
Lemma upserted_rows t (r0 : row) c v w :
  r0 !! c = Some v -> v <> VNull ->
  (exists r, r ∈ table (db_upsert t r0 c w) t /\ r !! c = Some v)
  /\ (forall r k x, r ∈ table (db_upsert t r0 c w) t -> r !! c = Some v ->
                   r0 !! k = Some x -> r !! k = Some x).
Proof.
  intros Hc Hv. unfold db_upsert. rewrite Hc.
  change (default VNull (Some v)) with v. cbv zeta.
  destruct (existsb (matches c v) (table w t)) eqn:Ex.
  - rewrite table_db_update. split.
    + apply existsb_exists in Ex as (r1 & Hin & Hm).
      exists (r0 ∪ r1). split.
      * apply list_elem_of_In, in_map_iff. exists r1. rewrite Hm. auto.
      * apply lookup_union_Some_l. exact Hc.
    + intros r k x Hin Hr Hk. eapply updated_rows_hold; eauto.
  - rewrite table_db_insert. split.
    + exists r0. split; [| exact Hc]. apply list_elem_of_In, in_or_app.
      right. left. reflexivity.
    + intros r k x Hin Hr Hk.
      apply list_elem_of_In, in_app_or in Hin as [Hin | [<- | []]]; [| exact Hk].
      exfalso. assert (existsb (matches c v) (table w t) = true) as Ex'.
      { apply existsb_exists. exists r. split; [exact Hin |].
        unfold matches. destruct v; try (apply bool_decide_eq_true; exact Hr).
        congruence. }
      congruence.
Qed.

Lemma table_saved_details (s : State) w :
  table (saved parseFloat s w) "franchise_details"
  = table (afterDetails parseFloat s w) "franchise_details".
Proof.
  unfold saved, afterStories.
  change (table (log ?ev ?w0) ?t) with (table w0 t).
  rewrite table_stories_other by discriminate.
  rewrite table_delete_other by discriminate.
  unfold afterTestimonials. rewrite table_replaced_other by discriminate.
  unfold afterFaqs. rewrite table_replaced_other by discriminate.
  unfold afterCategories. rewrite table_replaced_other by discriminate.
  reflexivity.
Qed.

(** C5, as the page behaves: a save without a new main image never
    uploads a main image (the only uploads are images of success
    stories) and writes the fetched image URL to the details. *)
Theorem unchanged_main_image_is_kept (s : State) w :
  mainImageFile s = None ->
  let w' := (dispatch (handleSubmit parseFloat) (s, w)).2.2 in
  Forall (keepsMainImage s) (events_since w w')
  /\ (accepting w ->
      (exists r, r ∈ table w' "franchise_details"
                 /\ r !! "franchise_id" = Some (VStr (id s)))
      /\ (forall r, r ∈ table w' "franchise_details" ->
                    r !! "franchise_id" = Some (VStr (id s)) ->
                    r !! "main_image_url" = Some (VStr (existingMainImageUrl s)))).
Proof.
  intros Hm. cbv zeta. split.
  - apply (emits_events _ (handleSubmit parseFloat s) (s, w)).
    apply handleSubmit_keeps_main_image. exact Hm.
  - intros H. rewrite (handleSubmit_accepted parseFloat s w H). cbn [fst snd].
    rewrite table_saved_details. unfold afterDetails, mainImageUrlOf.
    rewrite Hm. cbv zeta. unfold accepted at 1.
    match goal with
    | |- context [db_upsert ?t ?r0 ?c ?w0] =>
        destruct (upserted_rows t r0 c (VStr (id s)) w0 eq_refl ltac:(discriminate))
          as [Hex Hall]
    end.
    split; [exact Hex |].
    intros r Hin Hid. eapply Hall; [exact Hin | exact Hid | reflexivity].
Qed.

End Claims.

End EditFranchiseClaims.

(* ===================================================================== *)
(** * Submitting a new franchise *)
(* ===================================================================== *)

Module AddFranchiseFacts.
Import Supabase Form AddFranchise Run Accepted Emits EditFranchiseFacts.

Lemma steps_uploadImage file folder w :
  steps (uploadImage file folder) w
        (getPublicUrl w "franchise-images" (uploadPath folder file w))
        (uploaded folder file w).
Proof. unfold uploadImage. repeat step. Qed.

Section Submit.
Variable parseFloat : string -> value.

Lemma steps_new_main_image (s : State) w :
  steps (match mainImageFile s with
         | Some file => uploadImage file "main-images"
         | None => mret ""
         end : M State string) w (mainImageUrlOf s w) (afterMainImage s w).
Proof.
  unfold mainImageUrlOf, afterMainImage. destruct (mainImageFile s) as [file|].
  - apply steps_uploadImage.
  - step.
Qed.

Lemma steps_gallery fid file w :
  steps (imageUrl ← uploadImage file "gallery";
         galleryError ← insert "franchise_gallery"
           (obj [("franchise_id", fid); ("image_url", VStr imageUrl)]);
         throwIf galleryError : M State unit) w tt (gallerySaved fid w file).
Proof.
  unfold gallerySaved.
  eapply steps_bind; [apply steps_uploadImage | cbv beta]. repeat step.
Qed.

Lemma steps_new_story fid story w :
  steps ((if nonEmpty (title story) && nonEmpty (content story)
          then
            storyImageUrl ←
              match imageFile story with
              | Some file => uploadImage file "success-stories"
              | None => mret ""
              end;
            storyError ← insert "franchise_success_stories"
              (obj [("franchise_id", fid);
                    ("title", VStr (title story));
                    ("content", VStr (content story));
                    ("image_url", VStr storyImageUrl)]);
            throwIf storyError
          else mret tt) : M State unit) w tt
        (storySaved fid (fun _ => "") w story).
Proof.
  unfold storySaved, storyFilled.
  destruct (nonEmpty (title story) && nonEmpty (content story)); [| step].
  destruct (imageFile story) as [file|].
  - eapply steps_bind; [apply steps_uploadImage | cbv beta]. repeat step.
  - repeat step.
Qed.

(** An accepted submission by a signed-in user runs to the end and
    leaves the world [saved]. *)
Lemma submission_accepted (s : State) uid w :
  accepting w -> session w = Some uid ->
  dispatch (handleSubmit parseFloat) (s, w)
  = (Ok tt, (setIsSubmitting false (setError "" (setIsSubmitting true s)),
             saved parseFloat s uid w)).
Proof.
  intros H Hs. unfold dispatch. cbn [fst]. unfold handleSubmit.
  apply framed_run; [| exact H].
  eapply steps_bind; [apply steps_getUser | cbv beta]. rewrite Hs.
  eapply steps_bind; [apply steps_new_main_image | cbv beta].
  eapply steps_bind; [apply steps_insert_returning | cbv beta].
  cbn [fst snd].
  change (default VNull
            (Some (<["id" := VStr (fresh (afterMainImage s (tick (log GetUser w)))
                                     (calls (afterMainImage s (tick (log GetUser w)))))]>
                     (obj [("name", VStr (name s)); ("location", VStr (location s));
                           ("franchisor_id", VStr uid); ("status", VStr "pending")]))
             ≫= (.!! "id")))
    with (createdId s w).
  do 3 step.
  eapply steps_bind;
    [apply (steps_insert_each (mappingRow (createdId s w))) | cbv beta].
  eapply steps_bind;
    [apply (steps_for_of _ _ (gallerySaved (createdId s w)));
     intros file w0; apply steps_gallery
    | cbv beta].
  eapply steps_bind;
    [apply (steps_insert_if faqFilled (faqRow (createdId s w))) | cbv beta].
  eapply steps_bind;
    [apply (steps_insert_if testimonialFilled (testimonialRow (createdId s w)))
    | cbv beta].
  eapply steps_bind;
    [apply (steps_for_of _ _ (storySaved (createdId s w) (fun _ => "")));
     intros story w0; apply steps_new_story
    | cbv beta].
  apply steps_effect.
Qed.

End Submit.

End AddFranchiseFacts.

(* ===================================================================== *)
(** * Child entries of a saved franchise *)
(* ===================================================================== *)

Module ChildEntryClaims.
Import Supabase Form Run Accepted Emits EditFranchiseFacts.

Lemma table_gallery_other fid files t w :
  t <> "franchise_gallery" ->
  table (fold_left (AddFranchise.gallerySaved fid) files w) t = table w t.
Proof.
  intros Hne. revert w. induction files as [| file files IH]; intros w;
    [reflexivity |].
  cbn [fold_left]. rewrite IH. unfold AddFranchise.gallerySaved. other_table.
Qed.

Section Claims.
Variable parseFloat : string -> value.

Lemma table_created (s : AddFranchise.State) uid t w :
  t <> "franchises" -> t <> "franchise_details" ->
  table (AddFranchise.afterDetails parseFloat s uid w) t = table w t.
Proof.
  intros H1 H2. unfold AddFranchise.afterDetails, AddFranchise.afterCreate.
  cbv zeta.
  transitivity (table (AddFranchise.afterMainImage s (tick (log GetUser w))) t).
  - other_table.
  - unfold AddFranchise.afterMainImage.
    destruct (AddFranchise.mainImageFile s); reflexivity.
Qed.

Lemma table_added_faqs (s : AddFranchise.State) uid w :
  table (AddFranchise.saved parseFloat s uid w) "franchise_faqs"
  = (table w "franchise_faqs"
     ++ List.map (faqRow (AddFranchise.createdId s w))
          (List.filter faqFilled (AddFranchise.faqs s)))%list.
Proof.
  unfold AddFranchise.saved, AddFranchise.afterStories.
  change (table (log ?ev ?w0) ?t) with (table w0 t).
  rewrite table_stories_other by discriminate.
  unfold AddFranchise.afterTestimonials.
  rewrite table_insert_all_other by discriminate.
  unfold AddFranchise.afterFaqs. rewrite table_insert_all.
  unfold AddFranchise.afterGallery. rewrite table_gallery_other by discriminate.
  unfold AddFranchise.afterCategories.
  rewrite table_insert_all_other by discriminate.
  rewrite table_created by discriminate. reflexivity.
Qed.

Lemma table_added_testimonials (s : AddFranchise.State) uid w :
  table (AddFranchise.saved parseFloat s uid w) "franchise_testimonials"
  = (table w "franchise_testimonials"
     ++ List.map (testimonialRow (AddFranchise.createdId s w))
          (List.filter testimonialFilled (AddFranchise.testimonials s)))%list.
Proof.
  unfold AddFranchise.saved, AddFranchise.afterStories.
  change (table (log ?ev ?w0) ?t) with (table w0 t).
  rewrite table_stories_other by discriminate.
  unfold AddFranchise.afterTestimonials. rewrite table_insert_all.
  unfold AddFranchise.afterFaqs. rewrite table_insert_all_other by discriminate.
  unfold AddFranchise.afterGallery. rewrite table_gallery_other by discriminate.
  unfold AddFranchise.afterCategories.
  rewrite table_insert_all_other by discriminate.
  rewrite table_created by discriminate. reflexivity.
Qed.

Lemma table_added_stories (s : AddFranchise.State) uid w :
  exists rows,
    table (AddFranchise.saved parseFloat s uid w) "franchise_success_stories"
    = (table w "franchise_success_stories" ++ rows)%list
    /\ Forall2 (fun r story => exists image_url,
                  r = storyRow (AddFranchise.createdId s w) story image_url)
               rows (List.filter storyFilled (AddFranchise.successStories s)).
Proof.
  unfold AddFranchise.saved, AddFranchise.afterStories.
  change (table (log ?ev ?w0) ?t) with (table w0 t).
  match goal with
  | |- context [fold_left ?f ?l ?w0] =>
      destruct (table_stories (AddFranchise.createdId s w) (fun _ => "") l w0)
        as (rows & Ht & Hf)
  end.
  exists rows. split; [| exact Hf]. rewrite Ht. f_equal.
  unfold AddFranchise.afterTestimonials.
  rewrite table_insert_all_other by discriminate.
  unfold AddFranchise.afterFaqs. rewrite table_insert_all_other by discriminate.
  unfold AddFranchise.afterGallery. rewrite table_gallery_other by discriminate.
  unfold AddFranchise.afterCategories.
  rewrite table_insert_all_other by discriminate.
  rewrite table_created by discriminate. reflexivity.
Qed.

(** Whatever the service answers, a submission of the create form
    inserts child rows only for filled entries. *)
Lemma add_only_filled (s : AddFranchise.State) :
  emits (onlyFilled (AddFranchise.faqs s) (AddFranchise.testimonials s)
                    (AddFranchise.successStories s))
        (AddFranchise.handleSubmit parseFloat s).
Proof.
  unfold AddFranchise.handleSubmit, AddFranchise.uploadImage.
  repeat emits_step; try exact I;
    (split; [| split]); intros Ht; try discriminate Ht.
  - eexists _, _. split; [eassumption |]. split; [eassumption | reflexivity].
  - eexists _, _. split; [eassumption |]. split; [eassumption | reflexivity].
  - eexists _, _, _. split; [eassumption |]. split; [eassumption | reflexivity].
Qed.

(** C4: on both forms, whatever the service answers, a child row is
    inserted only for an entry whose two fields are both non-empty; and
    when the service accepts every call, the save ends without error and
    the FAQ, testimonial and success-story rows written are, in order,
    those of exactly the filled entries. *)
Theorem only_filled_children_persist
    (se : EditFranchise.State) (sa : AddFranchise.State) uid w :
  let edit := dispatch (EditFranchise.handleSubmit parseFloat) (se, w) in
  let add := dispatch (AddFranchise.handleSubmit parseFloat) (sa, w) in
  let fid := VStr (EditFranchise.id se) in
  let others t :=
    List.filter (fun r => negb (matches "franchise_id" fid r)) (table w t) in
  Forall (onlyFilled (EditFranchise.faqs se) (EditFranchise.testimonials se)
                     (EditFranchise.successStories se))
         (events_since w edit.2.2)
  /\ Forall (onlyFilled (AddFranchise.faqs sa) (AddFranchise.testimonials sa)
                        (AddFranchise.successStories sa))
            (events_since w add.2.2)
  /\ (accepting w ->
      edit.1 = Ok tt
      /\ EditFranchise.error edit.2.1 = ""
      /\ table edit.2.2 "franchise_faqs"
         = (others "franchise_faqs"
            ++ List.map (faqRow fid)
                 (List.filter faqFilled (EditFranchise.faqs se)))%list
      /\ table edit.2.2 "franchise_testimonials"
         = (others "franchise_testimonials"
            ++ List.map (testimonialRow fid)
                 (List.filter testimonialFilled (EditFranchise.testimonials se)))%list
      /\ exists rows,
           table edit.2.2 "franchise_success_stories"
           = (others "franchise_success_stories" ++ rows)%list
           /\ Forall2 (fun r story => exists image_url,
                         r = storyRow fid story image_url)
                rows (List.filter storyFilled (EditFranchise.successStories se)))
  /\ (accepting w -> session w = Some uid ->
      add.1 = Ok tt
      /\ AddFranchise.error add.2.1 = ""
      /\ exists new,
           table add.2.2 "franchise_faqs"
           = (table w "franchise_faqs"
              ++ List.map (faqRow new)
                   (List.filter faqFilled (AddFranchise.faqs sa)))%list
           /\ table add.2.2 "franchise_testimonials"
              = (table w "franchise_testimonials"
                 ++ List.map (testimonialRow new)
                      (List.filter testimonialFilled (AddFranchise.testimonials sa)))%list
           /\ exists rows,
                table add.2.2 "franchise_success_stories"
                = (table w "franchise_success_stories" ++ rows)%list
                /\ Forall2 (fun r story => exists image_url,
                              r = storyRow new story image_url)
                     rows (List.filter storyFilled (AddFranchise.successStories sa))).
Proof.
  cbv zeta. split; [| split; [| split]].
  - apply (emits_events _ (EditFranchise.handleSubmit parseFloat se) (se, w)).
    apply EditFranchiseClaims.handleSubmit_only_filled.
  - apply (emits_events _ (AddFranchise.handleSubmit parseFloat sa) (sa, w)).
    apply add_only_filled.
  - intros H. rewrite (EditFranchiseFacts.handleSubmit_accepted parseFloat se w H).
    cbn [fst snd]. split; [reflexivity |]. split; [reflexivity |].
    split; [apply table_saved_faqs |]. split; [apply table_saved_testimonials |].
    apply table_saved_stories.
  - intros H Hs.
    rewrite (AddFranchiseFacts.submission_accepted parseFloat sa uid w H Hs).
    cbn [fst snd]. split; [reflexivity |]. split; [reflexivity |].
    exists (AddFranchise.createdId sa w).
    split; [apply table_added_faqs |]. split; [apply table_added_testimonials |].
    apply table_added_stories.
Qed.

End Claims.

End ChildEntryClaims.

(* ===================================================================== *)
(** * Featured ads: how long an ad runs, what is charged, how a purchase
      ends *)
(* ===================================================================== *)

Module AdLength.
Import JSDate JSDateFacts JSDateMonths AdvanceFacts Supabase FeaturedAds.

(** Moving one month ahead lands 28 to 31 days later, six months ahead
    181 to 184 days later. *)
Lemma months_ahead_days t k :
  k = 1 \/ k = 6 ->
  let n := MakeDay (YearFromTime t) (MonthFromTime t + k) (DateFromTime t) - Day t in
  (k = 1 -> 28 <= n <= 31) /\ (k = 6 -> 181 <= n <= 184).
Proof.
  intros Hk. cbv zeta. rewrite (Day_decompose t).
  pose proof (MonthFromTime_range t) as Hm.
  unfold MakeDay, InLeapYear.
  set (y := YearFromTime t). set (m := MonthFromTime t) in *.
  set (d := DateFromTime t). clearbody y m d.
  destruct (month_carry m k Hm ltac:(lia)) as [(-> & -> & Hle) | (-> & -> & Hge)].
  - rewrite Z.add_0_r. destruct (isLeap y);
      destruct Hk as [-> | ->]; month_cases m; try lia; month_table'; lia.
  - rewrite DayFromYear_succ, DaysInYear_cases.
    destruct (isLeap y), (isLeap (y + 1));
      destruct Hk as [-> | ->]; month_cases m; try lia; month_table'; lia.
Qed.

(** [setMonth(getMonth() + k)] moves the time value by a whole number of
    days. *)
Lemma setMonth_whole_days tza t k :
  k = 1 \/ k = 6 ->
  - maxTime <= t -> t + 200 * msPerDay <= maxTime ->
  exists n,
    setMonth tza (Some t) ((fun m => m + k) <$> getMonth tza (Some t))
    = Some (t + n * msPerDay)
    /\ (k = 1 -> 28 <= n <= 31) /\ (k = 6 -> 181 <= n <= 184).
Proof.
  intros Hk Hlo Hhi. rewrite setMonth_plus. cbv zeta.
  set (lt := LocalTime tza t).
  pose proof (months_ahead_days lt k Hk) as B. cbv zeta in B.
  set (md := MakeDay (YearFromTime lt) (MonthFromTime lt + k) (DateFromTime lt)) in *.
  exists (md - Day lt).
  assert (Hlt : lt = MakeDate (Day lt) (TimeWithinDay lt)).
  { unfold MakeDate, Day, TimeWithinDay, msPerDay. Z.div_mod_to_equations. lia. }
  assert (He : UTC tza (MakeDate md (TimeWithinDay lt)) = t + (md - Day lt) * msPerDay).
  { unfold UTC. unfold MakeDate in *. unfold LocalTime in lt. subst lt. lia. }
  rewrite He. split; [| exact B].
  apply TimeClip_in_range. unfold msPerDay in *.
  destruct Hk as [-> | ->]; lia.
Qed.

(** The end of the ad, as [advance] computes it, in whole days after its
    start. *)
Lemma advance_whole_days tza d t :
  - maxTime <= t -> t + 200 * msPerDay <= maxTime ->
  exists n,
    advance tza d (Some t) = Some (t + n * msPerDay)
    /\ (d = "1w" -> n = 7) /\ (d = "2w" -> n = 14)
    /\ (d = "1m" -> 28 <= n <= 31) /\ (d = "6m" -> 181 <= n <= 184)
    /\ (d ∉ ["1w"; "2w"; "1m"; "6m"] -> n = 0).
Proof.
  intros Hlo Hhi. unfold advance.
  assert (msPerDay = 86400000) as E by reflexivity.
  repeat case_bool_decide; subst.
  - exists 7. rewrite setDate_plus. split; [apply TimeClip_in_range; lia |].
    repeat split; try discriminate; try lia.
    intros Hn. exfalso. apply Hn. repeat constructor.
  - exists 14. rewrite setDate_plus. split; [apply TimeClip_in_range; lia |].
    repeat split; try discriminate; try lia.
    intros Hn. exfalso. apply Hn. repeat constructor.
  - destruct (setMonth_whole_days tza t 1) as (n & He & H1 & _); auto.
    exists n. split; [exact He |].
    repeat split; try discriminate; try (apply H1; reflexivity).
    intros Hn. exfalso. apply Hn. repeat constructor.
  - destruct (setMonth_whole_days tza t 6) as (n & He & _ & H6); auto.
    exists n. split; [exact He |].
    repeat split; try discriminate; try (apply H6; reflexivity).
    intros Hn. exfalso. apply Hn. repeat constructor.
  - exists 0. split; [f_equal; lia |].
    repeat split; try congruence; try lia.
Qed.

End AdLength.

Module FeaturedAdsRuns.
Import JSDate Supabase FeaturedAds FeaturedAdsPage Run AdvanceFacts FeaturedAdsFacts
       AdLength.

Lemma orElse_nonEmpty a b : b <> "" -> orElse a b <> "".
Proof.
  intros Hb. unfold orElse. destruct a; cbn; [exact Hb | discriminate].
Qed.

Lemma last_events w w' evs ev :
  trace w' = (trace w ++ evs ++ [ev])%list -> last (events_since w w') = Some ev.
Proof.
  intros E. rewrite (events_since_app _ _ _ E). apply last_snoc.
Qed.


(** X2: the amount the payment modal shows is the amount written to the ad:
    the price of the first tier listed for the selected duration. *)
Theorem shown_amount_is_charged tza s w tier :
  List.find (fun tier => bool_decide (duration tier = selectedDuration s))
            (pricingTiers s) = Some tier ->
  clockInRange w ->
  exists r rest q,
    trace (dispatch (handlePaymentConfirm tza) (s, w)).2.2
    = (trace w ++ Insert "featured_ads" r :: rest)%list
    /\ Forall (fun ev => writes ev = false) rest
    /\ r !! "amount" = Some (VNum q)
    /\ Qeq q (shownAmount s).
Proof.
  intros Hf [Hlo Hhi].
  destruct (advance_whole_days tza (selectedDuration s) (clock w) Hlo Hhi)
    as (n & He & _).
  destruct (handlePaymentConfirm_insert tza s w tier _ Hf He) as (rest & Ht & Hw & _).
  eexists _, rest, (price tier). split; [exact Ht |]. split; [exact Hw |].
  split; [reflexivity |].
  unfold shownAmount. rewrite Hf.
  destruct (Qeq_bool (price tier) 0) eqn:E; [| reflexivity].
  apply Qeq_bool_eq. exact E.
Qed.

(** The end of a failed purchase: the error is shown, the choice is kept. *)
Ltac shows_error Hne issued :=
  split; [reflexivity |]; split; [reflexivity |]; right;
  split; [apply Hne |]; repeat (split; [reflexivity |]);
  eexists; eapply (last_events _ _ issued); cbn [trace];
  rewrite <- ?app_assoc; reflexivity.

(** X3: a confirmed purchase never throws and always clears [processing];
    it ends either with the redirect to the checkout accepted, the form
    reset and the modal closed, or with an error shown and the choice
    and the modal left as they were. *)
Theorem purchase_resets_form_or_shows_error tza s w :
  let r := dispatch (handlePaymentConfirm tza) (s, w) in
  r.1 = Ok tt
  /\ processing r.2.1 = false
  /\ ((error r.2.1 = ""
       /\ selectedFranchise r.2.1 = "" /\ selectedDuration r.2.1 = ""
       /\ isPaymentModalOpen r.2.1 = false
       /\ exists sessionId,
            last (events_since w r.2.2) = Some (RedirectToCheckout sessionId))
      \/ (error r.2.1 <> ""
          /\ selectedFranchise r.2.1 = selectedFranchise s
          /\ selectedDuration r.2.1 = selectedDuration s
          /\ isPaymentModalOpen r.2.1 = isPaymentModalOpen s
          /\ exists msg,
               last (events_since w r.2.2)
               = Some (ConsoleError "Error creating featured ad:" msg))).
Proof.
  cbv zeta. unfold handlePaymentConfirm. unfold_calls.
  assert (Hne : forall a, orElse a "Failed to process payment. Please try again." <> "")
    by (intros a; apply orElse_nonEmpty; discriminate).
  destruct (List.find _ (pricingTiers s)) as [tier|]; unfold_calls;
    [| shows_error Hne (@nil Event)].
  destruct (advance tza (selectedDuration s) (Some (clock w))) as [e|]; unfold_calls;
    [| shows_error Hne (@nil Event)].
  destruct (outcome w (calls w)) as [err|]; unfold_calls;
    [shows_error Hne uconstr:([_]) |].
  destruct (outcome w (S (calls w))) as [err|]; unfold_calls;
    [shows_error Hne uconstr:([_; _]) |].
  destruct (session w) as [uid|]; unfold_calls;
    [| shows_error Hne uconstr:([_; _])].
  destruct (outcome w (S (S (calls w)))) as [err|]; unfold_calls;
    [shows_error Hne uconstr:([_; _; _]) |].
  destruct (stripe_loaded w); unfold_calls;
    [| shows_error Hne uconstr:([_; _; _])].
  destruct (outcome w (S (S (S (calls w))))) as [err|]; unfold_calls;
    [shows_error Hne uconstr:([_; _; _; _]) |].
  split; [reflexivity |]. split; [reflexivity |]. left.
  repeat (split; [reflexivity |]).
  eexists. eapply (last_events _ _ [_; _; _]). cbn [trace].
  rewrite <- !app_assoc. reflexivity.
Qed.

End FeaturedAdsRuns.

(* ===================================================================== *)
(** * Featured ads: the franchises offered and the way to the payment *)
(* ===================================================================== *)

Module FeaturedAdsPageFacts.
Import JSDate Supabase FeaturedAds FeaturedAdsPage Run FeaturedAdsFacts AdLength.

Lemma matches_Some col v (r : row) : matches col v r = true -> r !! col = Some v.
Proof.
  unfold matches. destruct v; try discriminate; apply bool_decide_eq_true_1.
Qed.

Lemma matches_VStr col x (r : row) :
  matches col (VStr x) r = true <-> r !! col = Some (VStr x).
Proof. apply bool_decide_eq_true. Qed.

Lemma db_select_spec t filters w (r : row) :
  r ∈ db_select t filters w
  <-> r ∈ table w t /\ Forall (fun '(col, v) => matches col v r = true) filters.
Proof.
  unfold db_select, matches_all.
  rewrite list_elem_of_In, filter_In, <- list_elem_of_In, forallb_forall.
  rewrite Forall_forall. split; intros [H1 H2]; (split; [exact H1 |]).
  - intros [c v] Hin. apply (H2 (c, v)), list_elem_of_In, Hin.
  - intros [c v] Hin. apply (H2 (c, v)), list_elem_of_In, Hin.
Qed.

Lemma fetchFranchises_run s w :
  outcome w (calls w) = None -> outcome w (S (calls w)) = None ->
  let r := dispatch (fun _ => fetchFranchises) (s, w) in
  r.1 = Ok tt /\ tables r.2.2 = tables w
  /\ match session w with
     | Some uid =>
         (forall p, p ∈ franchises r.2.1 <->
            exists f, f ∈ table w "franchises" /\ offered f = p
                      /\ f !! "franchisor_id" = Some (VStr uid)
                      /\ f !! "status" = Some (VStr "approved"))
     | None => franchises r.2.1 = franchises s /\ events_since w r.2.2 = [GetUser]
     end.
Proof.
  intros E0 E1. cbv zeta. unfold fetchFranchises. unfold_calls. rewrite E0.
  destruct (session w) as [uid|] eqn:Es; unfold_calls.
  2:{ repeat (split; [reflexivity |]). apply events_since_app. reflexivity. }
  rewrite E1. unfold_calls. repeat (split; [reflexivity |]).
  intros p. unfold setFranchises. cbn [franchises].
  erewrite (FranchisorLoginClaims.db_select_tables _ _ _ w) by reflexivity.
  rewrite list_elem_of_In, in_map_iff. split.
  - intros (f & Hp & Hin). exists f.
    apply list_elem_of_In, db_select_spec in Hin as [Hin Hall].
    apply Forall_cons in Hall as [H1 Hall]. apply Forall_cons in Hall as [H2 _].
    split; [exact Hin |]. split; [exact Hp |].
    split; apply matches_VStr; assumption.
  - intros (f & Hin & Hp & H1 & H2). exists f. split; [exact Hp |].
    apply list_elem_of_In, db_select_spec. split; [exact Hin |].
    repeat constructor; apply matches_VStr; assumption.
Qed.

(** X4: the franchises offered for an ad are exactly the approved franchises
    of the signed-in user; nothing is offered, and nothing is asked, when
    nobody is signed in. *)
Theorem only_own_approved_franchises_offered s w :
  outcome w (calls w) = None -> outcome w (S (calls w)) = None ->
  let r := dispatch (fun _ => fetchFranchises) (s, w) in
  r.1 = Ok tt /\ tables r.2.2 = tables w
  /\ match session w with
     | Some uid =>
         (forall p, p ∈ franchises r.2.1 <->
            exists f, f ∈ table w "franchises" /\ offered f = p
                      /\ f !! "franchisor_id" = Some (VStr uid)
                      /\ f !! "status" = Some (VStr "approved"))
     | None => franchises r.2.1 = franchises s /\ events_since w r.2.2 = [GetUser]
     end.
Proof. exact (fetchFranchises_run s w). Qed.

(** X5: the way to a purchase: after "create ad", choosing a franchise and a
    listed tier and confirming the choice opens the payment modal (and
    closes the duration modal); the purchase confirmed there writes an
    ad for that franchise, priced as the first tier listed with the
    chosen duration. *)
Theorem chosen_tier_is_charged tza s w f tier :
  f <> "" -> duration tier <> "" -> tier ∈ pricingTiers s ->
  clockInRange w ->
  let s1 := (dispatch (fun _ => handleCreateAd) (s, w)).2 in
  let s2 := (setSelectedDuration (duration tier) (setSelectedFranchise f s1.1), s1.2) in
  let s3 := (dispatch handleDurationSelected s2).2 in
  let s4 := (dispatch (handlePaymentConfirm tza) s3).2 in
  isPaymentModalOpen s3.1 = true /\ showDurationModal s3.1 = false /\ s3.2 = w
  /\ exists first r rest,
       List.find (fun t => bool_decide (duration t = duration tier)) (pricingTiers s)
       = Some first
       /\ trace s4.2 = (trace w ++ Insert "featured_ads" r :: rest)%list
       /\ Forall (fun ev => writes ev = false) rest
       /\ r !! "franchise_id" = Some (VStr f)
       /\ r !! "amount" = Some (VNum (price first))
       /\ r !! "status" = Some (VStr "pending_payment").
Proof.
  intros Hf Hd Hin [Hlo Hhi]. cbv zeta.
  assert (Hs3 : (dispatch handleDurationSelected
                   (setSelectedDuration (duration tier)
                      (setSelectedFranchise f
                         (dispatch (fun _ => handleCreateAd) (s, w)).2.1),
                    (dispatch (fun _ => handleCreateAd) (s, w)).2.2)).2
                = (setIsPaymentModalOpen true
                     (setShowDurationModal false
                        (setSelectedDuration (duration tier)
                           (setSelectedFranchise f
                              (setShowDurationModal true
                                 (setSelectedDuration ""
                                    (setSelectedFranchise "" s)))))), w)).
  { unfold handleDurationSelected, handleCreateAd. unfold_calls.
    cbn [selectedFranchise selectedDuration setSelectedDuration setSelectedFranchise].
    destruct f; [contradiction |]. destruct (duration tier); [contradiction |].
    reflexivity. }
  rewrite Hs3. cbn [fst snd].
  split; [reflexivity |]. split; [reflexivity |]. split; [reflexivity |].
  destruct (List.find (fun t => bool_decide (duration t = duration tier))
                      (pricingTiers s)) as [first|] eqn:Efind.
  2:{ exfalso. apply list_elem_of_In in Hin.
      pose proof (find_none _ _ Efind _ Hin) as Hn. cbn beta in Hn.
      apply bool_decide_eq_false in Hn. apply Hn. reflexivity. }
  destruct (advance_whole_days tza (duration tier) (clock w) Hlo Hhi) as (n & He & _).
  match goal with
  | |- context [dispatch (handlePaymentConfirm tza) (?s3, w)] =>
      destruct (handlePaymentConfirm_insert tza s3 w first _ Efind He)
        as (rest & Ht & Hw & _)
  end.
  eexists first, _, rest. split; [reflexivity |]. split; [exact Ht |].
  split; [exact Hw |]. repeat split; reflexivity.
Qed.

End FeaturedAdsPageFacts.

(* ===================================================================== *)
(** * Franchisor login: the other ways a login attempt ends *)
(* ===================================================================== *)

Module FranchisorLoginRuns.
Import Supabase FranchisorLogin Run UpdateFacts FranchisorLoginClaims.

(** The events of a run, read off its trace. *)
Ltac events :=
  apply events_since_app; cbn [trace]; rewrite <- ?app_assoc; reflexivity.

Ltac not_listed Hin :=
  repeat (apply elem_of_cons in Hin as [Hin | Hin]; [discriminate |]);
  apply elem_of_nil in Hin; contradiction.

(** X6: with a wrong e-mail address or password nobody is signed in, no
    profile is read, and the page shows 'Invalid email or password'. *)
Theorem wrong_credentials_are_refused s w :
  outcome w (calls w) = None ->
  find_user (email s) (password s) (users w) = None ->
  let r := dispatch handleSubmit (s, w) in
  r.1 = Ok tt
  /\ events_since w r.2.2
     = [SignInWithPassword (email s) (password s);
        ConsoleError "Login error:" "Invalid login credentials"]
  /\ error r.2.1 = "Invalid email or password"
  /\ loading r.2.1 = false
  /\ session r.2.2 = session w /\ tables r.2.2 = tables w.
Proof.
  intros E0 Hu. cbv zeta. unfold handleSubmit. unfold_calls. rewrite E0, Hu.
  unfold_calls.
  change (includes "Invalid login credentials" "Invalid login credentials") with true.
  unfold_calls. split; [reflexivity |]. split; [events |]. repeat split.
Qed.

(** X7: an account that signs in but is not a franchisor is told
    'Unauthorized access' -- and stays signed in: that path issues no
    sign-out. *)
Theorem wrong_role_stays_signed_in s w a p :
  outcome w (calls w) = None ->
  find_user (email s) (password s) (users w) = Some a ->
  outcome w (S (calls w)) = None ->
  outcome w (S (S (calls w))) = None ->
  db_select "profiles" [("id", VStr (user_id a))] w = [p] ->
  p !! "user_type" <> Some (VStr "franchisor") ->
  let r := dispatch handleSubmit (s, w) in
  r.1 = Ok tt
  /\ events_since w r.2.2
     = [SignInWithPassword (email s) (password s); GetUser;
        Select "profiles" [("id", VStr (user_id a))];
        ConsoleError "Login error:" "Unauthorized access"]
  /\ error r.2.1 = "Unauthorized access"
  /\ loading r.2.1 = false
  /\ session r.2.2 = Some (user_id a).
Proof.
  intros E0 Hu E1 E2 Hp Hty. cbv zeta.
  assert (Ht : (project ["user_type"; "status"] p) !! "user_type"
               <> Some (VStr "franchisor"))
    by (rewrite project_lookup by (repeat constructor); exact Hty).
  unfold handleSubmit. unfold_calls. rewrite E0, Hu. unfold_calls.
  rewrite E1. unfold_calls. rewrite E2. unfold idOf.
  erewrite (db_select_tables _ _ _ w) by reflexivity. rewrite Hp.
  unfold_calls. cbn [mbind option_bind].
  rewrite (bool_decide_eq_false_2 _ Ht). cbn [negb]. unfold_calls.
  change (includes "Invalid login credentials" "Unauthorized access") with false.
  unfold_calls. split; [reflexivity |]. split; [events |]. repeat split.
Qed.

(** X8: a franchisor whose status is neither pending nor rejected is let in,
    whatever the status says; the time of the login is written to the
    profile, and a refusal of that write is only logged. *)
Theorem other_statuses_reach_the_dashboard s w a p :
  outcome w (calls w) = None ->
  find_user (email s) (password s) (users w) = Some a ->
  outcome w (S (calls w)) = None ->
  outcome w (S (S (calls w))) = None ->
  db_select "profiles" [("id", VStr (user_id a))] w = [p] ->
  p !! "user_type" = Some (VStr "franchisor") ->
  p !! "status" <> Some (VStr "pending") ->
  p !! "status" <> Some (VStr "rejected") ->
  let r := dispatch handleSubmit (s, w) in
  let stamp := obj [("last_login", VStr (JSDate.isoString (clock w)))] in
  r.1 = Ok tt
  /\ last (events_since w r.2.2) = Some (Navigate "/franchisor/dashboard")
  /\ error r.2.1 = "" /\ loading r.2.1 = false
  /\ session r.2.2 = Some (user_id a)
  /\ (outcome w (S (S (S (calls w)))) = None ->
      outcome w (S (S (S (S (calls w))))) = None ->
      events_since w r.2.2
      = [SignInWithPassword (email s) (password s); GetUser;
         Select "profiles" [("id", VStr (user_id a))]; GetUser;
         Update "profiles" stamp "id" (VStr (user_id a));
         Navigate "/franchisor/dashboard"]
      /\ table r.2.2 "profiles"
         = List.map (fun q => if matches "id" (VStr (user_id a)) q
                              then stamp ∪ q else q) (table w "profiles")).
Proof.
  intros E0 Hu E1 E2 Hp Hty Hs1 Hs2. cbv zeta.
  assert (Ht : (project ["user_type"; "status"] p) !! "user_type"
               = Some (VStr "franchisor"))
    by (rewrite project_lookup by (repeat constructor); exact Hty).
  assert (Hp1 : (project ["user_type"; "status"] p) !! "status"
                <> Some (VStr "pending"))
    by (rewrite project_lookup by (repeat constructor); exact Hs1).
  assert (Hp2 : (project ["user_type"; "status"] p) !! "status"
                <> Some (VStr "rejected"))
    by (rewrite project_lookup by (repeat constructor); exact Hs2).
  unfold handleSubmit. unfold_calls. rewrite E0, Hu. unfold_calls.
  rewrite E1. unfold_calls. rewrite E2. unfold idOf.
  erewrite (db_select_tables _ _ _ w) by reflexivity. rewrite Hp.
  unfold_calls. cbn [mbind option_bind].
  rewrite (bool_decide_eq_true_2 _ Ht). cbn [negb].
  rewrite (bool_decide_eq_false_2 _ Hp1), (bool_decide_eq_false_2 _ Hp2).
  unfold_calls.
  destruct (outcome w (S (S (S (calls w))))) as [e3|] eqn:E3; unfold_calls;
    destruct (outcome w (S (S (S (S (calls w)))))) as [e4|] eqn:E4; unfold_calls;
    (split; [reflexivity |]);
    (split; [erewrite events_since_app
               by (cbn [trace]; rewrite <- ?app_assoc; reflexivity);
             reflexivity |]);
    repeat (split; [reflexivity |]); try (intros; discriminate).
  intros _ _. split; [events |]. eapply table_insert_eq. reflexivity.
Qed.

(** A run whose events hold no navigation. *)
Ltac absurd_run :=
  let Hin := fresh "Hin" in
  intros Hin; exfalso;
  erewrite events_since_app in Hin
    by (cbn [trace]; rewrite <- ?app_assoc; reflexivity);
  not_listed Hin.

(** X9: under every behaviour of the service: when a login attempt goes on
    to the dashboard, the credentials matched an account, its one
    profile is a franchisor's, and the status is neither pending nor
    rejected. *)
Theorem dashboard_only_for_cleared_franchisors s w path :
  let r := dispatch handleSubmit (s, w) in
  Navigate path ∈ events_since w r.2.2 ->
  path = "/franchisor/dashboard"
  /\ exists a p,
       find_user (email s) (password s) (users w) = Some a
       /\ db_select "profiles" [("id", VStr (user_id a))] w = [p]
       /\ p !! "user_type" = Some (VStr "franchisor")
       /\ p !! "status" <> Some (VStr "pending")
       /\ p !! "status" <> Some (VStr "rejected")
       /\ error r.2.1 = ""
       /\ session r.2.2 = Some (user_id a).
Proof.
  cbv zeta. unfold handleSubmit. unfold_calls.
  destruct (outcome w (calls w)) as [e0|] eqn:E0; unfold_calls.
  { destruct (includes _ _); unfold_calls; absurd_run. }
  destruct (find_user (email s) (password s) (users w)) as [a|] eqn:Hu; unfold_calls.
  2:{ destruct (includes _ _); unfold_calls; absurd_run. }
  destruct (outcome w (S (calls w))) as [e1|] eqn:E1; unfold_calls.
  { (* the account could not be read back: the filter is null *)
    destruct (outcome w (S (S (calls w)))) as [e2|] eqn:E2; unfold_calls.
    { destruct (includes _ _); unfold_calls; absurd_run. }
    unfold idOf.
    match goal with
    | |- context [db_select "profiles" [("id", VNull)] ?w0] =>
        assert (Hnone : db_select "profiles" [("id", VNull)] w0 = [])
          by (unfold db_select; induction (table w0 "profiles"); [reflexivity | assumption]);
        rewrite Hnone
    end.
    unfold_calls. destruct (includes _ _); unfold_calls; absurd_run. }
  destruct (outcome w (S (S (calls w)))) as [e2|] eqn:E2; unfold_calls.
  { destruct (includes _ _); unfold_calls; absurd_run. }
  unfold idOf. erewrite (db_select_tables _ _ _ w) by reflexivity.
  destruct (db_select "profiles" [("id", VStr (user_id a))] w) as [| p [| q rows]] eqn:Hp;
    unfold_calls.
  { destruct (includes _ _); unfold_calls; absurd_run. }
  2:{ destruct (includes _ _); unfold_calls; absurd_run. }
  cbn [mbind option_bind].
  pose proof (project_lookup ["user_type"; "status"] p "user_type"
                ltac:(repeat constructor)) as Lt.
  pose proof (project_lookup ["user_type"; "status"] p "status"
                ltac:(repeat constructor)) as Ls.
  case_bool_decide as Hty; cbn [negb]; unfold_calls.
  2:{ destruct (includes _ _); unfold_calls; absurd_run. }
  case_bool_decide as Hs1; unfold_calls.
  { destruct (outcome w (S (S (S (calls w))))); unfold_calls;
      destruct (includes _ _); unfold_calls; absurd_run. }
  case_bool_decide as Hs2; unfold_calls.
  { destruct (outcome w (S (S (S (calls w))))); unfold_calls;
      destruct (includes _ _); unfold_calls; absurd_run. }
  rewrite Lt in Hty. rewrite Ls in Hs1, Hs2.
  assert (Hpath : forall evs, Navigate path ∈ evs ->
            Forall (fun ev => forall x, ev = Navigate x -> x = "/franchisor/dashboard") evs ->
            path = "/franchisor/dashboard").
  { intros evs Hin Hall. rewrite Forall_forall in Hall. apply (Hall _ Hin). reflexivity. }
  destruct (outcome w (S (S (S (calls w))))) as [e3|] eqn:E3; unfold_calls;
    destruct (outcome w (S (S (S (S (calls w)))))) as [e4|] eqn:E4; unfold_calls;
    (intros Hin;
     erewrite events_since_app in Hin
       by (cbn [trace]; rewrite <- ?app_assoc; reflexivity);
     split;
     [ apply (Hpath _ Hin); repeat constructor; intros x Hx; congruence
     | exists a, p; repeat split; auto ]).
Qed.

End FranchisorLoginRuns.

(* ===================================================================== *)
(** * Lead management: the list, its filter and the badge *)
(* ===================================================================== *)

Module LeadsRuns.
Import Supabase Leads LeadsPage Run UpdateFacts FeaturedAdsPageFacts.

Lemma update_run s w leadId newStatus :
  let fields := obj [("status", VStr newStatus)] in
  dispatch (fun s => updateLeadStatus s leadId newStatus) (s, w)
  = match outcome w (calls w) with
    | None =>
        (Ok tt,
         (setLeads
            (List.map (fun l => if bool_decide (l !! "id" = Some (VStr leadId))
                                then <["status" := VStr newStatus]> l else l)
                      (leads s)) s,
          db_update "franchise_leads" fields "id" (VStr leadId)
            (tick (log (Update "franchise_leads" fields "id" (VStr leadId)) w))))
    | Some e =>
        (Ok tt,
         (setError e s,
          log (ConsoleError "Error updating lead status:" e)
            (tick (log (Update "franchise_leads" fields "id" (VStr leadId)) w))))
    end.
Proof.
  cbv zeta. unfold updateLeadStatus. unfold_calls.
  destruct (outcome w (calls w)); reflexivity.
Qed.

(** X10: changing a lead's status keeps the list in step with the table under
    every answer of the service: an accepted change sets the status of
    the rows and of the listed leads with that id, and of no other; a
    refused change alters neither the table nor the list and shows the
    error. *)
Theorem status_change_keeps_list_in_step s w leadId newStatus :
  inStep s w ->
  let r := dispatch (fun s => updateLeadStatus s leadId newStatus) (s, w) in
  r.1 = Ok tt
  /\ inStep r.2.1 r.2.2
  /\ match outcome w (calls w) with
     | None =>
         (forall x, x ∈ table r.2.2 "franchise_leads" ->
                    x !! "id" = Some (VStr leadId) ->
                    x !! "status" = Some (VStr newStatus))
         /\ (forall l, l ∈ leads r.2.1 -> l !! "id" = Some (VStr leadId) ->
                       l !! "status" = Some (VStr newStatus))
         /\ (forall l, l ∈ leads s -> l !! "id" <> Some (VStr leadId) ->
                       l ∈ leads r.2.1)
         /\ (forall x, x ∈ table w "franchise_leads" ->
                       x !! "id" <> Some (VStr leadId) ->
                       x ∈ table r.2.2 "franchise_leads")
         /\ error r.2.1 = error s
     | Some e =>
         leads r.2.1 = leads s /\ tables r.2.2 = tables w /\ error r.2.1 = e
     end.
Proof.
  intros Hin. cbv zeta. rewrite update_run.
  destruct (outcome w (calls w)) as [e|] eqn:E0; cbn [fst snd].
  { split; [reflexivity |]. split; [exact Hin |]. repeat split. }
  split; [reflexivity |].
  set (fields := obj [("status", VStr newStatus)]).
  assert (Ht : forall w0, table (db_update "franchise_leads" fields "id" (VStr leadId) w0)
                                "franchise_leads"
               = List.map (fun r => if matches "id" (VStr leadId) r
                                    then fields ∪ r else r)
                          (table w0 "franchise_leads"))
    by (intros; apply table_db_update).
  split; [| split; [| split; [| split; [| split; [| reflexivity]]]]].
  - intros lead Hl. cbn [leads setLeads] in Hl.
    apply list_elem_of_In, in_map_iff in Hl as (l0 & Hl0 & Hl).
    apply list_elem_of_In in Hl. destruct (Hin l0 Hl) as (r0 & Hr0 & Hid & Hst).
    rewrite Ht. change (table (tick (log ?ev ?w0)) ?t) with (table w0 t).
    case_bool_decide as Hc; subst lead.
    + exists (fields ∪ r0). split; [| split].
      * apply list_elem_of_In, in_map_iff. exists r0.
        split; [| apply list_elem_of_In; exact Hr0].
        assert (matches "id" (VStr leadId) r0 = true) as ->
          by (apply matches_VStr; congruence).
        reflexivity.
      * rewrite lookup_insert_ne by discriminate. rewrite <- Hid.
        apply lookup_union_r. reflexivity.
      * rewrite lookup_insert_eq. apply lookup_union_Some_l. reflexivity.
    + exists r0. split; [| split; assumption].
      apply other_rows_kept; [exact Hr0 |].
      apply bool_decide_eq_false. congruence.
  - intros x Hx Hid. rewrite Ht in Hx.
    eapply updated_rows_hold; [| exact Hx | exact Hid | discriminate]. reflexivity.
  - intros l Hl Hid. cbn [leads setLeads] in Hl.
    apply list_elem_of_In, in_map_iff in Hl as (l0 & Hl0 & _).
    case_bool_decide as Hc; subst l; [apply lookup_insert_eq | contradiction].
  - intros l Hl Hid. cbn [leads setLeads].
    apply list_elem_of_In, in_map_iff. exists l.
    rewrite bool_decide_eq_false_2 by exact Hid.
    split; [reflexivity | apply list_elem_of_In; exact Hl].
  - intros x Hx Hid. rewrite Ht. apply other_rows_kept; [exact Hx |].
    apply bool_decide_eq_false. exact Hid.
Qed.

(** The 'New' figure after the leads with one id have been marked. *)
Lemma newLeads_after_marking leadId (ls : list row) :
  let marked := List.map (fun l => if bool_decide (l !! "id" = Some (VStr leadId))
                                   then <["status" := VStr "contacted"]> l else l) ls in
  (length (List.filter (hasStatus "new") marked)
   + length (List.filter (fun l => hasStatus "new" l
                                   && bool_decide (l !! "id" = Some (VStr leadId))) ls)
   = length (List.filter (hasStatus "new") ls))%nat.
Proof.
  cbv zeta. induction ls as [| l ls IH]; [reflexivity |].
  cbn [List.map List.filter].
  destruct (bool_decide (l !! "id" = Some (VStr leadId))) eqn:Eid.
  - assert (hasStatus "new" (<["status" := VStr "contacted"]> l) = false) as ->
      by (unfold hasStatus; rewrite lookup_insert_eq; reflexivity).
    destruct (hasStatus "new" l); cbn [andb length]; lia.
  - rewrite andb_false_r. destruct (hasStatus "new" l); cbn [length]; lia.
Qed.

(** X11: viewing a listed new lead, once the service accepts the change:
    the lead leaves the list filtered by 'new', the 'New' figure drops
    (by one when no other listed lead carries the id), while the modal
    goes on showing the lead as it was handed over, with status new. *)
Theorem viewed_lead_leaves_the_new_list s w (lead : row) leadId :
  lead ∈ leads s ->
  lead !! "id" = Some (VStr leadId) ->
  lead !! "status" = Some (VStr "new") ->
  outcome w (calls w) = None ->
  let s1 := (dispatch (fun s => handleViewLead s lead) (s, w)).2.1 in
  (selectedStatus s = "new" ->
     lead ∈ filteredLeads s
     /\ forall l, l ∈ filteredLeads s1 -> l !! "id" <> Some (VStr leadId))
  /\ (selectedStatus s = "all" -> length (filteredLeads s1) = length (filteredLeads s))
  /\ (newLeads s1 < newLeads s)%nat
  /\ (List.filter (fun l => bool_decide (l !! "id" = Some (VStr leadId))) (leads s)
      = [lead] -> S (newLeads s1) = newLeads s)
  /\ isModalOpen s1 = true
  /\ selectedLead s1 = Some lead
  /\ (selectedLead s1 ≫= (.!! "status")) = Some (VStr "new").
Proof.
  intros Hin Hid Hst E0. cbv zeta.
  rewrite (LeadsClaims.view_new_lead_accepted s w lead leadId Hid Hst E0).
  cbn [fst snd].
  set (marked := List.map _ (leads s)).
  assert (Hnew : hasStatus "new" lead = true)
    by (apply bool_decide_eq_true; exact Hst).
  split; [| split; [| split; [| split; [| split; [| split]]]]].
  - intros Hsel. unfold filteredLeads.
    cbn [selectedStatus leads setLeads setIsModalOpen setSelectedLead].
    rewrite Hsel. rewrite !(bool_decide_eq_false_2 ("new" = "all")) by discriminate.
    split.
    + apply list_elem_of_In, filter_In. split; [apply list_elem_of_In, Hin | exact Hnew].
    + intros l Hl Hlid. apply list_elem_of_In, filter_In in Hl as [Hl Hs].
      subst marked. apply in_map_iff in Hl as (l0 & Hl0 & _).
      case_bool_decide as Hc; subst l.
      * unfold hasStatus in Hs. rewrite lookup_insert_eq in Hs. discriminate.
      * contradiction.
  - intros Hsel. unfold filteredLeads.
    cbn [selectedStatus leads setLeads setIsModalOpen setSelectedLead].
    rewrite Hsel, !(bool_decide_eq_true_2 ("all" = "all")) by reflexivity.
    subst marked. apply length_map.
  - unfold newLeads. cbn [leads setLeads setIsModalOpen setSelectedLead].
    pose proof (newLeads_after_marking leadId (leads s)) as Hc. cbv zeta in Hc.
    fold marked in Hc.
    assert (0 < length (List.filter (fun l => hasStatus "new" l
              && bool_decide (l !! "id" = Some (VStr leadId))) (leads s)))%nat.
    { assert (lead ∈ List.filter (fun l => hasStatus "new" l
                && bool_decide (l !! "id" = Some (VStr leadId))) (leads s)) as Hl.
      { apply list_elem_of_In, filter_In. split; [apply list_elem_of_In, Hin |].
        rewrite Hnew, (bool_decide_eq_true_2 _ Hid). reflexivity. }
      destruct (List.filter _ (leads s)); [apply elem_of_nil in Hl; contradiction |].
      cbn. lia. }
    lia.
  - intros Hone. unfold newLeads.
    cbn [leads setLeads setIsModalOpen setSelectedLead].
    pose proof (newLeads_after_marking leadId (leads s)) as Hc. cbv zeta in Hc.
    fold marked in Hc.
    assert (List.filter (fun l => hasStatus "new" l
              && bool_decide (l !! "id" = Some (VStr leadId))) (leads s) = [lead]) as Hf.
    { rewrite <- Hone. clear -Hone Hnew.
      assert (forall l, l ∈ leads s -> l !! "id" = Some (VStr leadId) -> l = lead) as Hu.
      { intros l Hl Hlid.
        assert (l ∈ [lead]) as Hm.
        { rewrite <- Hone. apply list_elem_of_In, filter_In.
          split; [apply list_elem_of_In, Hl | apply bool_decide_eq_true; exact Hlid]. }
        apply elem_of_cons in Hm as [-> | Hm]; [reflexivity |].
        apply elem_of_nil in Hm. contradiction. }
      clear Hone. induction (leads s) as [| l ls IH]; [reflexivity |].
      cbn [List.filter].
      destruct (bool_decide (l !! "id" = Some (VStr leadId))) eqn:Eid.
      - apply bool_decide_eq_true in Eid.
        rewrite (Hu l ltac:(left) Eid) in *. rewrite Hnew. cbn [andb]. f_equal.
        apply IH. intros l' Hl'. apply Hu. right. exact Hl'.
      - rewrite andb_false_r. apply IH. intros l' Hl'. apply Hu. right. exact Hl'. }
    rewrite Hf in Hc. cbn [length] in Hc. lia.
  - reflexivity.
  - reflexivity.
  - cbn [selectedLead setLeads setIsModalOpen setSelectedLead mbind option_bind].
    exact Hst.
Qed.

End LeadsRuns.

(* ===================================================================== *)
(** * Loading the leads, and the badge that counts the new ones *)
(* ===================================================================== *)

Module LeadsLoading.
Import Supabase SupabaseQueries Leads LeadsPage Run UpdateFacts FeaturedAdsPageFacts
       FranchisorLoginClaims.

Lemma place_perm col asc (r : row) sorted : place col asc r sorted ≡ₚ r :: sorted.
Proof.
  induction sorted as [| x rest IH]; cbn [place]; [reflexivity |].
  destruct (before col asc x r); [| reflexivity].
  rewrite IH. apply perm_swap.
Qed.

Lemma order_by_perm col asc rows : order_by col asc rows ≡ₚ rows.
Proof.
  unfold order_by.
  assert (forall acc, fold_left (fun sorted r => place col asc r sorted) rows acc
                      ≡ₚ (rows ++ acc)%list) as H.
  { induction rows as [| r rows IH]; intros acc; cbn [fold_left]; [reflexivity |].
    rewrite IH, place_perm. cbn. symmetry. apply Permutation_middle. }
  rewrite H, app_nil_r. reflexivity.
Qed.


End LeadsLoading.

Module Badge.
Import Supabase SupabaseQueries Leads Run UpdateFacts FeaturedAdsPageFacts
       FranchisorLoginClaims FranchisorLayout.

(** What the badge query reads when the service answers. *)
Lemma counts_run c w uid :
  session w = Some uid ->
  outcome w (calls w) = None -> outcome w (S (calls w)) = None ->
  outcome w (S (S (calls w))) = None ->
  (dispatch (fun _ => fetchNotificationCounts) (c, w)).2.1
  = setNotificationCounts
      {| leads := length (db_select "franchise_leads"
                    [("franchisor_id", VStr uid); ("status", VStr "new")] w);
         messages := 0;
         support := length (db_select "messages"
                      [("receiver_id", VStr uid); ("read", VBool false)] w) |} c.
Proof.
  intros Es E0 E1 E2. unfold fetchNotificationCounts, select_count. unfold_calls.
  rewrite E0, Es. unfold_calls. rewrite E1. unfold_calls. rewrite E2. unfold_calls.
  cbn [default].
  erewrite (db_select_tables "franchise_leads" _ _ w) by reflexivity.
  erewrite (db_select_tables "messages" _ _ w) by reflexivity.
  reflexivity.
Qed.

(** Marking the one row that carries an id takes it out of a count of
    the new rows. *)
Lemma count_after_marking leadId uid (target : row) (rows : list row) :
  let counted r := matches_all [("franchisor_id", VStr uid); ("status", VStr "new")] r in
  let marked := List.map (fun r => if matches "id" (VStr leadId) r
                                   then contacted ∪ r else r) rows in
  List.filter (matches "id" (VStr leadId)) rows = [target] ->
  counted target = true ->
  S (length (List.filter counted marked)) = length (List.filter counted rows).
Proof.
  cbv zeta. intros Hone Hc.
  assert (Hnot : forall r : row,
            matches_all [("franchisor_id", VStr uid); ("status", VStr "new")]
                        (contacted ∪ r) = false).
  { intros r. unfold matches_all. cbn [forallb].
    assert (matches "status" (VStr "new") (contacted ∪ r) = false) as ->.
    { apply bool_decide_eq_false.
      rewrite (lookup_union_Some_l contacted r "status" (VStr "contacted"))
        by reflexivity.
      discriminate. }
    rewrite andb_false_r. reflexivity. }
  revert Hone. induction rows as [| x xs IH]; [discriminate |].
  cbn [List.filter List.map].
  destruct (matches "id" (VStr leadId) x) eqn:Em.
  - intros Hone. injection Hone as -> Hnil.
    rewrite Hnot, Hc. cbn [length]. f_equal.
    assert (List.map (fun r => if matches "id" (VStr leadId) r
                               then contacted ∪ r else r) xs = xs) as ->.
    { clear IH. induction xs as [| y ys IHy]; [reflexivity |].
      cbn [List.filter] in Hnil. cbn [List.map].
      destruct (matches "id" (VStr leadId) y); [discriminate |].
      f_equal. apply IHy. exact Hnil. }
    reflexivity.
  - intros Hone. specialize (IH Hone).
    destruct (matches_all _ x); cbn [length]; lia.
Qed.

(** X13: the badge follows the leads page: once a view has marked the one
    stored row of a new lead of the signed-in franchisor, the count of
    new leads read for the badge is one lower, and the count of unread
    messages is as before. *)
Theorem viewing_a_lead_lowers_the_badge s c w uid (lead target : row) leadId :
  accepting w ->
  session w = Some uid ->
  lead !! "id" = Some (VStr leadId) ->
  lead !! "status" = Some (VStr "new") ->
  db_select "franchise_leads" [("id", VStr leadId)] w = [target] ->
  target !! "franchisor_id" = Some (VStr uid) ->
  target !! "status" = Some (VStr "new") ->
  let before := (dispatch (fun _ => fetchNotificationCounts) (c, w)).2.1 in
  let w1 := (dispatch (fun s => handleViewLead s lead) (s, w)).2.2 in
  let after := (dispatch (fun _ => fetchNotificationCounts) (c, w1)).2.1 in
  S (leads (notificationCounts after)) = leads (notificationCounts before)
  /\ support (notificationCounts after) = support (notificationCounts before).
Proof.
  intros Hacc Es Hid Hst Hone Hown Hnew. cbv zeta.
  rewrite (LeadsClaims.view_new_lead_accepted s w lead leadId Hid Hst (Hacc _)).
  cbn [fst snd].
  rewrite (counts_run c w uid Es (Hacc _) (Hacc _) (Hacc _)).
  match goal with
  | |- context [dispatch _ (c, ?w1)] =>
      rewrite (counts_run c w1 uid Es (Hacc _) (Hacc _) (Hacc _))
  end.
  cbn [notificationCounts setNotificationCounts leads support].
  unfold db_select in *. rewrite table_db_update.
  rewrite table_db_update_other by discriminate.
  change (table (tick (log ?ev ?w0)) ?t) with (table w0 t).
  split; [| reflexivity].
  apply (count_after_marking leadId uid target).
  - rewrite <- Hone. apply filter_ext. intros r. cbn. symmetry. apply andb_true_r.
  - unfold matches_all. cbn [forallb].
    rewrite (proj2 (matches_VStr _ _ _) Hown), (proj2 (matches_VStr _ _ _) Hnew).
    reflexivity.
Qed.

End Badge.

(* ===================================================================== *)
(** * Admin approvals: the refreshed lists and refused decisions *)
(* ===================================================================== *)

Module ApprovalRuns.
Import Supabase Approval Run UpdateFacts FeaturedAdsPageFacts FranchisorLoginClaims
       LeadsLoading.

(** A decided row is no longer pending. *)
Lemma decided_not_pending approved now (r : row) :
  matches "status" (VStr "pending") (decision approved now ∪ r) = false.
Proof.
  apply bool_decide_eq_false.
  rewrite (lookup_union_Some_l (decision approved now) r "status"
             (VStr (if approved then "approved" else "rejected")))
    by reflexivity.
  destruct approved; discriminate.
Qed.

(** The rows still pending after the rows with one id were decided. *)
Lemma pending_after_decision id approved now (rows : list row) (x : row) :
  x ∈ List.filter (matches "status" (VStr "pending"))
        (List.map (fun r => if matches "id" (VStr id) r
                            then decision approved now ∪ r else r) rows)
  <-> x ∈ rows /\ x !! "status" = Some (VStr "pending") /\ x !! "id" <> Some (VStr id).
Proof.
  rewrite list_elem_of_In, filter_In, in_map_iff. split.
  - intros [(r & Hr & Hin) Hp]. destruct (matches "id" (VStr id) r) eqn:Em; subst x.
    + rewrite decided_not_pending in Hp. discriminate.
    + split; [apply list_elem_of_In; exact Hin |].
      split; [apply matches_VStr; exact Hp |].
      apply bool_decide_eq_false in Em. exact Em.
  - intros (Hin & Hp & Hid). split; [| apply matches_VStr; exact Hp].
    exists x.
    assert (matches "id" (VStr id) x = false) as ->
      by (apply bool_decide_eq_false; exact Hid).
    split; [reflexivity | apply list_elem_of_In; exact Hin].
Qed.

Lemma select_pending w :
  db_select "franchises" [("status", VStr "pending")] w
  = List.filter (matches "status" (VStr "pending")) (table w "franchises").
Proof.
  unfold db_select, matches_all. apply filter_ext. intros r. cbn. apply andb_true_r.
Qed.

(** X14: after an accepted decision on a franchise the refreshed list holds
    exactly the franchises that were pending before and carry another
    id; the decided franchise is gone from it, whichever way the
    decision went. *)
Theorem decided_franchise_leaves_the_list
    (s : AdminFranchiseApprovals.State) w id approved :
  outcome w (calls w) = None -> outcome w (S (calls w)) = None ->
  let r := AdminFranchiseApprovals.handleApproval id approved (s, w) in
  r.1 = Ok tt
  /\ AdminFranchiseApprovals.processingId r.2.1 = None
  /\ forall x, x ∈ AdminFranchiseApprovals.pendingFranchises r.2.1
       <-> x ∈ table w "franchises" /\ x !! "status" = Some (VStr "pending")
           /\ x !! "id" <> Some (VStr id).
Proof.
  intros E0 E1. cbv zeta.
  unfold AdminFranchiseApprovals.handleApproval,
    AdminFranchiseApprovals.fetchPendingFranchises.
  destruct approved; unfold_calls; rewrite E0; unfold_calls; rewrite E1; unfold_calls;
    (split; [reflexivity |]); (split; [reflexivity |]); intros x;
    cbn [AdminFranchiseApprovals.pendingFranchises
         AdminFranchiseApprovals.setProcessingId AdminFranchiseApprovals.setLoading
         AdminFranchiseApprovals.setPendingFranchises];
    (erewrite (db_select_tables "franchises" _ _
                 (db_update "franchises" _ "id" (VStr id) w)) by reflexivity);
    rewrite select_pending, table_db_update, order_by_perm.
  - apply (pending_after_decision id true (clock w)).
  - apply (pending_after_decision id false 0).
Qed.

(** X15: a refused decision changes nothing: no row is written, the list is
    not read again and stays as it was, the row is no longer marked as
    being processed; the franchise page only logs the error, the account
    page also shows it. *)
Theorem refused_decision_changes_nothing
    (sf : AdminFranchiseApprovals.State) (sa : AdminAccountApprovals.State)
    w id approved e :
  outcome w (calls w) = Some e ->
  let fields := decision approved (clock w) in
  (let r := AdminFranchiseApprovals.handleApproval id approved (sf, w) in
   r.1 = Ok tt /\ tables r.2.2 = tables w
   /\ events_since w r.2.2
      = [Update "franchises" fields "id" (VStr id);
         ConsoleError "Error processing franchise:" e]
   /\ AdminFranchiseApprovals.pendingFranchises r.2.1
      = AdminFranchiseApprovals.pendingFranchises sf
   /\ AdminFranchiseApprovals.processingId r.2.1 = None)
  /\ (let r := AdminAccountApprovals.handleApproval id approved (sa, w) in
      r.1 = Ok tt /\ tables r.2.2 = tables w
      /\ events_since w r.2.2
         = [Update "profiles" fields "id" (VStr id);
            ConsoleError "Error updating account:" e;
            ConsoleError "Error processing account:" e]
      /\ AdminAccountApprovals.pendingAccounts r.2.1
         = AdminAccountApprovals.pendingAccounts sa
      /\ AdminAccountApprovals.processingId r.2.1 = None
      /\ AdminAccountApprovals.error r.2.1 = e).
Proof.
  intros E0. cbv zeta.
  unfold AdminFranchiseApprovals.handleApproval, AdminAccountApprovals.handleApproval,
    decision.
  split; destruct approved; unfold_calls; rewrite E0; unfold_calls;
    (split; [reflexivity |]); (split; [reflexivity |]);
    (split; [apply events_since_app; cbn [trace]; rewrite <- ?app_assoc; reflexivity |]);
    repeat split.
Qed.

End ApprovalRuns.

Module AccountList.
Import Supabase Run AdminAccountApprovals FeaturedAdsPageFacts FranchisorLoginClaims
       LeadsLoading.

(** The map built from the accounts answers with the e-mail address of
    the last account that carries the id. *)
Lemma emailMapOf_lookup us id :
  emailMapOf us !! id
  = user_email <$> last (List.filter (fun a => bool_decide (user_id a = id)) us).
Proof.
  unfold emailMapOf.
  assert (forall m : gmap string string,
    fold_left (fun m a => <[user_id a := user_email a]> m) us m !! id
    = match last (List.filter (fun a => bool_decide (user_id a = id)) us) with
      | Some a => Some (user_email a)
      | None => m !! id
      end) as H.
  { induction us as [| a us IH]; intros m; [reflexivity |].
    cbn [fold_left List.filter]. rewrite IH.
    destruct (bool_decide (user_id a = id)) eqn:Ea.
    - rewrite last_cons. destruct (last (List.filter _ us)); [reflexivity |].
      apply bool_decide_eq_true in Ea. rewrite <- Ea. apply lookup_insert_eq.
    - destruct (last _); [reflexivity |]. apply lookup_insert_ne.
      apply bool_decide_eq_false in Ea. exact Ea. }
  rewrite H. destruct (last _); reflexivity.
Qed.

(** X16: the account list joins the pending franchisor profiles with the
    accounts of the authentication service: every account listed is a
    pending franchisor profile, and the e-mail address shown for it is
    that of the last account with its id, or 'N/A' when there is none or
    the address is empty. *)
Theorem pending_accounts_carry_their_email s w :
  outcome w (calls w) = None -> outcome w (S (calls w)) = None ->
  let r := dispatch (fun _ => fetchPendingAccounts) (s, w) in
  r.1 = Ok tt /\ loading r.2.1 = false /\ tables r.2.2 = tables w
  /\ error r.2.1 = error s
  /\ forall acc, acc ∈ pendingAccounts r.2.1 ->
       acc_email acc <> ""
       /\ acc_email acc
          = match last (List.filter (fun a => bool_decide (user_id a = acc_id acc))
                                    (users w)) with
            | Some a => orElse (user_email a) "N/A"
            | None => "N/A"
            end
       /\ exists p, p ∈ table w "profiles"
            /\ p !! "user_type" = Some (VStr "franchisor")
            /\ p !! "status" = Some (VStr "pending")
            /\ acc_id acc = text (p !! "id")
            /\ full_name acc = text (p !! "full_name")
            /\ company_name acc = orElse (text (p !! "company_name")) "N/A".
Proof.
  intros E0 E1. cbv zeta. unfold fetchPendingAccounts. unfold_calls.
  rewrite E0. unfold_calls. rewrite E1. unfold_calls.
  repeat (split; [reflexivity |]).
  intros acc Hacc. cbn [pendingAccounts setPendingAccounts setLoading] in Hacc.
  apply list_elem_of_In, in_map_iff in Hacc as (p & Hp & Hin).
  apply list_elem_of_In in Hin. rewrite order_by_perm in Hin.
  apply db_select_spec in Hin as [Hin Hall].
  apply Forall_cons in Hall as [H1 Hall]. apply Forall_cons in Hall as [H2 _].
  apply matches_VStr in H1, H2.
  assert (Hmail : acc_email acc
            = match last (List.filter (fun a => bool_decide (user_id a = acc_id acc))
                                      (users w)) with
              | Some a => orElse (user_email a) "N/A"
              | None => "N/A"
              end).
  { subst acc. cbn [acc_email acc_id default]. rewrite emailMapOf_lookup.
    destruct (last _); reflexivity. }
  split; [| split; [exact Hmail |]].
  - rewrite Hmail. destruct (last _) as [a|]; [| discriminate].
    apply FeaturedAdsRuns.orElse_nonEmpty. discriminate.
  - exists p. subst acc. repeat split; assumption.
Qed.

End AccountList.

(* ===================================================================== *)
(** * Sub-category boxes of the franchise forms *)
(* ===================================================================== *)

Module CategoryBoxes.
Import Supabase Form Categories.

Lemma toggled_spec c prev :
  (c ∈ toggled c prev <-> c ∉ prev)
  /\ (forall d, d <> c -> d ∈ toggled c prev <-> d ∈ prev)
  /\ (NoDup prev -> NoDup (toggled c prev))
  /\ (c ∉ prev -> toggled c (toggled c prev) = prev).
Proof.
  destruct (decide (c ∈ prev)) as [Hc | Hc].
  - assert (toggled c prev
            = List.filter (fun id => negb (bool_decide (id = c))) prev) as ->
      by (unfold toggled; rewrite bool_decide_eq_true_2 by exact Hc; reflexivity).
    split; [| split; [| split]].
    + rewrite list_elem_of_In, filter_In, negb_true_iff, bool_decide_eq_false.
      split; [intros [_ H]; contradiction | intros H; contradiction].
    + intros d Hd. rewrite !list_elem_of_In, filter_In, negb_true_iff,
        bool_decide_eq_false. tauto.
    + intros Hn. apply NoDup_ListNoDup, List.NoDup_filter, NoDup_ListNoDup, Hn.
    + intros Hn. contradiction.
  - assert (toggled c prev = (prev ++ [c])%list) as ->
      by (unfold toggled; rewrite bool_decide_eq_false_2 by exact Hc; reflexivity).
    split; [| split; [| split]].
    + rewrite elem_of_app, list_elem_of_singleton. tauto.
    + intros d Hd. rewrite elem_of_app, list_elem_of_singleton. tauto.
    + intros Hn. apply NoDup_app. split; [exact Hn |]. split.
      * intros x Hx Hx'. apply list_elem_of_singleton in Hx'. subst x. contradiction.
      * apply NoDup_singleton.
    + intros _. unfold toggled.
      rewrite bool_decide_eq_true_2
        by (apply elem_of_app; right; apply list_elem_of_singleton; reflexivity).
      rewrite List.filter_app. cbn [List.filter].
      rewrite (bool_decide_eq_true_2 (c = c)) by reflexivity. cbn [negb].
      rewrite app_nil_r. clear -Hc. induction prev as [| x l IH]; [reflexivity |].
      cbn [List.filter]. rewrite not_elem_of_cons in Hc. destruct Hc as [Hx Hl].
      rewrite (bool_decide_eq_false_2 (x = c)) by congruence. cbn [negb].
      f_equal. apply IH. exact Hl.
Qed.

(** X17: ticking or clearing a sub-category box, on either form, flips
    whether that id is selected and leaves every other id as it was; a
    selection without repeats stays without repeats, and ticking then
    clearing a box restores the selection.  The main category, the rest
    of the form and the world are untouched. *)
Theorem sub_category_box_flips_one_id
    categoryId (se : EditFranchise.State) (sa : AddFranchise.State) w :
  let flips prev next :=
    (categoryId ∈ next <-> categoryId ∉ prev)
    /\ (forall d, d <> categoryId -> d ∈ next <-> d ∈ prev)
    /\ (NoDup prev -> NoDup next)
    /\ (categoryId ∉ prev -> toggled categoryId next = prev) in
  (let r := EditFranchise.handleSubCategoryChange categoryId (se, w) in
   r.1 = Ok tt /\ r.2.2 = w
   /\ r.2.1 = EditFranchise.setSelectedSubCategories (toggled categoryId) se
   /\ EditFranchise.selectedMainCategory r.2.1 = EditFranchise.selectedMainCategory se
   /\ flips (EditFranchise.selectedSubCategories se)
            (EditFranchise.selectedSubCategories r.2.1))
  /\ (let r := AddFranchiseForm.handleSubCategoryChange categoryId (sa, w) in
      r.1 = Ok tt /\ r.2.2 = w
      /\ r.2.1 = AddFranchise.setSelectedSubCategories (toggled categoryId) sa
      /\ AddFranchise.selectedMainCategory r.2.1 = AddFranchise.selectedMainCategory sa
      /\ flips (AddFranchise.selectedSubCategories sa)
               (AddFranchise.selectedSubCategories r.2.1)).
Proof.
  cbv zeta. split; repeat (split; [reflexivity |]);
    cbn [EditFranchise.handleSubCategoryChange AddFranchiseForm.handleSubCategoryChange
         setState fst snd EditFranchise.selectedSubCategories
         EditFranchise.setSelectedSubCategories AddFranchise.selectedSubCategories
         AddFranchise.setSelectedSubCategories];
    apply toggled_spec.
Qed.



End CategoryBoxes.

(* ===================================================================== *)
(** * Invariants of the franchise forms under every answer of the
      service *)
(* ===================================================================== *)

Module Keeps.
Import Supabase Invariants Run.

Section Rules.
Context {U : Type} (R : World -> World -> Prop).
Hypothesis R_refl : forall w, R w w.
Hypothesis R_trans : forall w1 w2 w3, R w1 w2 -> R w2 w3 -> R w1 w3.
Hypothesis R_log : forall ev w, R w (log ev w).
Hypothesis R_tick : forall w, R w (tick w).
Hypothesis R_drawn : forall w, R w (drawn w).

Lemma R_issued ev w : R w (tick (log ev w)).
Proof. eapply R_trans; [apply R_log | apply R_tick]. Qed.

Lemma keeps_still {A} (m : M U A) : (forall s, (m s).2.2 = s.2) -> keeps R m.
Proof. intros H s. rewrite H. apply R_refl. Qed.

Lemma keeps_ret {A} (a : A) : keeps R (mret a : M U A).
Proof. apply keeps_still. reflexivity. Qed.

Lemma keeps_throw {A} e : keeps R (throw e : M U A).
Proof. apply keeps_still. reflexivity. Qed.

Lemma keeps_setState f : keeps R (setState f : M U unit).
Proof. apply keeps_still. intros [u w]. reflexivity. Qed.

Lemma keeps_world : keeps R (world : M U World).
Proof. apply keeps_still. intros [u w]. reflexivity. Qed.

Lemma keeps_newDate : keeps R (newDate : M U JSDate.Date).
Proof. apply keeps_still. intros [u w]. reflexivity. Qed.

Lemma keeps_toISOString d : keeps R (Supabase.toISOString d : M U string).
Proof.
  unfold Supabase.toISOString. destruct (JSDate.toISOString d);
    [apply keeps_ret | apply keeps_throw].
Qed.

Lemma keeps_throwIf e : keeps R (throwIf e : M U unit).
Proof. destruct e; [apply keeps_throw | apply keeps_ret]. Qed.

Lemma keeps_mathRandom : keeps R (mathRandom : M U string).
Proof. intros [u w]. apply R_drawn. Qed.

Lemma keeps_effect ev : keeps R (effect ev : M U unit).
Proof. intros [u w]. apply R_log. Qed.

Lemma keeps_call ev apply :
  (forall w, R w (apply w)) -> keeps R (call ev apply : M U _).
Proof.
  intros Ha [u w]. unfold call. destruct (outcome w (calls w)); cbn [fst snd].
  - apply R_issued.
  - eapply R_trans; [apply R_issued | apply Ha].
Qed.

Lemma keeps_query {A} ev (answer : World -> A) : keeps R (query ev answer : M U _).
Proof.
  intros [u w]. unfold query. destruct (outcome w (calls w)); apply R_issued.
Qed.

Lemma keeps_getUser : keeps R (getUser : M U _).
Proof.
  intros [u w]. unfold getUser. destruct (outcome w (calls w)); apply R_issued.
Qed.

Lemma keeps_insert_returning t r :
  (forall r' w, R w (db_insert t r' w)) -> keeps R (insert_returning t r : M U _).
Proof.
  intros Ha [u w]. unfold insert_returning.
  destruct (outcome w (calls w)); cbn [fst snd].
  - apply R_issued.
  - eapply R_trans; [apply R_issued | apply Ha].
Qed.

Lemma keeps_bind {A B} (m : M U A) (f : A -> M U B) :
  keeps R m -> (forall a, keeps R (f a)) -> keeps R (m ≫= f).
Proof.
  intros Hm Hf s. specialize (Hm s). unfold mbind, M_bind.
  destruct (m s) as [[a | e] s1]; cbn [fst snd] in *; [| exact Hm].
  eapply R_trans; [exact Hm | apply Hf].
Qed.

Lemma keeps_try_catch {A} (m : M U A) (h : string -> M U A) :
  keeps R m -> (forall e, keeps R (h e)) -> keeps R (try_catch m h).
Proof.
  intros Hm Hh s. specialize (Hm s). unfold try_catch.
  destruct (m s) as [[a | e] s1]; cbn [fst snd] in *; [exact Hm |].
  eapply R_trans; [exact Hm | apply Hh].
Qed.

Lemma keeps_finally {A} (m : M U A) (c : M U unit) :
  keeps R m -> keeps R c -> keeps R (finally m c).
Proof.
  intros Hm Hc s. specialize (Hm s). unfold finally.
  destruct (m s) as [r s1]; cbn [fst snd] in *. specialize (Hc s1).
  destruct (c s1) as [[[] | e] s2]; cbn [fst snd] in *;
    (eapply R_trans; [exact Hm | exact Hc]).
Qed.

Lemma keeps_for_of {A} (xs : list A) (body : A -> M U unit) :
  (forall x, keeps R (body x)) -> keeps R (for_of xs body).
Proof.
  intros Hb. induction xs as [| x xs IH]; cbn [for_of].
  - apply keeps_ret.
  - apply keeps_bind; [apply Hb | intros _; exact IH].
Qed.

End Rules.

(** Walk through a handler body, leaving the conditions on its writes. *)
Ltac keeps_step :=
  lazymatch goal with
  | |- keeps _ (mbind _ _) => apply keeps_bind; [assumption .. | | intros ?]
  | |- keeps _ (try_catch _ _) => apply keeps_try_catch; [assumption .. | | intros ?]
  | |- keeps _ (finally _ _) => apply keeps_finally; [assumption .. | |]
  | |- keeps _ (for_of _ _) => apply keeps_for_of; [assumption .. | intros ?]
  | |- keeps _ (if ?b then _ else _) => destruct b
  | |- keeps _ (match ?x with _ => _ end) => destruct x
  | |- keeps _ (mret _) => apply keeps_ret; assumption
  | |- keeps _ (throw _) => apply keeps_throw; assumption
  | |- keeps _ (setState _) => apply keeps_setState; assumption
  | |- keeps _ world => apply keeps_world; assumption
  | |- keeps _ newDate => apply keeps_newDate; assumption
  | |- keeps _ mathRandom => apply keeps_mathRandom; assumption
  | |- keeps _ (Supabase.toISOString _) => apply keeps_toISOString; assumption
  | |- keeps _ (throwIf _) => apply keeps_throwIf; assumption
  | |- keeps _ (navigate _) => apply keeps_effect; assumption
  | |- keeps _ (consoleError _ _) => apply keeps_effect; assumption
  | |- keeps _ (insert _ _) => apply keeps_call; [assumption .. |]
  | |- keeps _ (update _ _ _ _) => apply keeps_call; [assumption .. |]
  | |- keeps _ (delete_eq _ _ _) => apply keeps_call; [assumption .. |]
  | |- keeps _ (upsert _ _ _) => apply keeps_call; [assumption .. |]
  | |- keeps _ (storage_upload _ _ _) => apply keeps_call; [assumption .. |]
  | |- keeps _ (insert_returning _ _) => apply keeps_insert_returning; [assumption .. |]
  | |- keeps _ getUser => apply keeps_getUser; assumption
  | |- keeps _ (select _ _) => apply keeps_query; assumption
  | |- keeps _ (select_ordered _ _ _ _) => apply keeps_query; assumption
  | |- keeps _ listUsers => apply keeps_query; assumption
  end.

End Keeps.

Module AppendOnly.
Import Supabase Invariants Run Keeps Form.

Lemma grown_refl w : grown w w.
Proof. split; [intros t |]; reflexivity. Qed.

Lemma grown_trans w1 w2 w3 : grown w1 w2 -> grown w2 w3 -> grown w1 w3.
Proof.
  intros [T1 O1] [T2 O2]. split; [intros t |]; etransitivity; eauto.
Qed.

Lemma grown_same w w' :
  tables w' = tables w -> objects w' = objects w -> grown w w'.
Proof.
  intros Et Eo. split; [intros t; unfold table; rewrite Et | rewrite Eo]; reflexivity.
Qed.

Lemma grown_db_insert t r w : grown w (db_insert t r w).
Proof.
  split; [| reflexivity]. intros t'. destruct (decide (t = t')) as [<- | Hne].
  - rewrite table_db_insert. apply prefix_app_r. reflexivity.
  - rewrite table_db_insert_other by exact Hne. reflexivity.
Qed.

Lemma grown_upload b p f w :
  grown w (with_objects (fun os => (os ++ [(b, p, f)])%list) w).
Proof. split; [intros t; reflexivity |]. apply prefix_app_r. reflexivity. Qed.

Section Submit.
Variable parseFloat : string -> value.

Lemma submit_grows (s : AddFranchise.State) :
  keeps grown (AddFranchise.handleSubmit parseFloat s).
Proof.
  assert (forall w, grown w w) as H1 by apply grown_refl.
  assert (forall w1 w2 w3, grown w1 w2 -> grown w2 w3 -> grown w1 w3) as H2
    by apply grown_trans.
  assert (forall ev w, grown w (log ev w)) as H3
    by (intros; apply grown_same; reflexivity).
  assert (forall w, grown w (tick w)) as H4 by (intros; apply grown_same; reflexivity).
  assert (forall w, grown w (drawn w)) as H5 by (intros; apply grown_same; reflexivity).
  unfold AddFranchise.handleSubmit, AddFranchise.uploadImage.
  repeat keeps_step;
    first [ intros; apply grown_db_insert | intros; apply grown_upload ].
Qed.

(** X19: whatever the service answers, a submission of the create form
    changes and removes nothing that is stored: every table and the
    object store keep what they held, in place, and at most gain rows
    at the end; the session is left alone. *)
Theorem submission_only_adds (s : AddFranchise.State) w :
  let w' := (dispatch (AddFranchise.handleSubmit parseFloat) (s, w)).2.2 in
  (forall t, table w t `prefix_of` table w' t)
  /\ objects w `prefix_of` objects w'.
Proof. apply (submit_grows s (s, w)). Qed.

End Submit.

End AppendOnly.

(* ===================================================================== *)
(** * What saving an edited franchise leaves alone *)
(* ===================================================================== *)

Module EditFrame.
Import Supabase Invariants Run Keeps Form EditFranchise FeaturedAdsPageFacts.

(** ** Standing of the franchises *)

Lemma standing_same w w' : tables w' = tables w -> standingKept w w'.
Proof. intros E. unfold standingKept, table. rewrite E. reflexivity. Qed.

Lemma standing_trans w1 w2 w3 :
  standingKept w1 w2 -> standingKept w2 w3 -> standingKept w1 w3.
Proof. unfold standingKept. congruence. Qed.

Lemma standing_other_table (f : World -> World) t w :
  t <> "franchises" ->
  (forall t', t <> t' -> table (f w) t' = table w t') ->
  standingKept w (f w).
Proof. intros Hne H. unfold standingKept. rewrite H by exact Hne. reflexivity. Qed.

Lemma standing_update (fields : row) col v w :
  fields !! "id" = None -> fields !! "status" = None ->
  fields !! "franchisor_id" = None -> fields !! "approved_at" = None ->
  standingKept w (db_update "franchises" fields col v w).
Proof.
  intros H1 H2 H3 H4. unfold standingKept. rewrite table_db_update, map_map.
  apply map_ext. intros r. destruct (matches col v r); [| reflexivity].
  unfold standing.
  rewrite !(lookup_union_r fields r) by assumption. reflexivity.
Qed.

(** ** Rows of the other franchises *)

Lemma others_same fid w w' : tables w' = tables w -> othersKept fid w w'.
Proof. intros E t. unfold others, table. rewrite E. reflexivity. Qed.

Lemma others_trans fid w1 w2 w3 :
  othersKept fid w1 w2 -> othersKept fid w2 w3 -> othersKept fid w1 w3.
Proof. intros H1 H2 t. rewrite H2. apply H1. Qed.

Lemma others_one_table fid (f : World -> World) t w :
  (forall t', t <> t' -> table (f w) t' = table w t') ->
  others fid (f w) t = others fid w t ->
  othersKept fid w (f w).
Proof.
  intros Hother Ht t'. destruct (decide (t = t')) as [<- | Hne]; [exact Ht |].
  unfold others. rewrite Hother by exact Hne. reflexivity.
Qed.

Lemma filter_filter_same {A} (f : A -> bool) (l : list A) :
  List.filter f (List.filter f l) = List.filter f l.
Proof.
  induction l as [| x l IH]; [reflexivity |]. cbn [List.filter].
  destruct (f x) eqn:E; [| exact IH]. cbn [List.filter]. rewrite E, IH. reflexivity.
Qed.

(** Rewriting the rows selected by a key leaves the other rows, as long
    as the rewritten rows keep the key. *)
Lemma filter_map_selected (fields : row) col v (l : list row) :
  (forall r, matches col v r = true -> matches col v (fields ∪ r) = true) ->
  List.filter (fun r => negb (matches col v r))
    (List.map (fun r => if matches col v r then fields ∪ r else r) l)
  = List.filter (fun r => negb (matches col v r)) l.
Proof.
  intros Hk. induction l as [| r l IH]; [reflexivity |]. cbn [List.map List.filter].
  destruct (matches col v r) eqn:E.
  - rewrite (Hk r E). cbn [negb]. exact IH.
  - rewrite E. cbn [negb]. f_equal. exact IH.
Qed.

Lemma others_update_own fid (fields : row) w :
  fields !! "id" = None ->
  othersKept fid w (db_update "franchises" fields "id" (VStr fid) w).
Proof.
  intros Hf. apply (others_one_table fid _ "franchises").
  - intros t' Hne. apply table_db_update_other. exact Hne.
  - unfold others. rewrite (bool_decide_eq_true_2 _ eq_refl), table_db_update.
    apply filter_map_selected. intros r Hm. apply matches_VStr.
    rewrite lookup_union_r by exact Hf. apply matches_VStr. exact Hm.
Qed.

Lemma others_delete_own fid t w :
  t <> "franchises" ->
  othersKept fid w (db_delete t "franchise_id" (VStr fid) w).
Proof.
  intros Hne. apply (others_one_table fid _ t).
  - intros t' Hne'. apply table_db_delete_other. exact Hne'.
  - unfold others. rewrite (bool_decide_eq_false_2 _ Hne), table_db_delete.
    apply filter_filter_same.
Qed.

Lemma others_insert_own fid t (r : row) w :
  t <> "franchises" -> r !! "franchise_id" = Some (VStr fid) ->
  othersKept fid w (db_insert t r w).
Proof.
  intros Hne Hr. apply (others_one_table fid _ t).
  - intros t' Hne'. apply table_db_insert_other. exact Hne'.
  - unfold others. rewrite (bool_decide_eq_false_2 _ Hne), table_db_insert.
    rewrite List.filter_app. cbn [List.filter].
    rewrite (proj2 (matches_VStr _ _ _) Hr). cbn [negb]. apply app_nil_r.
Qed.

Lemma others_upsert_own fid t (r : row) w :
  t <> "franchises" -> r !! "franchise_id" = Some (VStr fid) ->
  othersKept fid w (db_upsert t r "franchise_id" w).
Proof.
  intros Hne Hr. unfold db_upsert. rewrite Hr. cbn [default].
  destruct (existsb _ _); [| apply others_insert_own; assumption].
  apply (others_one_table fid _ t).
  - intros t' Hne'. apply table_db_update_other. exact Hne'.
  - unfold others. rewrite (bool_decide_eq_false_2 _ Hne), table_db_update.
    apply filter_map_selected. intros r0 _. apply matches_VStr.
    apply lookup_union_Some_l. exact Hr.
Qed.

Section Save.
Variable parseFloat : string -> value.

Lemma save_keeps_standing (s : State) : keeps standingKept (handleSubmit parseFloat s).
Proof.
  assert (forall w, standingKept w w) as H1 by (intros; reflexivity).
  assert (forall w1 w2 w3, standingKept w1 w2 -> standingKept w2 w3 -> standingKept w1 w3)
    as H2 by apply standing_trans.
  assert (forall ev w, standingKept w (log ev w)) as H3
    by (intros; apply standing_same; reflexivity).
  assert (forall w, standingKept w (tick w)) as H4
    by (intros; apply standing_same; reflexivity).
  assert (forall w, standingKept w (drawn w)) as H5
    by (intros; apply standing_same; reflexivity).
  unfold handleSubmit.
  repeat keeps_step; intros w0;
    lazymatch goal with
    | |- standingKept _ (with_objects _ _) => apply standing_same; reflexivity
    | |- standingKept _ (db_update "franchises" _ _ _ _) =>
        apply standing_update; reflexivity
    | |- standingKept _ (db_upsert _ _ _ _) =>
        apply (standing_other_table _ "franchise_details"); [discriminate |];
        intros; apply EditFranchiseFacts.table_upsert_other; assumption
    | |- standingKept _ (db_delete ?t _ _ _) =>
        apply (standing_other_table _ t); [discriminate |];
        intros; apply table_db_delete_other; assumption
    | |- standingKept _ (db_insert ?t _ _) =>
        apply (standing_other_table _ t); [discriminate |];
        intros; apply table_db_insert_other; assumption
    end.
Qed.

Lemma save_keeps_others (s : State) :
  keeps (othersKept (id s)) (handleSubmit parseFloat s).
Proof.
  assert (forall w, othersKept (id s) w w) as H1 by (intros w t; reflexivity).
  assert (forall w1 w2 w3, othersKept (id s) w1 w2 -> othersKept (id s) w2 w3 ->
                           othersKept (id s) w1 w3) as H2 by apply others_trans.
  assert (forall ev w, othersKept (id s) w (log ev w)) as H3
    by (intros; apply others_same; reflexivity).
  assert (forall w, othersKept (id s) w (tick w)) as H4
    by (intros; apply others_same; reflexivity).
  assert (forall w, othersKept (id s) w (drawn w)) as H5
    by (intros; apply others_same; reflexivity).
  unfold handleSubmit.
  repeat keeps_step; intros w0;
    lazymatch goal with
    | |- othersKept _ _ (with_objects _ _) => apply others_same; reflexivity
    | |- othersKept _ _ (db_update _ _ _ _ _) => apply others_update_own; reflexivity
    | |- othersKept _ _ (db_upsert _ _ _ _) =>
        apply others_upsert_own; [discriminate | reflexivity]
    | |- othersKept _ _ (db_delete _ _ _ _) => apply others_delete_own; discriminate
    | |- othersKept _ _ (db_insert _ _ _) =>
        apply others_insert_own; [discriminate | reflexivity]
    end.
Qed.

(** X20: whatever the service answers, saving an edited franchise leaves the
    rows of every other franchise as they were and in their order: the
    rows of [franchises] with another id, and in every other table the
    rows with another [franchise_id]. *)
Theorem edit_leaves_other_franchises_alone (s : State) w t :
  let w' := (dispatch (handleSubmit parseFloat) (s, w)).2.2 in
  others (id s) w' t = others (id s) w t.
Proof. apply (save_keeps_others s (s, w)). Qed.

(** X21: whatever the service answers, saving an edited franchise changes no
    franchise's id, status, owner or approval time: an approved
    franchise stays approved after an edit, a pending one pending. *)
Theorem edit_keeps_standing (s : State) w :
  let w' := (dispatch (handleSubmit parseFloat) (s, w)).2.2 in
  List.map standing (table w' "franchises") = List.map standing (table w "franchises").
Proof. apply (save_keeps_standing s (s, w)). Qed.

End Save.

End EditFrame.

(* ===================================================================== *)
(** * Loading the edit form *)
(* ===================================================================== *)

Module LoadFacts.
Import Supabase SupabaseQueries Invariants Run Keeps Accepted Form EditFranchise
       EditFranchiseLoad EditFranchiseFacts EditFranchiseClaims FeaturedAdsPageFacts.

(** ** The service is asked the same way after a save *)

Section Save.
Variable parseFloat : string -> value.

Lemma sameService_refl w : sameService w w.
Proof. split; reflexivity. Qed.

Lemma sameService_trans w1 w2 w3 :
  sameService w1 w2 -> sameService w2 w3 -> sameService w1 w3.
Proof. intros [A1 B1] [A2 B2]. split; congruence. Qed.

Lemma save_keeps_service (s : State) : keeps sameService (handleSubmit parseFloat s).
Proof.
  assert (forall w, sameService w w) as H1 by apply sameService_refl.
  assert (forall w1 w2 w3, sameService w1 w2 -> sameService w2 w3 -> sameService w1 w3)
    as H2 by apply sameService_trans.
  assert (forall ev w, sameService w (log ev w)) as H3 by (split; reflexivity).
  assert (forall w, sameService w (tick w)) as H4 by (split; reflexivity).
  assert (forall w, sameService w (drawn w)) as H5 by (split; reflexivity).
  unfold handleSubmit.
  repeat keeps_step; intros w0;
    lazymatch goal with
    | |- sameService _ (db_upsert _ _ _ _) =>
        unfold db_upsert; destruct (existsb _ _); split; reflexivity
    | |- _ => split; reflexivity
    end.
Qed.

Lemma accepting_after_save (s : State) w :
  accepting w -> accepting (dispatch (handleSubmit parseFloat) (s, w)).2.2.
Proof.
  intros H n. destruct (save_keeps_service s (s, w)) as [E _].
  unfold dispatch. cbn [fst snd] in *. rewrite E. apply H.
Qed.

(** ** The tables after an accepted save *)

Lemma table_saved_franchises (s : State) w :
  table (saved parseFloat s w) "franchises"
  = List.map (fun r => if matches "id" (VStr (id s)) r
                       then basicFields s w ∪ r else r) (table w "franchises").
Proof.
  unfold saved, afterStories.
  change (table (log ?ev ?w0) ?t) with (table w0 t).
  rewrite table_stories_other by discriminate.
  rewrite table_delete_other by discriminate.
  unfold afterTestimonials. rewrite table_replaced_other by discriminate.
  unfold afterFaqs. rewrite table_replaced_other by discriminate.
  unfold afterCategories. rewrite table_replaced_other by discriminate.
  unfold afterDetails. cbv zeta. unfold accepted at 1.
  rewrite table_upsert_other by discriminate.
  change (table (tick (log ?ev ?w0)) ?t) with (table w0 t).
  unfold accepted. rewrite table_db_update.
  change (table (tick (log ?ev ?w0)) ?t) with (table w0 t).
  rewrite table_afterMainImage.
  assert (basicFields s (afterMainImage s w) = basicFields s w) as ->
    by (unfold basicFields, afterMainImage; destruct (mainImageFile s); reflexivity).
  reflexivity.
Qed.

Lemma table_saved_categories (s : State) w :
  table (saved parseFloat s w) "franchise_categories" = table w "franchise_categories".
Proof.
  unfold saved, afterStories.
  change (table (log ?ev ?w0) ?t) with (table w0 t).
  rewrite table_stories_other by discriminate.
  rewrite table_delete_other by discriminate.
  unfold afterTestimonials. rewrite table_replaced_other by discriminate.
  unfold afterFaqs. rewrite table_replaced_other by discriminate.
  unfold afterCategories. rewrite table_replaced_other by discriminate.
  apply table_afterDetails; discriminate.
Qed.

End Save.

(** ** Selections *)

Lemma select_one t col v w :
  db_select t [(col, v)] w = List.filter (matches col v) (table w t).
Proof.
  unfold db_select, matches_all. apply filter_ext. intros r. cbn. apply andb_true_r.
Qed.

(** Rewriting the selected rows without touching the key keeps the
    selection. *)
Lemma filter_map_updated (fields : row) col v (l : list row) :
  fields !! col = None ->
  List.filter (matches col v)
    (List.map (fun r => if matches col v r then fields ∪ r else r) l)
  = List.map (fun r => fields ∪ r) (List.filter (matches col v) l).
Proof.
  intros Hf.
  assert (forall r, matches col v (fields ∪ r) = matches col v r) as Hk.
  { intros r. unfold matches. destruct v; try reflexivity;
      rewrite lookup_union_r by exact Hf; reflexivity. }
  induction l as [| r l IH]; [reflexivity |]. cbn [List.map List.filter].
  destruct (matches col v r) eqn:E.
  - rewrite Hk, E. cbn [List.map]. f_equal. exact IH.
  - rewrite E. exact IH.
Qed.

Lemma head_filter_Some {A} (p : A -> bool) (l : list A) x :
  head (List.filter p l) = Some x -> x ∈ l /\ p x = true.
Proof.
  intros H. assert (x ∈ List.filter p l) as Hin.
  { destruct (List.filter p l) as [| y k]; [discriminate |].
    injection H as ->. left. }
  apply list_elem_of_In, filter_In in Hin as [Hin Hp].
  split; [apply list_elem_of_In; exact Hin | exact Hp].
Qed.

Lemma head_filter_exists {A} (p : A -> bool) (l : list A) x :
  x ∈ l -> p x = true -> exists y, head (List.filter p l) = Some y.
Proof.
  intros Hin Hp. assert (x ∈ List.filter p l) as Hf
    by (apply list_elem_of_In, filter_In; split; [apply list_elem_of_In, Hin | exact Hp]).
  destruct (List.filter p l) as [| y k]; [apply elem_of_nil in Hf; contradiction |].
  exists y. reflexivity.
Qed.

(** The stories loop, with the image URL it gives a story that brings
    no new file. *)
Lemma table_stories_urls fid fb stories w :
  exists rows,
    table (fold_left (storySaved fid fb) stories w) "franchise_success_stories"
    = (table w "franchise_success_stories" ++ rows)%list
    /\ Forall2 (fun r story => exists image_url,
                  r = storyRow fid story image_url
                  /\ (imageFile story = None -> image_url = fb story))
               rows (List.filter storyFilled stories).
Proof.
  revert w. induction stories as [| st stories IH]; intros w.
  - exists []. split; [symmetry; apply app_nil_r | constructor].
  - cbn [fold_left List.filter].
    destruct (IH (storySaved fid fb w st)) as (rows & Ht & Hf).
    unfold storySaved in Ht |- *. destruct (storyFilled st).
    + destruct (imageFile st) as [file|] eqn:Ef;
        (eexists (_ :: rows); split;
         [ rewrite Ht; unfold accepted; rewrite table_db_insert, <- app_assoc;
           reflexivity
         | constructor; [eexists; split; [reflexivity |] | exact Hf] ]).
      * intros Hn. rewrite Ef in Hn. discriminate.
      * intros _. reflexivity.
    + exists rows. auto.
Qed.

End LoadFacts.

(* ===================================================================== *)
(** * Saving the edit form and loading it again *)
(* ===================================================================== *)

Module EditRoundTrip.
Import Supabase SupabaseQueries Invariants Run Keeps Accepted Form EditFranchise
       EditFranchiseLoad EditFranchiseFacts EditFranchiseClaims FeaturedAdsPageFacts
       SaveTrace LoadFacts.

Lemma orElse_empty a : orElse a "" = a.
Proof. unfold orElse. destruct a; reflexivity. Qed.

Lemma existsb_isNull_Some {A} (l : list A) : existsb isNull (List.map Some l) = false.
Proof. induction l; [reflexivity | exact IHl]. Qed.

Lemma omap_Some {A} (l : list A) : omap (fun c => c) (List.map Some l) = l.
Proof. induction l as [| x l IH]; [reflexivity |]. cbn. rewrite IH. reflexivity. Qed.

Section RoundTrip.
Variable parseFloat : string -> value.
Variable numberToString : Q -> string.

(** The related rows of the franchise after an accepted save. *)
Lemma related_after_save (s : State) w t (rows : list row) :
  table (saved parseFloat s w) t
  = (List.filter (fun r => negb (matches "franchise_id" (VStr (id s)) r)) (table w t)
     ++ rows)%list ->
  Forall (fun r => r !! "franchise_id" = Some (VStr (id s))) rows ->
  FranchiseData.related t (VStr (id s)) (saved parseFloat s w) = rows.
Proof.
  intros Ht Hr. unfold FranchiseData.related. rewrite select_one, Ht.
  apply own_rows_replaced. exact Hr.
Qed.

Lemma details_after_save (s : State) w :
  exists det,
    head (FranchiseData.related "franchise_details" (VStr (id s))
            (saved parseFloat s w)) = Some det
    /\ det !! "short_description" = Some (VStr (shortDescription s))
    /\ det !! "long_description" = Some (VStr (longDescription s))
    /\ det !! "main_image_url" = Some (VStr (mainImageUrlOf s w)).
Proof.
  unfold FranchiseData.related. rewrite select_one, table_saved_details.
  unfold afterDetails. cbv zeta. unfold accepted at 1.
  match goal with
  | |- context [db_upsert ?t ?r0 ?c ?w0] =>
      destruct (upserted_rows t r0 c (VStr (id s)) w0 eq_refl
                  ltac:(discriminate)) as [(r1 & Hin & Hk) Hall]
  end.
  destruct (head_filter_exists (matches "franchise_id" (VStr (id s))) _ r1 Hin
              (proj2 (matches_VStr _ _ _) Hk)) as (det & Hd).
  exists det. split; [exact Hd |].
  apply head_filter_Some in Hd as [Hdin Hdm]. apply matches_VStr in Hdm.
  repeat split; (eapply Hall; [exact Hdin | exact Hdm | reflexivity]).
Qed.

Lemma stories_after_save (s : State) w :
  exists rows,
    FranchiseData.related "franchise_success_stories" (VStr (id s))
      (saved parseFloat s w) = rows
    /\ Forall2 (fun r story => exists image_url,
                  r = storyRow (VStr (id s)) story image_url
                  /\ (imageFile story = None ->
                      image_url = default "" (existingImageUrl story)))
               rows (List.filter storyFilled (successStories s)).
Proof.
  assert (exists rows,
    table (saved parseFloat s w) "franchise_success_stories"
    = (List.filter (fun r => negb (matches "franchise_id" (VStr (id s)) r))
         (table w "franchise_success_stories") ++ rows)%list
    /\ Forall2 (fun r story => exists image_url,
                  r = storyRow (VStr (id s)) story image_url
                  /\ (imageFile story = None ->
                      image_url = default "" (existingImageUrl story)))
               rows (List.filter storyFilled (successStories s)))
    as (rows & Ht & Hf).
  { unfold saved, afterStories.
    change (table (log ?ev ?w0) ?t) with (table w0 t).
    match goal with
    | |- context [fold_left ?f ?l ?w0] =>
        destruct (table_stories_urls (VStr (id s))
                    (fun story => default "" (existingImageUrl story)) l w0)
          as (rows & Ht & Hf)
    end.
    exists rows. split; [| exact Hf]. rewrite Ht. f_equal.
    unfold accepted. rewrite table_db_delete. f_equal.
    change (table (tick (log ?ev ?w0)) ?t) with (table w0 t).
    unfold afterTestimonials. rewrite table_replaced_other by discriminate.
    unfold afterFaqs. rewrite table_replaced_other by discriminate.
    unfold afterCategories. rewrite table_replaced_other by discriminate.
    rewrite table_afterDetails by discriminate. reflexivity. }
  exists rows. split; [| exact Hf].
  apply (related_after_save s w _ rows Ht).
  clear Ht. induction Hf as [| r story rows l (u & -> & _) _ IH]; constructor;
    [reflexivity | exact IH].
Qed.

Lemma categories_after_save (s : State) w cm :
  selectedMainCategory s <> "" ->
  categoryRow w (selectedMainCategory s) = Some cm ->
  (forall c, c ∈ selectedSubCategories s ->
     c <> "" /\ exists cs, categoryRow w c = Some cs
                           /\ truthy (cs !! "parent_id") = true) ->
  exists csubs,
    List.map (FranchiseData.categoryOfMapping (saved parseFloat s w))
      (FranchiseData.related "franchise_category_mappings" (VStr (id s))
         (saved parseFloat s w))
    = List.map Some (cm :: csubs)
    /\ text (cm !! "id") = selectedMainCategory s
    /\ List.map (fun c : row => text (c !! "id")) csubs = selectedSubCategories s
    /\ Forall (fun c : row => truthy (c !! "parent_id") = true) csubs.
Proof.
  intros Hm Hcm Hsubs.
  rewrite (related_after_save s w _ _ (table_saved_mappings parseFloat s w)).
  2:{ apply Forall_forall. intros r Hin.
      apply list_elem_of_In, in_map_iff in Hin as (c & <- & _). reflexivity. }
  assert (Hids : categoryIdsOf (selectedMainCategory s) (selectedSubCategories s)
                 = selectedMainCategory s :: selectedSubCategories s).
  { unfold categoryIdsOf. apply filter_all.
    constructor; [apply nonEmpty_true; exact Hm |].
    apply Forall_forall. intros c Hc. apply nonEmpty_true, (Hsubs c Hc). }
  rewrite Hids, map_map.
  assert (Hrow : forall c,
            FranchiseData.categoryOfMapping (saved parseFloat s w)
              (mappingRow (VStr (id s)) c) = categoryRow w c).
  { intros c. unfold FranchiseData.categoryOfMapping, categoryRow.
    rewrite !select_one, table_saved_categories. reflexivity. }
  assert (Hid : forall c r, categoryRow w c = Some r -> text (r !! "id") = c).
  { intros c r Hr. unfold categoryRow in Hr. rewrite select_one in Hr.
    apply head_filter_Some in Hr as [_ Hr]. apply matches_VStr in Hr.
    rewrite Hr. reflexivity. }
  assert (exists csubs,
            List.map (categoryRow w) (selectedSubCategories s) = List.map Some csubs
            /\ List.map (fun c : row => text (c !! "id")) csubs = selectedSubCategories s
            /\ Forall (fun c : row => truthy (c !! "parent_id") = true) csubs)
    as (csubs & H1 & H2 & H3).
  { assert (Forall (fun c => exists cs, categoryRow w c = Some cs
                                       /\ truthy (cs !! "parent_id") = true)
                   (selectedSubCategories s)) as HF
      by (apply Forall_forall; intros c Hc; apply (Hsubs c Hc)).
    clear Hsubs Hids. induction HF as [| c l Hc _ IH].
    - exists []. repeat split; constructor.
    - destruct Hc as (cs & Hcs & Hp). destruct IH as (csubs & H1 & H2 & H3).
      exists (cs :: csubs). cbn [List.map]. rewrite Hcs, H1, H2, (Hid c cs Hcs).
      repeat split. constructor; assumption. }
  exists csubs. cbn [List.map]. rewrite Hrow, Hcm. split; [| split; [| split]].
  - f_equal. rewrite <- H1. apply map_ext. intros c. apply Hrow.
  - apply (Hid _ _ Hcm).
  - exact H2.
  - exact H3.
Qed.

(** X22: saving the edit form and loading it again, against a service that
    accepts every call: the form shows the name, the location, the
    descriptions and the image URL that were saved, the main category
    and the sub-categories that were selected, and of the FAQs,
    testimonials and success stories the filled ones, in order; where
    no entry of a kind was filled, the form keeps the entries it showed
    before.  A story that brought no new image comes back with the image
    URL it had. *)
Theorem saved_form_loads_back (s s0 : State) w (f cm : row) :
  accepting w ->
  id s <> "" -> id s0 = id s ->
  db_select "franchises" [("id", VStr (id s))] w = [f] ->
  selectedMainCategory s <> "" ->
  categoryRow w (selectedMainCategory s) = Some cm ->
  truthy (cm !! "parent_id") = false ->
  (forall c, c ∈ selectedSubCategories s ->
     c <> "" /\ exists cs, categoryRow w c = Some cs
                           /\ truthy (cs !! "parent_id") = true) ->
  let w1 := (dispatch (handleSubmit parseFloat) (s, w)).2.2 in
  let r := dispatch (fetchFranchise numberToString) (s0, w1) in
  r.1 = Ok tt /\ loading r.2.1 = false /\ error r.2.1 = error s0
  /\ name r.2.1 = name s /\ location r.2.1 = location s
  /\ shortDescription r.2.1 = shortDescription s
  /\ longDescription r.2.1 = longDescription s
  /\ existingMainImageUrl r.2.1 = mainImageUrlOf s w
  /\ selectedMainCategory r.2.1 = selectedMainCategory s
  /\ selectedSubCategories r.2.1 = selectedSubCategories s
  /\ faqs r.2.1 = match savedFaqs s with [] => faqs s0 | l => l end
  /\ testimonials r.2.1
     = match savedTestimonials s with [] => testimonials s0 | l => l end
  /\ match List.filter storyFilled (successStories s) with
     | [] => successStories r.2.1 = successStories s0
     | l => Forall2 loadedFrom (successStories r.2.1) l
     end.
Proof.
  intros Hacc Hid Hid0 Hf Hmain Hcm Hcmp Hsubs. cbv zeta.
  pose proof (accepting_after_save parseFloat s w Hacc) as Hacc1.
  rewrite (handleSubmit_accepted parseFloat s w Hacc) in *. cbn [fst snd] in *.
  remember (saved parseFloat s w) as w1 eqn:Ew1.
  (* the franchise as selected after the save *)
  assert (Hsel : db_select "franchises" [("id", VStr (id s))] w1
                 = [basicFields s w ∪ f]).
  { rewrite select_one, Ew1. rewrite table_saved_franchises.
    rewrite filter_map_updated by reflexivity.
    rewrite <- select_one, Hf. reflexivity. }
  assert (Hfid : default VNull ((basicFields s w ∪ f) !! "id") = VStr (id s)).
  { assert (f ∈ db_select "franchises" [("id", VStr (id s))] w) as Hin
      by (rewrite Hf; left).
    rewrite select_one in Hin. apply list_elem_of_In, filter_In in Hin as [_ Hm].
    apply matches_VStr in Hm. rewrite lookup_union_r by reflexivity.
    rewrite Hm. reflexivity. }
  destruct (details_after_save s w) as (det & Hdet & Hd1 & Hd2 & Hd3).
  destruct (stories_after_save s w) as (srows & Hsrows & Hstories).
  destruct (categories_after_save s w cm Hmain Hcm Hsubs)
    as (csubs & Hcats & Hcmid & Hsubids & Hsubp).
  rewrite <- Ew1 in Hdet, Hsrows, Hcats.
  assert (Hfaqs : FranchiseData.related "franchise_faqs" (VStr (id s)) w1
                  = List.map (faqRow (VStr (id s))) (savedFaqs s)).
  { rewrite Ew1.
    apply (related_after_save s w _ _ (table_saved_faqs parseFloat s w)).
    apply Forall_forall. intros r Hin.
    apply list_elem_of_In, in_map_iff in Hin as (c & <- & _). reflexivity. }
  assert (Htest : FranchiseData.related "franchise_testimonials" (VStr (id s)) w1
                  = List.map (testimonialRow (VStr (id s))) (savedTestimonials s)).
  { rewrite Ew1.
    apply (related_after_save s w _ _ (table_saved_testimonials parseFloat s w)).
    apply Forall_forall. intros r Hin.
    apply list_elem_of_In, in_map_iff in Hin as (c & <- & _). reflexivity. }
  (* the run of the load *)
  unfold dispatch. cbn [fst].
  unfold fetchFranchise, FranchiseData.select_single. rewrite Hid0.
  assert (nonEmpty (id s) = true) as -> by (apply nonEmpty_true; exact Hid).
  cbn [negb]. unfold_calls. rewrite (Hacc1 _), Hsel. unfold_calls.
  unfold FranchiseData.nested. rewrite Hfid. cbv zeta.
  cbn [FranchiseData.columns FranchiseData.details FranchiseData.categories
       FranchiseData.faqs FranchiseData.testimonials FranchiseData.success_stories].
  rewrite Hdet, Hcats, Hfaqs, Htest, Hsrows. unfold_calls.
  rewrite existsb_isNull_Some, omap_Some. unfold_calls.
  cbn [List.find List.filter]. rewrite Hcmp. cbn [negb]. unfold_calls.
  rewrite (filter_all _ csubs) by exact Hsubp.
  rewrite Hcmid, Hsubids, Hd1, Hd2, Hd3. cbn [text]. rewrite !orElse_empty.
  assert (Hname : text ((basicFields s w ∪ f) !! "name") = name s)
    by (rewrite (lookup_union_Some_l _ f "name" (VStr (name s))) by reflexivity;
        reflexivity).
  assert (Hloc : text ((basicFields s w ∪ f) !! "location") = location s)
    by (rewrite (lookup_union_Some_l _ f "location" (VStr (location s)))
          by reflexivity; reflexivity).
  rewrite Hname, Hloc.
  assert (Hqa : forall l : list FAQ,
            List.map (fun faq : row => {| question := text (faq !! "question");
                                          answer := text (faq !! "answer") |})
                     (List.map (faqRow (VStr (id s))) l) = l).
  { intros l. rewrite map_map. rewrite <- (map_id l) at 2. apply map_ext.
    intros [q a]. reflexivity. }
  assert (Hta : forall l : list Testimonial,
            List.map (fun t : row => {| authorName := text (t !! "author_name");
                                        t_content := text (t !! "content") |})
                     (List.map (testimonialRow (VStr (id s))) l) = l).
  { intros l. rewrite map_map. rewrite <- (map_id l) at 2. apply map_ext.
    intros [a c]. reflexivity. }
  unfold savedFaqs, savedTestimonials in *.
  destruct (List.filter faqFilled (faqs s)) as [| fq fqs] eqn:Efq;
    destruct (List.filter testimonialFilled (testimonials s)) as [| tm tms] eqn:Etm;
    destruct Hstories as [| srow story srows stories Hs1 Hss];
    cbn [List.map]; unfold_calls;
    repeat (split; [reflexivity |]);
    cbn [faqs testimonials successStories setLoading setSuccessStories setTestimonials
         setFaqs];
    try rewrite <- (Hqa (fq :: fqs)); try rewrite <- (Hta (tm :: tms));
    try (split; [reflexivity |]); try (split; [reflexivity |]);
    try reflexivity.
  all: constructor;
    [ destruct Hs1 as (u & -> & Hu); unfold loadedFrom; cbn;
      repeat split; intros Hn; rewrite (Hu Hn); reflexivity
    | clear -Hss; induction Hss as [| r0 st l1 l2 (u & -> & Hu) _ IH];
      [constructor |];
      constructor; [| exact IH];
      unfold loadedFrom; cbn; repeat split; intros Hn; rewrite (Hu Hn); reflexivity ].
Qed.

End RoundTrip.

End EditRoundTrip.

(* ===================================================================== *)
(** * Loads that find no franchise, and submissions by nobody *)
(* ===================================================================== *)

Module LoadEdges.
Import Supabase Run EditFranchise EditFranchiseLoad EditFranchiseClaims
       FranchisorLoginClaims.

Section Load.
Variable numberToString : Q -> string.

(** X23: without an id in the route the load does nothing at all: no call is
    made and the spinner is not cleared.  With an id, a load that is
    refused, or that finds no franchise or several with that id, shows
    the error and leaves every field of the form as it was, the spinner
    cleared. *)
Theorem load_without_a_single_franchise (s : State) w :
  (id s = "" -> dispatch (fetchFranchise numberToString) (s, w) = (Ok tt, (s, w)))
  /\ (id s <> "" ->
      let asked := tick (log (Select "franchises" [("id", VStr (id s))]) w) in
      let shown msg :=
        dispatch (fetchFranchise numberToString) (s, w)
        = (Ok tt, (setLoading false (setError msg s),
                   log (ConsoleError "Error fetching franchise:" msg) asked)) in
      match outcome w (calls w) with
      | Some e => shown e
      | None =>
          (forall r, db_select "franchises" [("id", VStr (id s))] w <> [r]) ->
          shown "JSON object requested, multiple (or no) rows returned"
      end).
Proof.
  split.
  - intros Hid. unfold dispatch, fetchFranchise. cbn [fst]. rewrite Hid. reflexivity.
  - intros Hid. cbv zeta. unfold dispatch, fetchFranchise, FranchiseData.select_single.
    cbn [fst].
    assert (nonEmpty (id s) = true) as -> by (apply nonEmpty_true; exact Hid).
    cbn [negb]. unfold_calls.
    destruct (outcome w (calls w)) as [e|]; unfold_calls; [reflexivity |].
    intros Hnone.
    destruct (db_select "franchises" [("id", VStr (id s))] w) as [| r [| r' rows]];
      unfold_calls; [reflexivity | | reflexivity].
    exfalso. apply (Hnone r). reflexivity.
Qed.

End Load.

End LoadEdges.

Module NobodySignedIn.
Import Supabase Run Form AddFranchise.

Section Submit.
Variable parseFloat : string -> value.

(** X24: a submission of the create form when nobody is signed in, or when
    the service does not say who is: the form asks who the user is and
    stops there, 'Not authenticated' is shown, no image is uploaded, no
    row is written, and the page stays where it is. *)
Theorem unauthenticated_submission_writes_nothing (s : State) w :
  session w = None \/ outcome w (calls w) <> None ->
  dispatch (handleSubmit parseFloat) (s, w)
  = (Ok tt, (setIsSubmitting false
               (setError "Not authenticated" (setError "" (setIsSubmitting true s))),
             tick (log GetUser w))).
Proof.
  intros H. unfold dispatch, handleSubmit. cbn [fst].
  unfold mbind at 1 2, M_bind at 1 2, setState at 1 2.
  unfold finally, try_catch at 1.
  unfold mbind at 1, M_bind at 1, getUser.
  destruct (outcome w (calls w)) as [e|] eqn:E0.
  - reflexivity.
  - destruct H as [H | H]; [| contradiction]. rewrite H. reflexivity.
Qed.

End Submit.

End NobodySignedIn.

(* ===================================================================== *)
(** * From the create form to the approval and to the ads *)
(* ===================================================================== *)

Module Approved.
Import Supabase Invariants Run Keeps Accepted Form UpdateFacts FeaturedAdsPageFacts
       FranchisorLoginClaims LeadsLoading ApprovalRuns ApprovalClaims LoadFacts
       EditFranchiseFacts ChildEntryClaims AddFranchiseFacts.

Lemma service_same w w' :
  outcome w' = outcome w -> session w' = session w -> sameService w w'.
Proof. intros A B. split; assumption. Qed.

Lemma approval_keeps_service id approved :
  keeps sameService (AdminFranchiseApprovals.handleApproval id approved).
Proof.
  assert (forall w, sameService w w) as H1 by apply sameService_refl.
  assert (forall w1 w2 w3, sameService w1 w2 -> sameService w2 w3 -> sameService w1 w3)
    as H2 by apply sameService_trans.
  assert (forall ev w, sameService w (log ev w)) as H3 by (split; reflexivity).
  assert (forall w, sameService w (tick w)) as H4 by (split; reflexivity).
  assert (forall w, sameService w (drawn w)) as H5 by (split; reflexivity).
  unfold AdminFranchiseApprovals.handleApproval,
    AdminFranchiseApprovals.fetchPendingFranchises.
  repeat keeps_step; intros w0; split; reflexivity.
Qed.

(** The pending list after an accepted read. *)
Lemma pending_run (s : AdminFranchiseApprovals.State) w :
  outcome w (calls w) = None ->
  forall x, x ∈ AdminFranchiseApprovals.pendingFranchises
                  (dispatch (fun _ => AdminFranchiseApprovals.fetchPendingFranchises)
                            (s, w)).2.1
            <-> x ∈ table w "franchises" /\ x !! "status" = Some (VStr "pending").
Proof.
  intros E0 x. unfold AdminFranchiseApprovals.fetchPendingFranchises. unfold_calls.
  rewrite E0. unfold_calls.
  cbn [AdminFranchiseApprovals.pendingFranchises AdminFranchiseApprovals.setLoading
       AdminFranchiseApprovals.setPendingFranchises].
  rewrite order_by_perm, select_pending.
  rewrite list_elem_of_In, filter_In, <- list_elem_of_In, matches_VStr. reflexivity.
Qed.

Section Create.
Variable parseFloat : string -> value.

Lemma submit_keeps_service (s : AddFranchise.State) :
  keeps sameService (AddFranchise.handleSubmit parseFloat s).
Proof.
  assert (forall w, sameService w w) as H1 by apply sameService_refl.
  assert (forall w1 w2 w3, sameService w1 w2 -> sameService w2 w3 -> sameService w1 w3)
    as H2 by apply sameService_trans.
  assert (forall ev w, sameService w (log ev w)) as H3 by (split; reflexivity).
  assert (forall w, sameService w (tick w)) as H4 by (split; reflexivity).
  assert (forall w, sameService w (drawn w)) as H5 by (split; reflexivity).
  unfold AddFranchise.handleSubmit, AddFranchise.uploadImage.
  repeat keeps_step; intros; split; reflexivity.
Qed.

Lemma table_added_franchise (s : AddFranchise.State) uid w :
  table (AddFranchise.saved parseFloat s uid w) "franchises"
  = (table w "franchises"
     ++ [<["id" := AddFranchise.createdId s w]> (AddFranchise.franchiseRow s uid)])%list.
Proof.
  unfold AddFranchise.saved, AddFranchise.afterStories.
  change (table (log ?ev ?w0) ?t) with (table w0 t).
  rewrite table_stories_other by discriminate.
  unfold AddFranchise.afterTestimonials.
  rewrite table_insert_all_other by discriminate.
  unfold AddFranchise.afterFaqs. rewrite table_insert_all_other by discriminate.
  unfold AddFranchise.afterGallery. rewrite table_gallery_other by discriminate.
  unfold AddFranchise.afterCategories.
  rewrite table_insert_all_other by discriminate.
  unfold AddFranchise.afterDetails. cbv zeta. unfold accepted.
  rewrite table_db_insert_other by discriminate.
  change (table (tick (log ?ev ?w0)) ?t) with (table w0 t).
  unfold AddFranchise.afterCreate. cbv zeta. rewrite table_db_insert.
  change (table (tick (log ?ev ?w0)) ?t) with (table w0 t).
  unfold AddFranchise.afterMainImage.
  destruct (AddFranchise.mainImageFile s); reflexivity.
Qed.

(** X25: a franchise created through the form awaits approval.  Against a
    service that accepts every call, and given that no stored franchise
    already carries the id the service hands out: the new franchise is
    on the admin's pending list and is not offered for a featured ad;
    once the admin approves it, it is offered, under its id and name;
    once the admin rejects it, it is still not offered. *)
Theorem created_franchise_awaits_approval
    (s : AddFranchise.State) (sp : AdminFranchiseApprovals.State)
    (sf : FeaturedAds.State) w uid cid approved :
  accepting w -> session w = Some uid ->
  AddFranchise.createdId s w = VStr cid ->
  (forall r, r ∈ table w "franchises" -> text (r !! "id") <> cid) ->
  let w1 := (dispatch (AddFranchise.handleSubmit parseFloat) (s, w)).2.2 in
  let created := <["id" := VStr cid]> (AddFranchise.franchiseRow s uid) in
  let pending := AdminFranchiseApprovals.pendingFranchises
                   (dispatch (fun _ => AdminFranchiseApprovals.fetchPendingFranchises)
                             (sp, w1)).2.1 in
  let offeredAt w' := FeaturedAds.franchises
                        (dispatch (fun _ => FeaturedAdsPage.fetchFranchises)
                                  (sf, w')).2.1 in
  let w2 := (AdminFranchiseApprovals.handleApproval cid approved (sp, w1)).2.2 in
  created ∈ pending
  /\ (forall p, p ∈ offeredAt w1 -> p.1 <> cid)
  /\ if approved
     then (cid, AddFranchise.name s) ∈ offeredAt w2
     else forall p, p ∈ offeredAt w2 -> p.1 <> cid.
Proof.
  intros Hacc Hs Hcid Hfresh. cbv zeta.
  pose proof (submission_accepted parseFloat s uid w Hacc Hs) as Hrun.
  rewrite Hrun. unfold dispatch in Hrun. cbn [fst] in Hrun.
  destruct (submit_keeps_service s (s, w)) as [Ho1 Hs1].
  rewrite Hrun in Ho1, Hs1. cbn [fst snd] in *. clear Hrun.
  pose proof (table_added_franchise s uid w) as Ht1. rewrite Hcid in Ht1.
  remember (AddFranchise.saved parseFloat s uid w) as w1 eqn:Ew1.
  assert (Hacc1 : accepting w1) by (intros n; rewrite Ho1; apply Hacc).
  assert (Hsess1 : session w1 = Some uid) by (rewrite Hs1; exact Hs).
  set (created := <["id" := VStr cid]> (AddFranchise.franchiseRow s uid)) in *.
  assert (Hold : forall r, r ∈ table w1 "franchises" ->
                   r = created \/ (r ∈ table w "franchises" /\ text (r !! "id") <> cid)).
  { intros r Hr. rewrite Ht1 in Hr. apply elem_of_app in Hr as [Hr | Hr].
    - right. split; [exact Hr | apply Hfresh; exact Hr].
    - left. apply list_elem_of_singleton in Hr. exact Hr. }
  split; [| split].
  - apply pending_run; [apply Hacc1 |]. split; [| reflexivity].
    rewrite Ht1. apply elem_of_app. right. left.
  - intros p Hp.
    destruct (FeaturedAdsPageFacts.fetchFranchises_run sf w1 (Hacc1 _) (Hacc1 _))
      as (_ & _ & Hoff).
    rewrite Hsess1 in Hoff. apply Hoff in Hp as (f & Hf & <- & _ & Hst).
    destruct (Hold f Hf) as [-> | [_ Hne]]; [discriminate Hst | exact Hne].
  - destruct (franchise_approval_run sp w1 cid approved (Hacc1 _))
      as (reads & _ & _ & Ht2).
    destruct (approval_keeps_service cid approved (sp, w1)) as [Ho2 Hs2].
    cbv zeta in Ht2. cbn [fst snd] in *.
    remember (AdminFranchiseApprovals.handleApproval cid approved (sp, w1)).2.2
      as w2 eqn:Ew2.
    assert (Hacc2 : accepting w2) by (intros n; rewrite Ho2; apply Hacc1).
    assert (Hsess2 : session w2 = Some uid) by (rewrite Hs2; exact Hsess1).
    destruct (status_flip "franchises" cid approved (clock w1) w1 w2 Ht2)
      as (Htab & _ & Hdec & Hkept).
    destruct (FeaturedAdsPageFacts.fetchFranchises_run sf w2 (Hacc2 _) (Hacc2 _))
      as (_ & _ & Hoff).
    rewrite Hsess2 in Hoff.
    assert (Hcm : matches "id" (VStr cid) created = true)
      by (apply matches_VStr; reflexivity).
    destruct approved.
    + apply Hoff. exists (Approval.decision true (clock w1) ∪ created).
      split; [| repeat split].
      rewrite Htab. apply list_elem_of_In, in_map_iff. exists created.
      rewrite Hcm. split; [reflexivity |]. apply list_elem_of_In.
      rewrite Ht1. apply elem_of_app. right. left.
    + intros p Hp. apply Hoff in Hp as (f & Hf & <- & _ & Hst).
      rewrite Htab in Hf. apply list_elem_of_In, in_map_iff in Hf as (r0 & Hr0 & Hin).
      apply list_elem_of_In in Hin.
      destruct (matches "id" (VStr cid) r0) eqn:Em; subst f.
      * rewrite (lookup_union_Some_l _ r0 "status" (VStr "rejected")) in Hst
          by reflexivity.
        discriminate Hst.
      * destruct (Hold r0 Hin) as [-> | [_ Hne]]; [congruence | exact Hne].
Qed.

End Create.

End Approved.

(* ===================================================================== *)
(** * Labels of the durations, the category pickers, the typed entries *)
(* ===================================================================== *)

Module DurationLabels.
Import JSDate Supabase FeaturedAds PaymentModal AdLength.

(** X26: the payment modal spells out exactly the durations that move the
    end date of the ad: a duration is shown under a label of its own
    when it is one of 1w, 2w, 1m, 6m, and precisely then the end date
    differs from the start date; any other duration is shown as it is
    and gives an ad that ends when it starts. *)
Theorem labelled_durations_move_the_end_date tza d t :
  - maxTime <= t -> t + 200 * msPerDay <= maxTime ->
  (d ∈ ["1w"; "2w"; "1m"; "6m"] <-> formatDuration d <> d)
  /\ (formatDuration d = d <-> advance tza d (Some t) = Some t).
Proof.
  intros Hlo Hhi.
  assert (Hl : d ∈ ["1w"; "2w"; "1m"; "6m"] <-> formatDuration d <> d).
  { unfold formatDuration. split.
    - intros Hin.
      repeat (apply elem_of_cons in Hin as [-> | Hin]; [cbn; discriminate |]).
      apply elem_of_nil in Hin. contradiction.
    - repeat case_bool_decide; subst; intros Hne;
        [repeat constructor .. | contradiction]. }
  split; [exact Hl |].
  destruct (advance_whole_days tza d t Hlo Hhi) as (n & He & H1 & H2 & H3 & H4 & H0).
  rewrite He. assert (msPerDay = 86400000) as E by reflexivity.
  destruct (decide (d ∈ ["1w"; "2w"; "1m"; "6m"])) as [Hin | Hout].
  - split.
    + intros Hd. apply Hl in Hin. contradiction.
    + intros Hn. exfalso. injection Hn as Hn.
      repeat (apply elem_of_cons in Hin as [-> | Hin];
              [first [ specialize (H1 eq_refl) | specialize (H2 eq_refl)
                     | specialize (H3 eq_refl) | specialize (H4 eq_refl) ]; lia |]).
      apply elem_of_nil in Hin. contradiction.
  - split.
    + intros _. rewrite (H0 Hout). f_equal. lia.
    + intros _. destruct (decide (formatDuration d = d)) as [Hd | Hd]; [exact Hd |].
      apply Hl in Hd. contradiction.
Qed.

End DurationLabels.

Module CategoryPickers.
Import Supabase Form Categories Run LeadsLoading.

Lemma select_all t w : db_select t [] w = table w t.
Proof.
  unfold db_select, matches_all. cbn [forallb].
  induction (table w t) as [| r l IH]; [reflexivity |]. cbn. f_equal. exact IH.
Qed.

(** X27: both forms load the category list the same way, and show every
    loaded category in exactly one picker: as a main category when it
    has no parent, under its parent otherwise.  A refused read leaves
    the list as it was; the create form then says 'Failed to load
    categories', the edit form says nothing. *)
Theorem stored_categories_are_offered_once
    (se : EditFranchise.State) (sa : AddFranchise.State) w :
  let re := dispatch (fun _ => EditFranchiseLoad.fetchCategories) (se, w) in
  let ra := dispatch (fun _ => AddFranchiseFields.fetchCategories) (sa, w) in
  re.1 = Ok tt /\ ra.1 = Ok tt
  /\ tables re.2.2 = tables w /\ tables ra.2.2 = tables w
  /\ match outcome w (calls w) with
     | Some e =>
         EditFranchise.categories re.2.1 = EditFranchise.categories se
         /\ EditFranchise.error re.2.1 = EditFranchise.error se
         /\ AddFranchise.categories ra.2.1 = AddFranchise.categories sa
         /\ AddFranchise.error ra.2.1 = "Failed to load categories"
     | None =>
         let cats := EditFranchise.categories re.2.1 in
         AddFranchise.categories ra.2.1 = cats
         /\ (cats ≡ₚ List.map EditFranchiseLoad.categoryOf
                              (table w "franchise_categories"))
         /\ (forall c, c ∈ cats ->
               (c ∈ mainCategories cats)
               \/ exists m, m <> "" /\ c ∈ subCategories cats m)
         /\ (forall c m, m <> "" -> c ∈ subCategories cats m ->
               (c ∉ mainCategories cats)
               /\ forall m', c ∈ subCategories cats m' -> m' = m)
         /\ AddFranchise.error ra.2.1 = AddFranchise.error sa
     end.
Proof.
  cbv zeta. unfold EditFranchiseLoad.fetchCategories, AddFranchiseFields.fetchCategories.
  unfold_calls.
  destruct (outcome w (calls w)) as [e|] eqn:E0; unfold_calls.
  { repeat split; reflexivity. }
  repeat (split; [reflexivity |]).
  unfold EditFranchiseLoad.setCategories, AddFranchiseFields.setCategories.
  cbn [EditFranchise.categories AddFranchise.categories AddFranchise.error].
  split; [rewrite order_by_perm, select_all; reflexivity |].
  set (cats := List.map EditFranchiseLoad.categoryOf _). clearbody cats.
  split; [| split; [| reflexivity]].
  - intros c Hc. unfold mainCategories, subCategories.
    destruct (isMain c) eqn:Em.
    + left. apply list_elem_of_In, filter_In. split; [apply list_elem_of_In, Hc | exact Em].
    + right. unfold isMain in Em. destruct (parent_id c) as [p|] eqn:Ep; [| discriminate].
      exists p. split; [intros ->; discriminate |].
      apply list_elem_of_In, filter_In. split; [apply list_elem_of_In, Hc |].
      apply bool_decide_eq_true. exact Ep.
  - intros c m Hm Hc. unfold mainCategories, subCategories in *.
    apply list_elem_of_In, filter_In in Hc as [Hc Hp]. apply bool_decide_eq_true in Hp.
    split.
    + intros Hmain. apply list_elem_of_In, filter_In in Hmain as [_ Hmain].
      unfold isMain in Hmain. rewrite Hp in Hmain. cbn in Hmain.
      destruct m; [contradiction | discriminate].
    + intros m' Hc'. apply list_elem_of_In, filter_In in Hc' as [_ Hp'].
      apply bool_decide_eq_true in Hp'. congruence.
Qed.

End CategoryPickers.

Module TypedEntries.
Import Supabase Form AddFranchise AddFranchiseFields Run Accepted AddFranchiseFacts
       ChildEntryClaims.

Section Typed.
Variable parseFloat : string -> value.

(** X28: what is typed into a question-and-answer entry of the create form is
    what gets saved: typing a question and an answer into entry [index]
    changes that entry and no other, and a submission the service
    accepts stores the pair for the new franchise.  A change aimed at an
    entry that is not there throws and leaves the form as it was. *)
Theorem typed_faq_is_saved (s : State) w uid index q a :
  accepting w -> session w = Some uid ->
  q <> "" -> a <> "" ->
  let r1 := dispatch (fun s => handleFAQChange s index Kquestion q) (s, w) in
  let r2 := dispatch (fun s => handleFAQChange s index Kanswer a) r1.2 in
  let w' := (dispatch (handleSubmit parseFloat) r2.2).2.2 in
  let typed := {| question := q; answer := a |} in
  match faqs s !! index with
  | Some _ =>
      r1.1 = Ok tt /\ r2.1 = Ok tt /\ r2.2.2 = w
      /\ faqs r2.2.1 = <[index := typed]> (faqs s)
      /\ (forall i, i <> index -> faqs r2.2.1 !! i = faqs s !! i)
      /\ faqRow (createdId s w) typed ∈ table w' "franchise_faqs"
  | None =>
      r1 = (Throw "Cannot set properties of undefined (setting 'question')", (s, w))
  end.
Proof.
  intros Hacc Hs Hq Ha. cbv zeta.
  destruct (faqs s !! index) as [old|] eqn:El.
  2:{ unfold dispatch. cbn [fst]. unfold handleFAQChange. rewrite El. reflexivity. }
  assert (Hr1 : dispatch (fun s => handleFAQChange s index Kquestion q) (s, w)
                = (Ok tt, (setFaqs (<[index := assignFAQ Kquestion q old]> (faqs s)) s, w))).
  { unfold dispatch. cbn [fst]. unfold handleFAQChange. rewrite El. reflexivity. }
  rewrite Hr1. cbn [fst snd].
  assert (Hlt : (index < length (faqs s))%nat) by (eapply lookup_lt_Some; exact El).
  set (s1 := setFaqs _ s).
  assert (El1 : faqs s1 !! index = Some (assignFAQ Kquestion q old)).
  { unfold s1, setFaqs. cbn [faqs]. apply list_lookup_insert_eq. exact Hlt. }
  assert (Hr2 : dispatch (fun s => handleFAQChange s index Kanswer a) (s1, w)
                = (Ok tt, (setFaqs (<[index := {| question := q; answer := a |}]> (faqs s))
                             s, w))).
  { unfold dispatch. cbn [fst]. unfold handleFAQChange. rewrite El1.
    unfold s1, setFaqs, setState. cbn [faqs assignFAQ question answer].
    rewrite list_insert_insert_eq. reflexivity. }
  rewrite Hr2. cbn [fst snd]. set (s2 := setFaqs _ s).
  split; [reflexivity |]. split; [reflexivity |]. split; [reflexivity |].
  split; [reflexivity |].
  split; [intros i Hi; unfold s2, setFaqs; cbn [faqs];
          apply list_lookup_insert_ne; auto |].
  rewrite (submission_accepted parseFloat s2 uid w Hacc Hs). cbn [snd].
  rewrite table_added_faqs.
  change (createdId s2 w) with (createdId s w).
  apply elem_of_app. right. apply list_elem_of_In, in_map, filter_In. split.
  - apply list_elem_of_In. unfold s2, setFaqs. cbn [faqs].
    apply list_elem_of_lookup. exists index. apply list_lookup_insert_eq. exact Hlt.
  - unfold faqFilled. cbn [question answer].
    destruct q; [contradiction |]. destruct a; [contradiction |]. reflexivity.
Qed.

End Typed.

End TypedEntries.

(* ===================================================================== *)
(** * Sample evaluations *)
(* ===================================================================== *)

Module Checks.
Import JSDate Supabase Samples.

(** Decide an equation by evaluating both sides. *)
Ltac evaluate := apply (bool_decide_unpack _); vm_compute; exact I.

Example iso_epoch : isoString 0 = "1970-01-01T00:00:00.000Z".
Proof. vm_compute. reflexivity. Qed.

Example iso_sample_clock : isoString (clock world0) = "2024-01-31T23:59:59.123Z".
Proof. vm_compute. reflexivity. Qed.

Example iso_leap_day : isoString 1709164800000 = "2024-02-29T00:00:00.000Z".
Proof. vm_compute. reflexivity. Qed.

Example iso_before_epoch : isoString (-1) = "1969-12-31T23:59:59.999Z".
Proof. vm_compute. reflexivity. Qed.

(** One week after 31 January is 7 February; one month after it is
    2 March in a leap year, the day February lacks being carried over. *)
Example one_week_later :
  FeaturedAds.advance 0 "1w" (Some (clock world0)) = Some (clock world0 + 604800000).
Proof. vm_compute. reflexivity. Qed.

Example one_month_after_31_january :
  JSDate.toISOString (FeaturedAds.advance 0 "1m" (Some (clock world0)))
  = Some "2024-03-02T23:59:59.123Z".
Proof. vm_compute. reflexivity. Qed.

Example six_months_after_31_january :
  JSDate.toISOString (FeaturedAds.advance 0 "6m" (Some (clock world0)))
  = Some "2024-07-31T23:59:59.123Z".
Proof. vm_compute. reflexivity. Qed.

(** In a zone two hours ahead of UTC the local date is already
    1 February, so one month later is 1 March there, which is still
    29 February in UTC. *)
Example one_month_later_east_of_utc :
  JSDate.toISOString (FeaturedAds.advance 7200000 "1m" (Some (clock world0)))
  = Some "2024-02-29T23:59:59.123Z".
Proof. vm_compute. reflexivity. Qed.

Example unknown_duration_stays :
  FeaturedAds.advance 0 "3m" (Some (clock world0)) = Some (clock world0).
Proof. vm_compute. reflexivity. Qed.

Example file_extension : fileExt {| file_name := "photo.final.png" |} = "png".
Proof. reflexivity. Qed.

Example file_without_extension : fileExt {| file_name := "photo" |} = "photo".
Proof. reflexivity. Qed.

Example purchase_without_tier :
  FeaturedAds.error
    (dispatch (FeaturedAds.handlePaymentConfirm 0) (ads "2w", world0)).2.1
  = "Invalid duration selected".
Proof. vm_compute. reflexivity. Qed.

Example pending_login_is_signed_out :
  session (dispatch FranchisorLogin.handleSubmit (login, world0)).2.2 = None.
Proof. vm_compute. reflexivity. Qed.

Example edit_uploads_story_image :
  List.filter isUpload
    (events_since world0
       (dispatch (EditFranchise.handleSubmit parseFloat0) (editForm, world0)).2.2)
  = [Upload "franchise-images" "success-stories/0.5.png" {| file_name := "story.png" |}].
Proof. vm_compute. reflexivity. Qed.

(** The edit page does not look at the result of its deletes: when the
    service refuses the delete of the category mappings (the third call
    of this save) the save still ends without error, and the old mapping
    of the franchise stays next to the new ones. *)
Example refused_delete_goes_unnoticed :
  let run := dispatch (EditFranchise.handleSubmit parseFloat0)
                      (editForm, refusing 2 "permission denied" world0) in
  run.1 = Ok tt
  /\ EditFranchise.error run.2.1 = ""
  /\ List.filter (matches "franchise_id" (VStr "f1"))
       (table run.2.2 "franchise_category_mappings")
     = [Form.mappingRow (VStr "f1") "c9"; Form.mappingRow (VStr "f1") "c1";
        Form.mappingRow (VStr "f1") "c2"; Form.mappingRow (VStr "f1") "c3"].
Proof. cbv zeta. split; [| split]; evaluate. Qed.

(** A refused insert stops the save: the entries after it are not
    written and the error is shown. *)
Example refused_insert_stops_the_save :
  let run := dispatch (EditFranchise.handleSubmit parseFloat0)
                      (editForm, refusing 3 "insert failed" world0) in
  EditFranchise.error run.2.1 = "insert failed"
  /\ List.filter (matches "franchise_id" (VStr "f1"))
       (table run.2.2 "franchise_category_mappings") = []
  /\ List.filter (matches "franchise_id" (VStr "f1"))
       (table run.2.2 "franchise_faqs")
     = [obj [("franchise_id", VStr "f1"); ("question", VStr "old");
             ("answer", VStr "old")]].
Proof. cbv zeta. split; [| split]; evaluate. Qed.

Example refused_lead_update_keeps_status :
  let run := dispatch (fun s => Leads.handleViewLead s leadNew)
                      (leadsPage, refusing 0 "offline" world0) in
  Leads.leads run.2.1 = [leadNew; leadQualified]
  /\ Leads.error run.2.1 = "offline".
Proof. cbv zeta. split; evaluate. Qed.

End Checks.

(* ===================================================================== *)
(** * The statements at sample inputs *)
(* ===================================================================== *)

Module Witnesses.
Import JSDate Supabase Samples.


Lemma featured_ad_row_at_creation_witness :
  FeaturedAds.clockInRange world0
  /\ exists r rest,
       trace (dispatch (FeaturedAds.handlePaymentConfirm 0) (ads "1w", world0)).2.2
       = (trace world0 ++ Insert "featured_ads" r :: rest)%list
       /\ Forall (fun ev => writes ev = false) rest
       /\ r !! "status" = Some (VStr "pending_payment")
       /\ r !! "payment_status" = Some (VStr "pending")
       /\ r !! "amount" = Some (VNum (Qmake 9999 100))
       /\ r !! "start_date" = Some (VStr "2024-01-31T23:59:59.123Z")
       /\ r !! "franchise_id" = Some (VStr "f1")
       /\ (outcome world0 (calls world0) = None ->
           table (dispatch (FeaturedAds.handlePaymentConfirm 0) (ads "1w", world0)).2.2
                 "featured_ads"
           = (table world0 "featured_ads" ++ [<["id" := VStr "id-0"]> r])%list).
Proof.
  assert (Hc : FeaturedAds.clockInRange world0) by (split; vm_compute; discriminate).
  split; [exact Hc |].
  exact (FeaturedAdsClaims.featured_ad_row_at_creation 0 (ads "1w") world0 Hc).
Defined.

Lemma unknown_duration_zero_length_witness :
  ("3m" ∉ ["1w"; "2w"; "1m"; "6m"])
  /\ exists r rest,
       trace (dispatch (FeaturedAds.handlePaymentConfirm 0) (ads "3m", world0)).2.2
       = (trace world0 ++ Insert "featured_ads" r :: rest)%list
       /\ r !! "start_date" = Some (VStr (isoString (clock world0)))
       /\ r !! "end_date" = r !! "start_date"
       /\ r !! "status" = Some (VStr "pending_payment")
       /\ (outcome world0 (calls world0) = None ->
           table (dispatch (FeaturedAds.handlePaymentConfirm 0) (ads "3m", world0)).2.2
                 "featured_ads"
           = (table world0 "featured_ads"
              ++ [<["id" := VStr (fresh world0 (calls world0))]> r])%list).
Proof.
  assert (Hd : "3m" ∉ ["1w"; "2w"; "1m"; "6m"]).
  { intros Hin. repeat (apply elem_of_cons in Hin as [Hin | Hin]; [discriminate |]).
    apply elem_of_nil in Hin. exact Hin. }
  split; [exact Hd |].
  exact (FeaturedAdsClaims.unknown_duration_zero_length 0 (ads "3m") world0
           {| FeaturedAds.duration := "3m"; FeaturedAds.price := Qmake 79999 100 |}
           Hd eq_refl).
Defined.

Lemma unapproved_franchisor_is_signed_out_witness :
  events_since world0 (dispatch FranchisorLogin.handleSubmit (login, world0)).2.2
  = [SignInWithPassword "ada@example.com" "secret"; GetUser;
     Select "profiles" [("id", VStr "u1")]; SignOut;
     ConsoleError "Login error:" FranchisorLogin.pendingMessage]
  /\ (forall path,
        Navigate path ∉
          events_since world0 (dispatch FranchisorLogin.handleSubmit (login, world0)).2.2)
  /\ FranchisorLogin.error (dispatch FranchisorLogin.handleSubmit (login, world0)).2.1
     = FranchisorLogin.pendingMessage
  /\ FranchisorLogin.loading (dispatch FranchisorLogin.handleSubmit (login, world0)).2.1
     = false
  /\ (outcome world0 (S (S (S (calls world0)))) = None ->
      session (dispatch FranchisorLogin.handleSubmit (login, world0)).2.2 = None)
  /\ FranchisorLogin.pendingMessage <> FranchisorLogin.rejectedMessage.
Proof.
  exact (FranchisorLoginClaims.unapproved_franchisor_is_signed_out login world0
           {| user_id := "u1"; user_email := "ada@example.com";
              user_password := "secret" |}
           (obj [("id", VStr "u1"); ("user_type", VStr "franchisor");
                 ("status", VStr "pending"); ("full_name", VStr "Ada")])
           "pending" (or_introl eq_refl) eq_refl eq_refl eq_refl eq_refl
           eq_refl eq_refl eq_refl).
Defined.

Lemma accepting_world0 : accepting world0.
Proof. intros n. reflexivity. Qed.

Lemma view_marks_new_lead_contacted_once_witness :
  leadNew !! "id" = Some (VStr "l1")
  /\ Leads.leads (dispatch (fun s => Leads.handleViewLead s leadNew)
                           (leadsPage, world0)).2.1
     = [<["status" := VStr "contacted"]> leadNew; leadQualified]
  /\ events_since world0
       (dispatch (fun s => Leads.handleViewLead s leadNew) (leadsPage, world0)).2.2
     = [Update "franchise_leads" Leads.contacted "id" (VStr "l1")].
Proof.
  assert (Hid : leadNew !! "id" = Some (VStr "l1")) by reflexivity.
  split; [exact Hid |].
  destruct (LeadsClaims.view_marks_new_lead_contacted_once leadsPage world0
              leadNew "l1" Hid) as [_ Hnew].
  destruct (Hnew eq_refl eq_refl) as (Hev & _ & Hl & _).
  split; [rewrite Hl; reflexivity | exact Hev].
Defined.

Lemma only_filled_children_persist_witness :
  accepting world0 /\ session world0 = Some "u1"
  /\ table (dispatch (EditFranchise.handleSubmit parseFloat0) (editForm, world0)).2.2
           "franchise_faqs"
     = [obj [("franchise_id", VStr "f2"); ("question", VStr "q2");
             ("answer", VStr "a2")];
        obj [("franchise_id", VStr "f1"); ("question", VStr "Fee?");
             ("answer", VStr "None")]]
  /\ table (dispatch (AddFranchise.handleSubmit parseFloat0) (addForm, world0)).2.2
           "franchise_success_stories"
     = [].
Proof.
  split; [exact accepting_world0 |]. split; [reflexivity |].
  destruct (ChildEntryClaims.only_filled_children_persist parseFloat0
              editForm addForm "u1" world0) as (_ & _ & Hedit & Hadd).
  destruct (Hedit accepting_world0) as (_ & _ & Hf & _).
  destruct (Hadd accepting_world0 eq_refl) as (_ & _ & new & _ & _ & rows & Hs & Hr).
  split; [rewrite Hf; apply (bool_decide_unpack _); vm_compute; exact I |].
  rewrite Hs. inversion Hr. reflexivity.
Defined.

Lemma unchanged_main_image_is_kept_witness :
  EditFranchise.mainImageFile editForm = None
  /\ Forall (EditFranchise.keepsMainImage editForm)
       (events_since world0
          (dispatch (EditFranchise.handleSubmit parseFloat0) (editForm, world0)).2.2).
Proof.
  split; [reflexivity |].
  exact (proj1 (EditFranchiseClaims.unchanged_main_image_is_kept parseFloat0
                  editForm world0 eq_refl)).
Defined.


Lemma approval_is_single_status_flip_witness :
  outcome world0 (calls world0) = None
  /\ List.filter writes
       (events_since world0
          (AdminFranchiseApprovals.handleApproval "f1" true
             (franchiseApprovals, world0)).2.2)
     = [Update "franchises" (Approval.decision true (clock world0)) "id" (VStr "f1")]
  /\ List.filter writes
       (events_since world0
          (AdminAccountApprovals.handleApproval "u1" true
             (accountApprovals, world0)).2.2)
     = [Update "profiles" (Approval.decision true (clock world0)) "id" (VStr "u1")].
Proof.
  split; [reflexivity |].
  destruct (ApprovalClaims.approval_is_single_status_flip franchiseApprovals
              accountApprovals world0 "f1" true eq_refl) as [(Hf & _) _].
  destruct (ApprovalClaims.approval_is_single_status_flip franchiseApprovals
              accountApprovals world0 "u1" true eq_refl) as [_ (Ha & _)].
  split; [exact Hf | exact Ha].
Defined.

(** A save with no new main image that uploads all the same: the image
    of a success story goes to storage, so "no storage upload is
    performed" does not hold of every such save. *)
Lemma upload_without_new_main_image :
  ~ (EditFranchise.mainImageFile editForm = None ->
     List.filter isUpload
       (events_since world0
          (dispatch (EditFranchise.handleSubmit parseFloat0) (editForm, world0)).2.2)
     = []).
Proof. intros H. specialize (H eq_refl). vm_compute in H. discriminate H. Qed.

End Witnesses.

(* ===================================================================== *)
(** * The further statements at sample inputs *)
(* ===================================================================== *)

Module MoreWitnesses.
Import JSDate Supabase Samples MoreSamples.

Lemma clockInRange_world0 : FeaturedAds.clockInRange world0.
Proof. split; vm_compute; discriminate. Qed.

Lemma accepting_world1 : accepting world1.
Proof. intros n. reflexivity. Qed.


Lemma shown_amount_is_charged_witness :
  FeaturedAds.clockInRange world0
  /\ exists r rest q,
       trace (dispatch (FeaturedAds.handlePaymentConfirm 0) (ads "1w", world0)).2.2
       = (trace world0 ++ Insert "featured_ads" r :: rest)%list
       /\ Forall (fun ev => writes ev = false) rest
       /\ r !! "amount" = Some (VNum q)
       /\ Qeq q (FeaturedAdsPage.shownAmount (ads "1w")).
Proof.
  split; [exact clockInRange_world0 |].
  exact (FeaturedAdsRuns.shown_amount_is_charged 0 (ads "1w") world0
           {| FeaturedAds.duration := "1w"; FeaturedAds.price := Qmake 9999 100 |}
           eq_refl clockInRange_world0).
Defined.

Lemma only_own_approved_franchises_offered_witness :
  outcome world1 (calls world1) = None
  /\ forall p,
       p ∈ FeaturedAds.franchises
             (dispatch (fun _ => FeaturedAdsPage.fetchFranchises) (ads "1w", world1)).2.1
       <-> exists f, f ∈ table world1 "franchises" /\ FeaturedAdsPage.offered f = p
                     /\ f !! "franchisor_id" = Some (VStr "u1")
                     /\ f !! "status" = Some (VStr "approved").
Proof.
  split; [reflexivity |].
  exact (proj2 (proj2 (FeaturedAdsPageFacts.only_own_approved_franchises_offered
                         (ads "1w") world1 eq_refl eq_refl))).
Defined.

Lemma chosen_tier_is_charged_witness :
  {| FeaturedAds.duration := "1m"; FeaturedAds.price := Qmake 29999 100 |}
    ∈ FeaturedAds.pricingTiers (ads "")
  /\ exists r rest,
       trace (dispatch (FeaturedAds.handlePaymentConfirm 0)
                (dispatch FeaturedAdsPage.handleDurationSelected
                   (FeaturedAds.setSelectedDuration "1m"
                      (FeaturedAds.setSelectedFranchise "f1"
                         (dispatch (fun _ => FeaturedAdsPage.handleCreateAd)
                                   (ads "", world0)).2.1),
                    world0)).2).2.2
       = (trace world0 ++ Insert "featured_ads" r :: rest)%list
       /\ r !! "franchise_id" = Some (VStr "f1")
       /\ r !! "amount" = Some (VNum (Qmake 29999 100)).
Proof.
  assert (Hin : {| FeaturedAds.duration := "1m"; FeaturedAds.price := Qmake 29999 100 |}
                  ∈ FeaturedAds.pricingTiers (ads "")) by (right; left).
  split; [exact Hin |].
  destruct (FeaturedAdsPageFacts.chosen_tier_is_charged 0 (ads "") world0 "f1"
              {| FeaturedAds.duration := "1m"; FeaturedAds.price := Qmake 29999 100 |}
              ltac:(discriminate) ltac:(discriminate) Hin clockInRange_world0)
    as (_ & _ & _ & first & r & rest & Hf & Ht & _ & Hr & Ha & _).
  exists r, rest. split; [exact Ht |]. split; [exact Hr |].
  rewrite Ha. injection Hf as <-. reflexivity.
Defined.

Lemma wrong_credentials_are_refused_witness :
  find_user "ada@example.com" "guess" (users world1) = None
  /\ events_since world1
       (dispatch FranchisorLogin.handleSubmit
                 (loginAs "ada@example.com" "guess", world1)).2.2
     = [SignInWithPassword "ada@example.com" "guess";
        ConsoleError "Login error:" "Invalid login credentials"]
  /\ FranchisorLogin.error
       (dispatch FranchisorLogin.handleSubmit
                 (loginAs "ada@example.com" "guess", world1)).2.1
     = "Invalid email or password".
Proof.
  split; [reflexivity |].
  destruct (FranchisorLoginRuns.wrong_credentials_are_refused
              (loginAs "ada@example.com" "guess") world1 eq_refl eq_refl)
    as (_ & Hev & Herr & _).
  split; [exact Hev | exact Herr].
Defined.

Lemma wrong_role_stays_signed_in_witness :
  profileCy !! "user_type" <> Some (VStr "franchisor")
  /\ FranchisorLogin.error
       (dispatch FranchisorLogin.handleSubmit
                 (loginAs "cy@example.com" "pw3", world1)).2.1
     = "Unauthorized access"
  /\ session (dispatch FranchisorLogin.handleSubmit
                       (loginAs "cy@example.com" "pw3", world1)).2.2
     = Some "u3".
Proof.
  assert (Hty : profileCy !! "user_type" <> Some (VStr "franchisor"))
    by (vm_compute; discriminate).
  split; [exact Hty |].
  destruct (FranchisorLoginRuns.wrong_role_stays_signed_in
              (loginAs "cy@example.com" "pw3") world1 cy profileCy
              eq_refl eq_refl eq_refl eq_refl eq_refl Hty)
    as (_ & _ & Herr & _ & Hs).
  split; [exact Herr | exact Hs].
Defined.

Lemma other_statuses_reach_the_dashboard_witness :
  profileAda !! "status" = Some (VStr "approved")
  /\ last (events_since world1
             (dispatch FranchisorLogin.handleSubmit
                       (loginAs "ada@example.com" "secret", world1)).2.2)
     = Some (Navigate "/franchisor/dashboard")
  /\ session (dispatch FranchisorLogin.handleSubmit
                       (loginAs "ada@example.com" "secret", world1)).2.2
     = Some "u1".
Proof.
  split; [reflexivity |].
  destruct (FranchisorLoginRuns.other_statuses_reach_the_dashboard
              (loginAs "ada@example.com" "secret") world1 ada profileAda
              eq_refl eq_refl eq_refl eq_refl eq_refl eq_refl
              ltac:(vm_compute; discriminate) ltac:(vm_compute; discriminate))
    as (_ & Hlast & _ & _ & Hs & _).
  split; [exact Hlast | exact Hs].
Defined.

Lemma dashboard_only_for_cleared_franchisors_witness :
  Navigate "/franchisor/dashboard"
    ∈ events_since world1
        (dispatch FranchisorLogin.handleSubmit
                  (loginAs "ada@example.com" "secret", world1)).2.2
  /\ exists a p,
       find_user "ada@example.com" "secret" (users world1) = Some a
       /\ db_select "profiles" [("id", VStr (user_id a))] world1 = [p]
       /\ p !! "user_type" = Some (VStr "franchisor")
       /\ p !! "status" <> Some (VStr "pending")
       /\ p !! "status" <> Some (VStr "rejected").
Proof.
  assert (Hin : Navigate "/franchisor/dashboard"
                  ∈ events_since world1
                      (dispatch FranchisorLogin.handleSubmit
                                (loginAs "ada@example.com" "secret", world1)).2.2).
  { apply list_elem_of_In. vm_compute. do 5 right. left. reflexivity. }
  split; [exact Hin |].
  destruct (FranchisorLoginRuns.dashboard_only_for_cleared_franchisors
              (loginAs "ada@example.com" "secret") world1 "/franchisor/dashboard" Hin)
    as (_ & a & p & Ha & Hp & Hty & H1 & H2 & _).
  exists a, p. repeat split; assumption.
Defined.

Lemma inStep_world1 : LeadsPage.inStep (leadsOfAda "all") world1.
Proof.
  intros lead Hin. exists lead. split; [| split; reflexivity].
  apply elem_of_cons in Hin as [-> | Hin]; [left |].
  apply elem_of_cons in Hin as [-> | Hin]; [right; left |].
  apply elem_of_nil in Hin. contradiction.
Qed.

Lemma status_change_keeps_list_in_step_witness :
  LeadsPage.inStep (leadsOfAda "all") world1
  /\ LeadsPage.inStep
       (dispatch (fun s => Leads.updateLeadStatus s "l2" "converted")
                 (leadsOfAda "all", world1)).2.1
       (dispatch (fun s => Leads.updateLeadStatus s "l2" "converted")
                 (leadsOfAda "all", world1)).2.2.
Proof.
  split; [exact inStep_world1 |].
  exact (proj1 (proj2 (LeadsRuns.status_change_keeps_list_in_step
                         (leadsOfAda "all") world1 "l2" "converted" inStep_world1))).
Defined.

Lemma viewed_lead_leaves_the_new_list_witness :
  lead1 ∈ Leads.leads (leadsOfAda "new")
  /\ lead1 ∈ LeadsPage.filteredLeads (leadsOfAda "new")
  /\ (forall l,
        l ∈ LeadsPage.filteredLeads
              (dispatch (fun s => Leads.handleViewLead s lead1)
                        (leadsOfAda "new", world1)).2.1 ->
        l !! "id" <> Some (VStr "l1"))
  /\ (LeadsPage.newLeads
        (dispatch (fun s => Leads.handleViewLead s lead1)
                  (leadsOfAda "new", world1)).2.1
      < LeadsPage.newLeads (leadsOfAda "new"))%nat.
Proof.
  assert (Hin : lead1 ∈ Leads.leads (leadsOfAda "new")) by left.
  split; [exact Hin |].
  destruct (LeadsRuns.viewed_lead_leaves_the_new_list (leadsOfAda "new") world1
              lead1 "l1" Hin eq_refl eq_refl eq_refl)
    as (Hnew & _ & Hlt & _).
  destruct (Hnew eq_refl) as [H1 H2].
  split; [exact H1 |]. split; [exact H2 | exact Hlt].
Defined.


Lemma viewing_a_lead_lowers_the_badge_witness :
  db_select "franchise_leads" [("id", VStr "l1")] world1 = [lead1]
  /\ S (FranchisorLayout.leads
          (FranchisorLayout.notificationCounts
             (dispatch (fun _ => FranchisorLayout.fetchNotificationCounts)
                (layout,
                 (dispatch (fun s => Leads.handleViewLead s lead1)
                           (leadsOfAda "all", world1)).2.2)).2.1))
     = FranchisorLayout.leads
         (FranchisorLayout.notificationCounts
            (dispatch (fun _ => FranchisorLayout.fetchNotificationCounts)
                      (layout, world1)).2.1).
Proof.
  split; [reflexivity |].
  exact (proj1 (Badge.viewing_a_lead_lowers_the_badge (leadsOfAda "all") layout world1
                  "u1" lead1 lead1 "l1" accepting_world1 eq_refl eq_refl eq_refl
                  eq_refl eq_refl eq_refl)).
Defined.

Lemma decided_franchise_leaves_the_list_witness :
  outcome world1 (calls world1) = None
  /\ forall x,
       x ∈ AdminFranchiseApprovals.pendingFranchises
             (AdminFranchiseApprovals.handleApproval "f2" true
                (franchiseApprovals, world1)).2.1
       <-> x ∈ table world1 "franchises" /\ x !! "status" = Some (VStr "pending")
           /\ x !! "id" <> Some (VStr "f2").
Proof.
  split; [reflexivity |].
  exact (proj2 (proj2 (ApprovalRuns.decided_franchise_leaves_the_list
                         franchiseApprovals world1 "f2" true eq_refl eq_refl))).
Defined.

Lemma refused_decision_changes_nothing_witness :
  outcome (refusing 0 "denied" world1) (calls (refusing 0 "denied" world1))
  = Some "denied"
  /\ tables (AdminFranchiseApprovals.handleApproval "f2" true
               (franchiseApprovals, refusing 0 "denied" world1)).2.2
     = tables (refusing 0 "denied" world1)
  /\ AdminAccountApprovals.error
       (AdminAccountApprovals.handleApproval "u2" false
          (accountApprovals, refusing 0 "denied" world1)).2.1
     = "denied".
Proof.
  split; [reflexivity |].
  destruct (ApprovalRuns.refused_decision_changes_nothing franchiseApprovals
              accountApprovals (refusing 0 "denied" world1) "f2" true "denied" eq_refl)
    as [(_ & Ht & _) _].
  destruct (ApprovalRuns.refused_decision_changes_nothing franchiseApprovals
              accountApprovals (refusing 0 "denied" world1) "u2" false "denied" eq_refl)
    as [_ (_ & _ & _ & _ & _ & He)].
  split; [exact Ht | exact He].
Defined.

Lemma pending_accounts_carry_their_email_witness :
  outcome world1 (calls world1) = None
  /\ forall acc,
       acc ∈ AdminAccountApprovals.pendingAccounts
               (dispatch (fun _ => AdminAccountApprovals.fetchPendingAccounts)
                         (accountApprovals, world1)).2.1 ->
       AdminAccountApprovals.acc_email acc <> "".
Proof.
  split; [reflexivity |].
  destruct (AccountList.pending_accounts_carry_their_email accountApprovals world1
              eq_refl eq_refl) as (_ & _ & _ & _ & H).
  intros acc Hacc. exact (proj1 (H acc Hacc)).
Defined.


Lemma saved_form_loads_back_witness :
  accepting world1
  /\ db_select "franchises" [("id", VStr "f1")] world1 = [cafe]
  /\ EditFranchiseLoad.categoryRow world1 "c1" = Some food
  /\ EditFranchise.name
       (dispatch (EditFranchiseLoad.fetchFranchise numberToString0)
          (editFormBlank,
           (dispatch (EditFranchise.handleSubmit parseFloat0)
                     (editFormLoaded, world1)).2.2)).2.1
     = "Cafe"
  /\ EditFranchise.selectedSubCategories
       (dispatch (EditFranchiseLoad.fetchFranchise numberToString0)
          (editFormBlank,
           (dispatch (EditFranchise.handleSubmit parseFloat0)
                     (editFormLoaded, world1)).2.2)).2.1
     = ["c2"]
  /\ EditFranchise.faqs
       (dispatch (EditFranchiseLoad.fetchFranchise numberToString0)
          (editFormBlank,
           (dispatch (EditFranchise.handleSubmit parseFloat0)
                     (editFormLoaded, world1)).2.2)).2.1
     = [ {| Form.question := "Fee?"; Form.answer := "None" |} ].
Proof.
  split; [exact accepting_world1 |]. split; [reflexivity |]. split; [reflexivity |].
  assert (Hsubs : forall c, c ∈ EditFranchise.selectedSubCategories editFormLoaded ->
            c <> "" /\ exists cs, EditFranchiseLoad.categoryRow world1 c = Some cs
                                  /\ SupabaseQueries.truthy (cs !! "parent_id") = true).
  { intros c Hc. apply list_elem_of_singleton in Hc as ->.
    split; [discriminate |]. exists bakeries. split; reflexivity. }
  destruct (EditRoundTrip.saved_form_loads_back parseFloat0 numberToString0
              editFormLoaded editFormBlank world1 cafe food accepting_world1
              ltac:(discriminate) eq_refl eq_refl ltac:(discriminate) eq_refl eq_refl
              Hsubs)
    as (_ & _ & _ & Hn & _ & _ & _ & _ & _ & Hs & Hf & _).
  split; [exact Hn |]. split; [exact Hs | exact Hf].
Defined.

Lemma unauthenticated_submission_writes_nothing_witness :
  outcome (refusing 0 "denied" world1) (calls (refusing 0 "denied" world1)) <> None
  /\ tables (dispatch (AddFranchise.handleSubmit parseFloat0)
                      (addFormLoaded, refusing 0 "denied" world1)).2.2
     = tables world1
  /\ AddFranchise.error
       (dispatch (AddFranchise.handleSubmit parseFloat0)
                 (addFormLoaded, refusing 0 "denied" world1)).2.1
     = "Not authenticated".
Proof.
  assert (H : outcome (refusing 0 "denied" world1) (calls (refusing 0 "denied" world1))
              <> None) by discriminate.
  split; [exact H |].
  rewrite (NobodySignedIn.unauthenticated_submission_writes_nothing parseFloat0
             addFormLoaded (refusing 0 "denied" world1) (or_intror H)).
  split; reflexivity.
Defined.

Lemma fresh_id_world1 :
  forall r, r ∈ table world1 "franchises" -> text (r !! "id") <> "id-1".
Proof.
  intros r Hr.
  repeat (apply elem_of_cons in Hr as [-> | Hr]; [discriminate |]).
  apply elem_of_nil in Hr. contradiction.
Qed.

Lemma created_franchise_awaits_approval_witness :
  AddFranchise.createdId addFormLoaded world1 = VStr "id-1"
  /\ (<["id" := VStr "id-1"]> (AddFranchise.franchiseRow addFormLoaded "u1"))
       ∈ AdminFranchiseApprovals.pendingFranchises
           (dispatch (fun _ => AdminFranchiseApprovals.fetchPendingFranchises)
              (franchiseApprovals,
               (dispatch (AddFranchise.handleSubmit parseFloat0)
                         (addFormLoaded, world1)).2.2)).2.1
  /\ ("id-1", "Bakery")
       ∈ FeaturedAds.franchises
           (dispatch (fun _ => FeaturedAdsPage.fetchFranchises)
              (ads "1w",
               (AdminFranchiseApprovals.handleApproval "id-1" true
                  (franchiseApprovals,
                   (dispatch (AddFranchise.handleSubmit parseFloat0)
                             (addFormLoaded, world1)).2.2)).2.2)).2.1.
Proof.
  split; [reflexivity |].
  destruct (Approved.created_franchise_awaits_approval parseFloat0 addFormLoaded
              franchiseApprovals (ads "1w") world1 "u1" "id-1" true
              accepting_world1 eq_refl eq_refl fresh_id_world1)
    as (Hp & _ & Ho).
  split; [exact Hp | exact Ho].
Defined.

Lemma labelled_durations_move_the_end_date_witness :
  - maxTime <= clock world0
  /\ PaymentModal.formatDuration "1m" <> "1m"
  /\ FeaturedAds.advance 0 "1m" (Some (clock world0)) <> Some (clock world0).
Proof.
  destruct clockInRange_world0 as [Hlo Hhi].
  split; [exact Hlo |].
  destruct (DurationLabels.labelled_durations_move_the_end_date 0 "1m" (clock world0)
              Hlo Hhi) as [Hl He].
  assert (Hne : PaymentModal.formatDuration "1m" <> "1m")
    by (apply Hl; right; right; left).
  split; [exact Hne |]. intros H. apply Hne, He, H.
Defined.

Lemma typed_faq_is_saved_witness :
  accepting world1
  /\ AddFranchise.faqs
       (dispatch (fun s => AddFranchiseFields.handleFAQChange s 1
                             AddFranchiseFields.Kanswer "Low")
          (dispatch (fun s => AddFranchiseFields.handleFAQChange s 1
                                AddFranchiseFields.Kquestion "Cost?")
                    (addFormLoaded, world1)).2).2.1
     = [ {| Form.question := "Fee?"; Form.answer := "None" |};
         {| Form.question := "Cost?"; Form.answer := "Low" |};
         {| Form.question := "Orphan question?"; Form.answer := "" |} ]
  /\ Form.faqRow (VStr "id-1") {| Form.question := "Cost?"; Form.answer := "Low" |}
       ∈ table
           (dispatch (AddFranchise.handleSubmit parseFloat0)
              (dispatch (fun s => AddFranchiseFields.handleFAQChange s 1
                                    AddFranchiseFields.Kanswer "Low")
                 (dispatch (fun s => AddFranchiseFields.handleFAQChange s 1
                                       AddFranchiseFields.Kquestion "Cost?")
                           (addFormLoaded, world1)).2).2).2.2
           "franchise_faqs".
Proof.
  split; [exact accepting_world1 |].
  pose proof (TypedEntries.typed_faq_is_saved parseFloat0 addFormLoaded world1 "u1" 1
                "Cost?" "Low" accepting_world1 eq_refl
                ltac:(discriminate) ltac:(discriminate)) as H.
  destruct H as (_ & _ & _ & Hf & _ & Hin).
  split; [exact Hf | exact Hin].
Defined.

End MoreWitnesses.
